(** * Expense approval workflow and frozen currency conversion

    A shallow embedding of the approval engine
    ([backend-ts/src/services/approval.ts]), of the currency service
    ([CurrencyService.convertCurrency]) and of the two controller entry
    points [ExpenseController.submitExpense] and
    [ExpenseController.approveExpense], together with the parts of the
    alternate JavaScript backend ([backend/src]) they are compared with.

    Conventions of the embedding:
    - a Prisma table is the list of its rows, in the order in which the
      store returns them;
    - a JavaScript [number] is an IEEE 754 binary64 value ([spec_float]
      with precision 53 and maximal exponent 1024);
    - a handler is a function from the store to a new store and an outcome
      (a value or a thrown error): writes done before a [throw] stay in the
      store, as in the code, which opens no transaction there. *)

From Stdlib Require Import ZArith List Bool String Ascii Lia DecimalString.
From Stdlib Require Import Floats.SpecFloat.
Import ListNotations.

Open Scope string_scope.
Open Scope Z_scope.

(** ** JavaScript numbers *)

Module JsNumber.

Definition prec : Z := 53.
Definition emax : Z := 1024.

Definition number : Type := spec_float.

Definition NaN : number := S754_nan.

(** The number denoted by an integer literal or an integer column. *)
Definition ofZ (z : Z) : number := binary_normalize prec emax z 0 false.

Definition ofNat (n : nat) : number := ofZ (Z.of_nat n).

Definition mul (x y : number) : number := SFmul prec emax x y.
Definition div (x y : number) : number := SFdiv prec emax x y.

(** [x >= y]; false as soon as one side is NaN. *)
Definition geb (x y : number) : bool := SFleb y x.
(** [x <= y] *)
Definition leb (x y : number) : bool := SFleb x y.

(** The decimal literal [n / 10^k] read by [Number(...)], for [n >= 0]:
    the binary64 value nearest to the quotient. *)
Definition ofDecimal (neg : bool) (n : Z) (p : positive) : number :=
  match n with
  | Zpos m =>
      let '(q, e, l) := SFdiv_core_binary prec emax (Zpos m) 0 (Zpos p) 0 in
      binary_round_aux prec emax neg q e l
  | _ => S754_zero neg
  end.

(** [Math.round(100 * |x|)] computed on the exact value [m * 2^e] of a
    finite double: the integer [n] with [n / 100] nearest to it, the larger
    one on a tie (step 10.a of Number.prototype.toFixed). *)
Definition hundredths (m : positive) (e : Z) : Z :=
  match e with
  | Zneg k => (Zpos m * 200 + Z.pow 2 (Zpos k)) / Z.pow 2 (Zpos k + 1)
  | _ => Zpos m * 100 * Z.pow 2 e
  end.

(** [Number(x.toFixed(2))].  NaN and the infinities print as themselves;
    from 1e21 on toFixed falls back to ToString, which reads back as [x].
    A zero prints as 0.00 whatever its sign (the sign is printed for
    [x < 0] only), and reads back as [+0]. *)
Definition toFixed2 (x : number) : number :=
  match x with
  | S754_finite s m e =>
      if geb (S754_finite false m e) (ofZ (10 ^ 21)) then x
      else ofDecimal s (hundredths m e) 100
  | S754_zero _ => S754_zero false
  | _ => x
  end.

End JsNumber.

Import JsNumber.

(** ** Strings of the JavaScript side *)

Definition upper_ascii (c : ascii) : ascii :=
  let n := nat_of_ascii c in
  if (andb (Nat.leb 97 n) (Nat.leb n 122)) then ascii_of_nat (n - 32) else c.

(** [String.prototype.toUpperCase] on ASCII text. *)
Fixpoint toUpperCase (s : string) : string :=
  match s with
  | EmptyString => EmptyString
  | String c r => String (upper_ascii c) (toUpperCase r)
  end.

(** Truthiness of a string value ([if (s)]): non-empty. *)
Definition truthy_string (s : string) : bool :=
  match s with EmptyString => false | _ => true end.

(** [s === o] where [o] may be [null]. *)
Definition eq_nullable (s : string) (o : option string) : bool :=
  match o with Some t => String.eqb s t | None => false end.

(** ** The data model (the Prisma tables) *)

Record Company := mkCompany {
  c_id : string;
  c_defaultCurrency : string
}.

Record User := mkUser {
  u_id : string;
  u_companyId : string;
  u_role : string;
  u_managerId : option string;
  u_isActive : bool
}.

Record Expense := mkExpense {
  e_id : string;
  e_companyId : string;
  e_userId : string;
  e_originalCurrency : string;
  e_originalAmount : number;
  e_convertedAmount : option number;
  e_conversionRate : option number;
  e_rateTimestamp : option Z;
  e_category : string;
  e_status : string;
  e_submittedAt : option Z
}.

Record ApprovalStep := mkStep {
  s_id : string;
  s_expenseId : string;
  s_approverId : string;
  s_sequenceIndex : Z;
  s_status : string;
  s_actionBy : option string;
  s_actionAt : option Z;
  s_comments : option string
}.

Record ApprovalRule := mkRule {
  r_id : string;
  r_companyId : string;
  r_name : string;
  r_type : string;
  r_thresholdPercent : option Z;
  r_specificApproverId : option string;
  r_appliesToCategory : option string;
  r_minAmount : option number;
  r_maxAmount : option number;
  r_isActive : bool;
  r_priority : Z;
  r_createdAt : Z
}.

Record ExchangeRate := mkRate {
  x_baseCurrency : string;
  x_targetCurrency : string;
  x_rate : number;
  x_timestamp : Z
}.

(** The store.  [db_seq] counts the rows created so far and stands for the
    identifier generator. *)
Record DB := mkDB {
  companies : list Company;
  users : list User;
  expenses : list Expense;
  approvalSteps : list ApprovalStep;
  approvalRules : list ApprovalRule;
  exchangeRates : list ExchangeRate;
  db_seq : nat
}.

Definition set_expenses (l : list Expense) (db : DB) : DB :=
  mkDB (companies db) (users db) l (approvalSteps db) (approvalRules db)
       (exchangeRates db) (db_seq db).

Definition set_approvalSteps (l : list ApprovalStep) (db : DB) : DB :=
  mkDB (companies db) (users db) (expenses db) l (approvalRules db)
       (exchangeRates db) (db_seq db).

Definition set_exchangeRates (l : list ExchangeRate) (db : DB) : DB :=
  mkDB (companies db) (users db) (expenses db) (approvalSteps db)
       (approvalRules db) l (db_seq db).

Definition bump_seq (db : DB) : DB :=
  mkDB (companies db) (users db) (expenses db) (approvalSteps db)
       (approvalRules db) (exchangeRates db) (S (db_seq db)).

Definition with_status (st : string) (e : Expense) : Expense :=
  mkExpense (e_id e) (e_companyId e) (e_userId e) (e_originalCurrency e)
    (e_originalAmount e) (e_convertedAmount e) (e_conversionRate e)
    (e_rateTimestamp e) (e_category e) st (e_submittedAt e).

(** The [data] of the update in [submitExpense]. *)
Definition with_submission (amount rate : number) (ts now : Z) (e : Expense)
  : Expense :=
  mkExpense (e_id e) (e_companyId e) (e_userId e) (e_originalCurrency e)
    (e_originalAmount e) (Some amount) (Some rate) (Some ts) (e_category e)
    "WAITING_APPROVAL" (Some now).

(** The [data] of the update in [approveExpense]. *)
Definition with_decision (st : string) (by_ : string) (now : Z)
    (comments : option string) (s : ApprovalStep) : ApprovalStep :=
  mkStep (s_id s) (s_expenseId s) (s_approverId s) (s_sequenceIndex s) st
    (Some by_) (Some now) comments.

(** ** Outcomes and the handler monad *)

Inductive error :=
| AppError (message : string) (statusCode : Z)
| Error (message : string).

(** A call returns, throws, or has not returned within the fuel given to
    its loops. *)
Inductive outcome (A : Type) :=
| Return (a : A)
| Throw (e : error)
| Diverge.
Arguments Return {A} a.
Arguments Throw {A} e.
Arguments Diverge {A}.

Definition M (A : Type) : Type := DB -> DB * outcome A.

Definition ret {A} (a : A) : M A := fun db => (db, Return a).
Definition throw {A} (e : error) : M A := fun db => (db, Throw e).
Definition bind {A B} (m : M A) (k : A -> M B) : M B :=
  fun db =>
    match m db with
    | (db', Return a) => k a db'
    | (db', Throw e) => (db', Throw e)
    | (db', Diverge) => (db', Diverge)
    end.
Definition get {A} (f : DB -> A) : M A := fun db => (db, Return (f db)).

Declare Scope m_scope.
Delimit Scope m_scope with M.
Notation "x <- c ;; k" := (bind c (fun x => k))
  (at level 61, c at next level, right associativity) : m_scope.
Notation "c ;;; k" := (bind c (fun _ => k))
  (at level 61, right associativity) : m_scope.
Open Scope m_scope.

(** [for (const x of l) { await body(x) }] *)
Fixpoint forEach {A} (l : list A) (body : A -> M unit) : M unit :=
  match l with
  | [] => ret tt
  | x :: r => body x ;;; forEach r body
  end.

(** [try { m } catch (error) { throw h }] with a handler that always throws. *)
Definition catch_rethrow {A} (m : M A) (h : error) : M A :=
  fun db =>
    match m db with
    | (db', Throw _) => (db', Throw h)
    | r => r
    end.

(** Array.prototype.sort with a comparator: a stable sort. *)
Section StableSort.
Context {A : Type} (cmp : A -> A -> Z).

Fixpoint insert_sorted (x : A) (l : list A) : list A :=
  match l with
  | [] => [x]
  | y :: r => if cmp x y <=? 0 then x :: y :: r else y :: insert_sorted x r
  end.

Fixpoint js_sort (l : list A) : list A :=
  match l with
  | [] => []
  | x :: r => insert_sorted x (js_sort r)
  end.
End StableSort.

(** ** Prisma operations *)

Module Prisma.

Definition expense_findUnique (id : string) (db : DB) : option Expense :=
  find (fun e => String.eqb (e_id e) id) (expenses db).

Definition user_findUnique (id : string) (db : DB) : option User :=
  find (fun u => String.eqb (u_id u) id) (users db).

Definition company_findUnique (id : string) (db : DB) : option Company :=
  find (fun c => String.eqb (c_id c) id) (companies db).

(** [expense.update({ where: { id }, data })]: throws when no row has the
    identifier. *)
Definition expense_update (id : string) (f : Expense -> Expense) : M unit :=
  fun db =>
    match expense_findUnique id db with
    | None => (db, Throw (Error "Record to update not found"))
    | Some _ =>
        (set_expenses
           (map (fun e => if String.eqb (e_id e) id then f e else e)
                (expenses db)) db, Return tt)
    end.

(** [approvalStep.update({ where: { id }, data })]: the write is keyed by
    the identifier alone. *)
Definition approvalStep_update (id : string)
    (f : ApprovalStep -> ApprovalStep) : M unit :=
  fun db =>
    match find (fun s => String.eqb (s_id s) id) (approvalSteps db) with
    | None => (db, Throw (Error "Record to update not found"))
    | Some _ =>
        (set_approvalSteps
           (map (fun s => if String.eqb (s_id s) id then f s else s)
                (approvalSteps db)) db, Return tt)
    end.

Definition fresh_id (db : DB) : string :=
  "id-" ++ NilZero.string_of_uint (Nat.to_uint (db_seq db)).

(** [approvalStep.create]: the row is PENDING by the column default; the
    unique index on (expense_id, approver_id) and the two foreign keys of
    the migration are enforced. *)
Definition approvalStep_create (expenseId approverId : string)
    (sequenceIndex : Z) : M unit :=
  fun db =>
    if existsb (fun s => andb (String.eqb (s_expenseId s) expenseId)
                              (String.eqb (s_approverId s) approverId))
               (approvalSteps db)
    then (db, Throw (Error "Unique constraint failed"))
    else
      match expense_findUnique expenseId db, user_findUnique approverId db with
      | Some _, Some _ =>
          (bump_seq
             (set_approvalSteps
                (approvalSteps db ++
                 [mkStep (fresh_id db) expenseId approverId sequenceIndex
                         "PENDING" None None None]) db), Return tt)
      | _, _ => (db, Throw (Error "Foreign key constraint failed"))
      end.

(** [expense.create]: a new row with a fresh identifier, under the foreign
    keys to the company and to the user. *)
Definition expense_create (companyId userId originalCurrency : string)
    (originalAmount : number) (category status : string) : M Expense :=
  fun db =>
    match company_findUnique companyId db, user_findUnique userId db with
    | Some _, Some _ =>
        let e := mkExpense (fresh_id db) companyId userId originalCurrency
                           originalAmount None None None category status
                           None in
        (bump_seq (set_expenses (expenses db ++ [e]) db), Return e)
    | _, _ => (db, Throw (Error "Foreign key constraint failed"))
    end.

(** The steps of one expense, [orderBy: { sequenceIndex: 'asc' }]. *)
Definition stepsOf (expenseId : string) (db : DB) : list ApprovalStep :=
  js_sort (fun a b => s_sequenceIndex a - s_sequenceIndex b)
    (filter (fun s => String.eqb (s_expenseId s) expenseId)
            (approvalSteps db)).

End Prisma.

(** ** The approval engine ([services/approval.ts]) *)

Record ApprovalContext := mkContext {
  category : string;
  amount : number;
  userId : string
}.

Module ApprovalEngine.

(** The [where] clause of [getApplicableRules]. *)
Definition ruleApplies (companyId : string) (context : ApprovalContext)
    (r : ApprovalRule) : bool :=
  String.eqb (r_companyId r) companyId
  && r_isActive r
  && (if truthy_string (category context)
      then match r_appliesToCategory r with
           | Some c => String.eqb c (category context)
           | None => true
           end
      else true)
  && match r_minAmount r with
     | None => true
     | Some lo => JsNumber.leb lo (amount context)
     end
  && match r_maxAmount r with
     | None => true
     | Some hi => JsNumber.geb hi (amount context)
     end.

(** [findMany] without [orderBy]: the matching rows in store order. *)
Definition getApplicableRules (companyId : string)
    (context : ApprovalContext) (db : DB) : list ApprovalRule :=
  filter (ruleApplies companyId context) (approvalRules db).

(** [rules.sort((a, b) => b.priority - a.priority)] *)
Definition sortByPriority (rules : list ApprovalRule) : list ApprovalRule :=
  js_sort (fun a b => r_priority b - r_priority a) rules.

(** The manager of a row, as [include: { manager: true }] loads it. *)
Definition managerOf (db : DB) (u : option User) : option User :=
  match u with
  | Some cu =>
      match u_managerId cu with
      | Some mid => Prisma.user_findUnique mid db
      | None => None
      end
  | None => None
  end.

(** The [while (currentUser?.manager)] loop; one unit of fuel per test of
    the loop condition, [None] when the fuel runs out first. *)
Fixpoint managerLoop (fuel : nat) (db : DB) (currentUser : option User)
    (managers : list User) : option (list User) :=
  match fuel with
  | O => None
  | S fuel' =>
      match managerOf db currentUser with
      | Some m =>
          managerLoop fuel' db (Prisma.user_findUnique (u_id m) db)
                      (managers ++ [m])
      | None => Some managers
      end
  end.

Definition getManagerHierarchy (fuel : nat) (userId : string)
  : M (list User) :=
  fun db =>
    match managerLoop fuel db (Prisma.user_findUnique userId db) [] with
    | Some managers => (db, Return managers)
    | None => (db, Diverge)
    end.

Definition isManagerRole (role : string) : bool :=
  String.eqb role "MANAGER" || String.eqb role "ADMIN".

Definition getAllManagers (companyId : string) (db : DB) : list User :=
  filter (fun u => String.eqb (u_companyId u) companyId
                   && isManagerRole (u_role u) && u_isActive u)
         (users db).

(** [for (let i = 0; i < approvers.length; i++) create(..., sequenceIndex: i)] *)
Fixpoint createIndexed (expenseId : string) (i : Z) (approvers : list User)
  : M unit :=
  match approvers with
  | [] => ret tt
  | a :: r =>
      Prisma.approvalStep_create expenseId (u_id a) i ;;;
      createIndexed expenseId (i + 1) r
  end.

Definition createSequentialApproval (fuel : nat) (expenseId : string)
    (rule : ApprovalRule) (context : ApprovalContext) : M unit :=
  approvers <- getManagerHierarchy fuel (userId context) ;;
  createIndexed expenseId 0 approvers.

Definition createParallelApproval (expenseId : string) (rule : ApprovalRule)
    (context : ApprovalContext) : M unit :=
  approvers <- get (getAllManagers (r_companyId rule)) ;;
  forEach approvers
    (fun approver => Prisma.approvalStep_create expenseId (u_id approver) 0).

Definition createPercentageApproval (expenseId : string)
    (rule : ApprovalRule) (context : ApprovalContext) : M unit :=
  createParallelApproval expenseId rule context.

Definition createSpecificApproval (expenseId : string) (rule : ApprovalRule)
    (context : ApprovalContext) : M unit :=
  match r_specificApproverId rule with
  | Some a =>
      if truthy_string a then Prisma.approvalStep_create expenseId a 0
      else throw (Error "Specific approver not defined in rule")
  | None => throw (Error "Specific approver not defined in rule")
  end.

Definition createHybridApproval (expenseId : string) (rule : ApprovalRule)
    (context : ApprovalContext) : M unit :=
  (match r_specificApproverId rule with
   | Some a =>
       if truthy_string a then Prisma.approvalStep_create expenseId a 0
       else ret tt
   | None => ret tt
   end) ;;;
  approvers <- get (getAllManagers (r_companyId rule)) ;;
  forEach approvers
    (fun approver =>
       if negb (eq_nullable (u_id approver) (r_specificApproverId rule))
       then Prisma.approvalStep_create expenseId (u_id approver) 1
       else ret tt).

Definition applyRule (fuel : nat) (expenseId : string) (rule : ApprovalRule)
    (context : ApprovalContext) : M unit :=
  if String.eqb (r_type rule) "SEQUENTIAL"
  then createSequentialApproval fuel expenseId rule context
  else if String.eqb (r_type rule) "PARALLEL"
  then createParallelApproval expenseId rule context
  else if String.eqb (r_type rule) "PERCENTAGE"
  then createPercentageApproval expenseId rule context
  else if String.eqb (r_type rule) "SPECIFIC"
  then createSpecificApproval expenseId rule context
  else if String.eqb (r_type rule) "HYBRID"
  then createHybridApproval expenseId rule context
  else throw (Error ("Unknown approval rule type: " ++ r_type rule)).

(** The [catch] of [createApprovalSteps] logs and rethrows the same error,
    so it is the identity on outcomes. *)
Definition createApprovalSteps (fuel : nat) (expenseId companyId : string)
    (context : ApprovalContext) : M unit :=
  rules <- get (getApplicableRules companyId context) ;;
  match sortByPriority rules with
  | [] => ret tt
  | rule :: _ => applyRule fuel expenseId rule context
  end.

Definition countStatus (st : string) (steps : list ApprovalStep) : nat :=
  List.length (filter (fun s => String.eqb (s_status s) st) steps).

(** The scan of [evaluateSequential], over the sorted steps. *)
Fixpoint sequentialScan (expense : Expense) (sortedSteps : list ApprovalStep)
  : M string :=
  match sortedSteps with
  | [] =>
      Prisma.expense_update (e_id expense) (with_status "APPROVED") ;;;
      ret "APPROVED"
  | step :: r =>
      if String.eqb (s_status step) "PENDING" then ret "WAITING_APPROVAL"
      else if String.eqb (s_status step) "REJECTED" then
        Prisma.expense_update (e_id expense) (with_status "REJECTED") ;;;
        ret "REJECTED"
      else sequentialScan expense r
  end.

Definition evaluateSequential (expense : Expense)
    (approvalSteps : list ApprovalStep) : M string :=
  sequentialScan expense
    (js_sort (fun a b => s_sequenceIndex a - s_sequenceIndex b)
             approvalSteps).

(** [(approvedSteps / totalSteps) * 100], in binary64. *)
Definition approvalPercentage (approvalSteps : list ApprovalStep) : number :=
  JsNumber.mul
    (JsNumber.div (ofNat (countStatus "APPROVED" approvalSteps))
                  (ofNat (List.length approvalSteps)))
    (ofZ 100).

Definition evaluatePercentage (expense : Expense)
    (approvalSteps : list ApprovalStep) (threshold : Z) : M string :=
  if JsNumber.geb (approvalPercentage approvalSteps) (ofZ threshold) then
    Prisma.expense_update (e_id expense) (with_status "APPROVED") ;;;
    ret "APPROVED"
  else ret "WAITING_APPROVAL".

Definition evaluateSpecific (expense : Expense)
    (approvalSteps : list ApprovalStep) : M string :=
  if (0 <? countStatus "APPROVED" approvalSteps)%nat then
    Prisma.expense_update (e_id expense) (with_status "APPROVED") ;;;
    ret "APPROVED"
  else ret "WAITING_APPROVAL".

(** [rule.thresholdPercent || d]: [null] and [0] both give the default. *)
Definition thresholdOr (rule : ApprovalRule) (d : Z) : Z :=
  match r_thresholdPercent rule with
  | Some t => if t =? 0 then d else t
  | None => d
  end.

Definition evaluateHybrid (expense : Expense)
    (approvalSteps : list ApprovalStep) (rule : ApprovalRule) : M string :=
  match find (fun step => eq_nullable (s_approverId step)
                                      (r_specificApproverId rule))
             approvalSteps with
  | Some specificStep =>
      if String.eqb (s_status specificStep) "APPROVED" then
        Prisma.expense_update (e_id expense) (with_status "APPROVED") ;;;
        ret "APPROVED"
      else evaluatePercentage expense approvalSteps (thresholdOr rule 60)
  | None => evaluatePercentage expense approvalSteps (thresholdOr rule 60)
  end.

Definition evaluateApprovalStatus (expense : Expense)
    (approvalSteps : list ApprovalStep) (rule : ApprovalRule) : M string :=
  if (0 <? countStatus "REJECTED" approvalSteps)%nat then
    Prisma.expense_update (e_id expense) (with_status "REJECTED") ;;;
    ret "REJECTED"
  else if String.eqb (r_type rule) "SEQUENTIAL"
  then evaluateSequential expense approvalSteps
  else if String.eqb (r_type rule) "PARALLEL"
          || String.eqb (r_type rule) "PERCENTAGE"
  then evaluatePercentage expense approvalSteps (thresholdOr rule 50)
  else if String.eqb (r_type rule) "SPECIFIC"
  then evaluateSpecific expense approvalSteps
  else if String.eqb (r_type rule) "HYBRID"
  then evaluateHybrid expense approvalSteps rule
  else ret (e_status expense).

(** [Number(expense.convertedAmount)]; [Number(null)] is [0]. *)
Definition numberOfNullable (o : option number) : number :=
  match o with Some x => x | None => ofZ 0 end.

Definition processApproval (expenseId : string) : M string :=
  fun db =>
    match Prisma.expense_findUnique expenseId db with
    | None => (db, Throw (Error "Expense not found"))
    | Some expense =>
        let steps := Prisma.stepsOf expenseId db in
        let rules :=
          getApplicableRules (e_companyId expense)
            (mkContext (e_category expense)
                       (numberOfNullable (e_convertedAmount expense))
                       (e_userId expense)) db in
        match sortByPriority rules with
        | [] => (db, Return (e_status expense))
        | rule :: _ => evaluateApprovalStatus expense steps rule db
        end
    end.

End ApprovalEngine.

(** ** What a request sees of the outside world *)

(** [now] is the clock ([Date.now()], [new Date()]) in milliseconds;
    [spotRate from to] is the answer of the exchange-rate API: [None] when
    the request fails or its [result] is not ["success"]. *)
Record Env := mkEnv {
  now : Z;
  spotRate : string -> string -> option number
}.

(** ** The currency service ([CurrencyService]) *)

Record CurrencyConversionResult := mkConversion {
  convertedAmount : number;
  rate : number;
  timestamp : Z
}.

Module CurrencyService.

Definition oneHour : Z := 60 * 60 * 1000.

Definition isFreshRate (env : Env) (fromCurrency toCurrency : string)
    (x : ExchangeRate) : bool :=
  String.eqb (x_baseCurrency x) fromCurrency
  && String.eqb (x_targetCurrency x) toCurrency
  && (now env - oneHour <=? x_timestamp x).

(** [findFirst({ where, orderBy: { timestamp: 'desc' } })] *)
Definition getCachedRate (env : Env) (fromCurrency toCurrency : string)
    (db : DB) : option ExchangeRate :=
  hd_error
    (js_sort (fun a b => x_timestamp b - x_timestamp a)
       (filter (isFreshRate env fromCurrency toCurrency)
               (exchangeRates db))).

(** [exchangeRate.create] under the unique index on
    (base_currency, target_currency, timestamp); [cacheRate] swallows the
    error of a refused insert. *)
Definition cacheRate (fromCurrency toCurrency : string) (rate : number)
    (timestamp : Z) : M unit :=
  fun db =>
    if existsb (fun x => String.eqb (x_baseCurrency x) fromCurrency
                         && String.eqb (x_targetCurrency x) toCurrency
                         && (x_timestamp x =? timestamp))
               (exchangeRates db)
    then (db, Return tt)
    else (set_exchangeRates
            (exchangeRates db ++
             [mkRate fromCurrency toCurrency rate timestamp]) db,
          Return tt).

Definition convertCurrency (env : Env) (fromCurrency toCurrency : string)
    (amount : number) : M CurrencyConversionResult :=
  catch_rethrow
    (cachedRate <- get (getCachedRate env fromCurrency toCurrency) ;;
     match cachedRate with
     | Some c =>
         ret (mkConversion (toFixed2 (JsNumber.mul amount (x_rate c)))
                           (x_rate c) (x_timestamp c))
     | None =>
         match spotRate env fromCurrency toCurrency with
         | None => throw (Error "Failed to fetch exchange rate")
         | Some rate =>
             cacheRate fromCurrency toCurrency rate (now env) ;;;
             ret (mkConversion (toFixed2 (JsNumber.mul amount rate))
                               rate (now env))
         end
     end)
    (Error "Currency conversion service unavailable").

End CurrencyService.

(** ** The controller ([controllers/expense.ts]) *)

Module ExpenseController.

(** [createExpense]: the body has passed the route's validation. *)
Definition createExpense (companyId userId originalCurrency : string)
    (originalAmount : number) (category : string) : M Expense :=
  Prisma.expense_create companyId userId originalCurrency originalAmount
                        category "DRAFT".

(** The three values frozen by [submitExpense]. *)
Definition conversionFor (env : Env) (expense : Expense) (company : Company)
  : M CurrencyConversionResult :=
  if negb (String.eqb (e_originalCurrency expense)
                      (c_defaultCurrency company))
  then CurrencyService.convertCurrency env (e_originalCurrency expense)
         (c_defaultCurrency company) (e_originalAmount expense)
  else ret (mkConversion (e_originalAmount expense) (ofZ 1) (now env)).

(** Notifications and the audit log catch their own errors and write no
    table of the model; they are left out. *)
Definition submitExpense (env : Env) (fuel : nat)
    (companyId userId id : string) : M Expense :=
  found <- get (Prisma.expense_findUnique id) ;;
  match found with
  | None => throw (AppError "Expense not found" 404)
  | Some expense =>
      if negb (String.eqb (e_companyId expense) companyId)
      then throw (AppError "Expense not found" 404)
      else if negb (String.eqb (e_userId expense) userId)
      then throw (AppError "You can only submit your own expenses" 403)
      else if negb (String.eqb (e_status expense) "DRAFT")
      then throw (AppError "Only draft expenses can be submitted" 400)
      else
        company <- get (Prisma.company_findUnique (e_companyId expense)) ;;
        match company with
        | None =>
            throw (Error "Cannot read properties of null")
        | Some company =>
            c <- conversionFor env expense company ;;
            let updatedExpense :=
              with_submission (convertedAmount c) (rate c) (timestamp c)
                              (now env) expense in
            Prisma.expense_update id
              (with_submission (convertedAmount c) (rate c) (timestamp c)
                               (now env)) ;;;
            ApprovalEngine.createApprovalSteps fuel id companyId
              (mkContext (e_category expense) (convertedAmount c) userId) ;;;
            ret updatedExpense
        end
  end.

(** The first part of [approveExpense]: the read and its three guards.  It
    returns the identifier of the step to decide. *)
Definition approveCheck (companyId userId id : string) : M string :=
  found <- get (Prisma.expense_findUnique id) ;;
  match found with
  | None => throw (AppError "Expense not found" 404)
  | Some expense =>
      own <- get (fun db =>
               filter (fun s => String.eqb (s_approverId s) userId)
                      (Prisma.stepsOf id db)) ;;
      if negb (String.eqb (e_companyId expense) companyId)
      then throw (AppError "Expense not found" 404)
      else if negb (String.eqb (e_status expense) "WAITING_APPROVAL")
      then throw (AppError "Expense is not waiting for approval" 400)
      else
        match find (fun step => String.eqb (s_approverId step) userId
                                && String.eqb (s_status step) "PENDING")
                   own with
        | None =>
            throw (AppError "You are not authorized to approve this expense"
                            403)
        | Some approvalStep => ret (s_id approvalStep)
        end
  end.

(** The second part: [approvalStep.update], keyed by the identifier. *)
Definition approveWrite (env : Env) (userId action : string)
    (comments : option string) (stepId : string) : M unit :=
  Prisma.approvalStep_update stepId
    (with_decision (toUpperCase action) userId (now env) comments).

Definition approveExpense (env : Env) (companyId userId id action : string)
    (comments : option string) : M string :=
  stepId <- approveCheck companyId userId id ;;
  approveWrite env userId action comments stepId ;;;
  ApprovalEngine.processApproval id.

End ExpenseController.

(** ** The step model of the alternate backend
    ([backend/src/models/approvalStep.js]) *)

Module JsBackend.

Record Stats := mkStats {
  total : nat;
  approved : nat;
  rejected : nat;
  pending : nat
}.

Record ApprovalState := mkState {
  isComplete : bool;
  isApproved : bool;
  isRejected : bool;
  stats : Stats
}.

(** The rows of [approval_steps] have the columns of [ApprovalStep]; the
    status values of this backend are lower-case. *)
Definition stepsOfExpense (expenseId : string) (rows : list ApprovalStep)
  : list ApprovalStep :=
  filter (fun s => String.eqb (s_expenseId s) expenseId) rows.

Definition countOf (st : string) (rows : list ApprovalStep) : nat :=
  List.length (filter (fun s => String.eqb (s_status s) st) rows).

(** [ApprovalStep.checkExpenseApprovalComplete]: the four counts of the
    query and the flags computed from them. *)
Definition checkExpenseApprovalComplete (expenseId : string)
    (rows : list ApprovalStep) : ApprovalState :=
  let mine := stepsOfExpense expenseId rows in
  let st := mkStats (List.length mine) (countOf "approved" mine)
                    (countOf "rejected" mine) (countOf "pending" mine) in
  mkState (Nat.eqb (pending st) 0)
          (Nat.eqb (rejected st) 0 && Nat.eqb (approved st) (total st))
          (Nat.ltb 0 (rejected st))
          st.

(** The CHECK constraint of the [status] column. *)
Definition allowedStatus (st : string) : bool :=
  String.eqb st "pending" || String.eqb st "approved"
  || String.eqb st "rejected" || String.eqb st "skipped".

(** [ApprovalStep.updateStatus]:
    [UPDATE approval_steps SET status, action_by, action_time, comments
     WHERE id = $4 RETURNING *].  [None] when the statement is refused. *)
Definition updateStatus (now : Z) (id status actionBy : string)
    (comments : option string) (rows : list ApprovalStep)
  : option (list ApprovalStep * option ApprovalStep) :=
  if allowedStatus status then
    let rows' :=
      map (fun s => if String.eqb (s_id s) id
                    then with_decision status actionBy now comments s
                    else s) rows in
    Some (rows', find (fun s => String.eqb (s_id s) id) rows')
  else None.

End JsBackend.

(** ** Requests served one after the other

    The three routes that write the expense table. *)

Inductive request :=
| Create (companyId userId originalCurrency : string) (originalAmount : number)
         (category : string)
| Submit (fuel : nat) (companyId userId id : string)
| Approve (companyId userId id action : string) (comments : option string).

(** The store after one request, whatever its outcome. *)
Definition handle (env : Env) (rq : request) (db : DB) : DB :=
  match rq with
  | Create companyId userId originalCurrency originalAmount category =>
      fst (ExpenseController.createExpense companyId userId originalCurrency
                                           originalAmount category db)
  | Submit fuel companyId userId id =>
      fst (ExpenseController.submitExpense env fuel companyId userId id db)
  | Approve companyId userId id action comments =>
      fst (ExpenseController.approveExpense env companyId userId id action
                                            comments db)
  end.

(** Each request comes with its own clock reading and its own state of the
    rate source. *)
Fixpoint serve (rqs : list (Env * request)) (db : DB) : DB :=
  match rqs with
  | [] => db
  | (env, rq) :: r => serve r (handle env rq db)
  end.

(** The three values written at submission. *)
Definition frozen (e e' : Expense) : Prop :=
  e_convertedAmount e' = e_convertedAmount e
  /\ e_conversionRate e' = e_conversionRate e
  /\ e_rateTimestamp e' = e_rateTimestamp e.

(** ** Two decisions on one store

    [approveExpense] awaits three store operations in turn: the read with
    its guards, the write of the step, and [processApproval].  Another
    request can run between any two of them. *)

Module Race.

Record decision := mkDecision {
  d_companyId : string;
  d_userId : string;
  d_id : string;
  d_action : string;
  d_comments : option string
}.

Inductive pc :=
| Start
| Checked (stepId : string)
| Written
| Finished (r : outcome string).

Definition advance (env : Env) (d : decision) (p : pc) (db : DB) : DB * pc :=
  match p with
  | Start =>
      match ExpenseController.approveCheck (d_companyId d) (d_userId d)
                                           (d_id d) db with
      | (db', Return stepId) => (db', Checked stepId)
      | (db', Throw e) => (db', Finished (Throw e))
      | (db', Diverge) => (db', Finished Diverge)
      end
  | Checked stepId =>
      match ExpenseController.approveWrite env (d_userId d) (d_action d)
                                           (d_comments d) stepId db with
      | (db', Return _) => (db', Written)
      | (db', Throw e) => (db', Finished (Throw e))
      | (db', Diverge) => (db', Finished Diverge)
      end
  | Written =>
      let '(db', r) := ApprovalEngine.processApproval (d_id d) db in
      (db', Finished r)
  | Finished r => (db, Finished r)
  end.

(** A schedule says which of the two requests moves next. *)
Inductive turn := First | Second.

Fixpoint run (env : Env) (d1 d2 : decision) (sched : list turn)
    (db : DB) (p1 p2 : pc) : DB * pc * pc :=
  match sched with
  | [] => (db, p1, p2)
  | First :: r =>
      let '(db', p1') := advance env d1 p1 db in run env d1 d2 r db' p1' p2
  | Second :: r =>
      let '(db', p2') := advance env d2 p2 db in run env d1 d2 r db' p1 p2'
  end.

End Race.

(** ** A small company *)

Module Sample.

Definition acme : Company := mkCompany "acme" "USD".

Definition admin : User := mkUser "admin" "acme" "ADMIN" None true.
Definition manager : User := mkUser "manager" "acme" "MANAGER" None true.
Definition employee : User :=
  mkUser "employee" "acme" "EMPLOYEE" (Some "manager") true.

(** 100 EUR of travel, still a draft. *)
Definition trip : Expense :=
  mkExpense "trip" "acme" "employee" "EUR" (ofZ 100) None None None
            "Travel" "DRAFT" None.

Definition waiting (e : Expense) : Expense :=
  with_status "WAITING_APPROVAL" e.

Definition rule (id type : string) (threshold : option Z)
    (specific : option string) (priority createdAt : Z) : ApprovalRule :=
  mkRule id "acme" id type threshold specific None None None true priority
         createdAt.

Definition step (id approver : string) (idx : Z) (status : string)
  : ApprovalStep :=
  mkStep id "trip" approver idx status None None None.

(** 1.10, as the literal is read. *)
Definition rate_1_10 : number := ofDecimal false 110 100.

Definition store (es : list Expense) (rules : list ApprovalRule)
    (steps : list ApprovalStep) (rates : list ExchangeRate) : DB :=
  mkDB [acme] [admin; manager; employee] es steps rules rates 0.

Definition noon : Z := 1700000000000.

(** A rate source that is down. *)
Definition offline : string -> string -> option number :=
  fun _ _ => None.

(** A rate source that answers [r] for every pair. *)
Definition quoting (r : number) : string -> string -> option number :=
  fun _ _ => Some r.

End Sample.

(** ** Vocabulary of the properties *)

(** [n] steps of which [k] are APPROVED and the others PENDING. *)
Definition ballot (k n : nat) : list ApprovalStep :=
  (repeat (Sample.step "s" "a" 0 "APPROVED") k
   ++ repeat (Sample.step "s" "a" 0 "PENDING") (n - k))%list.

(** The test of [evaluatePercentage] on such a snapshot. *)
Definition decides (k n : nat) (threshold : Z) : bool :=
  JsNumber.geb (ApprovalEngine.approvalPercentage (ballot k n))
               (ofZ threshold).

(** [(k / n) * 100] in binary64. *)
Definition percentageOf (k n : nat) : number :=
  JsNumber.mul (JsNumber.div (ofNat k) (ofNat n)) (ofZ 100).

(** The binary64 test agrees with the exact comparison
    [k / n * 100 >= threshold] for every [n] from 1 to [N], every [k] up to
    [n] and every threshold from 1 to 100. *)
Definition agreesUpTo (N : nat) : bool :=
  forallb (fun n =>
    forallb (fun k =>
      forallb (fun t =>
        Bool.eqb (JsNumber.geb (percentageOf k n) (ofZ t))
                 (t * Z.of_nat n <=? 100 * Z.of_nat k))
        (map Z.of_nat (seq 1 100)))
      (seq 0 (S n)))
    (seq 1 N).

(** The step of the specific approver, as [evaluateHybrid] looks it up. *)
Definition specificStepOf (rule : ApprovalRule) (steps : list ApprovalStep)
  : option ApprovalStep :=
  find (fun step => eq_nullable (s_approverId step) (r_specificApproverId rule))
       steps.

(** The steps of the other approvers. *)
Definition remainingSteps (rule : ApprovalRule) (steps : list ApprovalStep)
  : list ApprovalStep :=
  filter (fun step =>
            negb (eq_nullable (s_approverId step) (r_specificApproverId rule)))
         steps.

(** What the specification asks of a candidate rule: active, of the
    company, category unset or equal to the expense's, amount within the
    optional bounds.  The category condition is only applied when the
    expense has a non-empty category, as [getApplicableRules] builds it. *)
Definition covers (companyId : string) (context : ApprovalContext)
    (r : ApprovalRule) : Prop :=
  r_companyId r = companyId
  /\ r_isActive r = true
  /\ (category context <> "" ->
      r_appliesToCategory r = None
      \/ r_appliesToCategory r = Some (category context))
  /\ (forall lo, r_minAmount r = Some lo ->
                 JsNumber.leb lo (amount context) = true)
  /\ (forall hi, r_maxAmount r = Some hi ->
                 JsNumber.geb hi (amount context) = true).

(** The first element, in list order, among those of greatest key: the head
    of a stable sort by descending key. *)
Fixpoint firstOfTop {A} (key : A -> Z) (l : list A) : option A :=
  match l with
  | [] => None
  | x :: r =>
      match firstOfTop key r with
      | Some y => if key y <=? key x then Some x else Some y
      | None => Some x
      end
  end.

(** [Chain db u l]: following the manager links from [u] meets the users
    of [l] in turn and then a user without manager. *)
Inductive Chain (db : DB) : option User -> list User -> Prop :=
| chain_end (cu : option User) :
    ApprovalEngine.managerOf db cu = None -> Chain db cu []
| chain_link (cu : option User) (m : User) (l : list User) :
    ApprovalEngine.managerOf db cu = Some m ->
    Chain db (Prisma.user_findUnique (u_id m) db) l ->
    Chain db cu (m :: l).

(** Alice reports to Bob and Bob to Alice. *)
Definition alice : User := mkUser "alice" "acme" "EMPLOYEE" (Some "bob") true.
Definition bob : User := mkUser "bob" "acme" "MANAGER" (Some "alice") true.
Definition circular : DB := mkDB [Sample.acme] [alice; bob] [] [] [] [] 0.

(** The row-wise update of [expense.update] and [approvalStep.update]. *)
Definition updE (id : string) (f : Expense -> Expense) (e : Expense) : Expense :=
  if String.eqb (e_id e) id then f e else e.

Definition updS (id : string) (f : ApprovalStep -> ApprovalStep)
    (s : ApprovalStep) : ApprovalStep :=
  if String.eqb (s_id s) id then f s else s.

(** The unique index of [approval_steps] on (expense_id, approver_id). *)
Definition oneStepPerApprover (db : DB) : Prop :=
  forall s1 s2, In s1 (approvalSteps db) -> In s2 (approvalSteps db) ->
    s_expenseId s1 = s_expenseId s2 -> s_approverId s1 = s_approverId s2 ->
    s1 = s2.

(** The steps [approveExpense] loads: those of the expense and the actor. *)
Definition ownSteps (userId id : string) (db : DB) : list ApprovalStep :=
  filter (fun s => String.eqb (s_approverId s) userId) (Prisma.stepsOf id db).

Definition isPendingOf (userId : string) (step : ApprovalStep) : bool :=
  String.eqb (s_approverId step) userId
  && String.eqb (s_status step) "PENDING".

(** The store after the expense [id] has been closed with status [st]. *)
Definition closeWith (id st : string) (db : DB) : DB :=
  set_expenses (map (updE id (with_status st)) (expenses db)) db.

(** The store after the step [stepId] has received a decision. *)
Definition decideStep (env : Env) (userId action : string)
    (comments : option string) (stepId : string) (db : DB) : DB :=
  set_approvalSteps
    (map (updS stepId
            (with_decision (toUpperCase action) userId (now env) comments))
         (approvalSteps db)) db.

(** The store after [submitExpense] has written the row of the expense. *)
Definition submitted (env : Env) (id : string) (c : CurrencyConversionResult)
    (db : DB) : DB :=
  set_expenses
    (map (updE id (with_submission (convertedAmount c) (rate c) (timestamp c)
                                   (now env)))
         (expenses db)) db.

(** An evaluation either leaves the store alone or closes the expense. *)
Definition settles (id : string) (db : DB) (r : DB * outcome string) : Prop :=
  exists st,
    r = (db, Return st)
    \/ ((st = "APPROVED" \/ st = "REJECTED")
        /\ r = (closeWith id st db, Return st)).

(** A computation that never writes the expense table, whatever its
    outcome. *)
Definition keepsExpenses {A} (m : M A) : Prop :=
  forall db, expenses (fst (m db)) = expenses db.

(** An expense that has left DRAFT keeps its three conversion values and
    stays out of DRAFT; once it has left WAITING_APPROVAL too, its row does
    not change at all. *)
Definition keptBy (e e' : Expense) : Prop :=
  frozen e e'
  /\ e_status e' <> "DRAFT"
  /\ (e_status e <> "WAITING_APPROVAL" -> e' = e).

(** ** Vocabulary of the conversion *)







(** ** The decide handler of the alternate backend
    ([backend/src/controllers/approvalController.js], [processApproval]) *)

Module JsController.

(** The answers of the handler before it calls the service: 400 for an
    action that is neither approve nor reject, 404 'Approval step not
    found', 403 'You are not authorized to approve this expense', 400
    'This approval step has already been processed', 400 'Comments are
    required when rejecting an expense'; otherwise it goes on with the
    status to write. *)
Inductive answer :=
| InvalidAction
| StepNotFound
| NotAuthorized
| AlreadyProcessed
| CommentsRequired
| Proceed (status : string).

Definition statusCode (a : answer) : option Z :=
  match a with
  | InvalidAction => Some 400
  | StepNotFound => Some 404
  | NotAuthorized => Some 403
  | AlreadyProcessed => Some 400
  | CommentsRequired => Some 400
  | Proceed _ => None
  end.

(** [step] is what [ApprovalStep.findById(stepId)] returned. *)
Definition processApprovalChecks (userId action : string)
    (comments : option string) (step : option ApprovalStep) : answer :=
  if negb (String.eqb action "approve" || String.eqb action "reject")
  then InvalidAction
  else
    match step with
    | None => StepNotFound
    | Some step =>
        if negb (String.eqb (s_approverId step) userId) then NotAuthorized
        else if negb (String.eqb (s_status step) "pending")
        then AlreadyProcessed
        else if String.eqb action "reject"
                && negb (match comments with
                         | Some c => truthy_string c
                         | None => false
                         end)
        then CommentsRequired
        else Proceed (if String.eqb action "approve" then "approved"
                      else "rejected")
    end.

End JsController.

(** ** Vocabulary of the further properties *)

(** The steps a rule asks for: approver and sequence index, in creation
    order. *)
Definition plan : Type := list (string * Z).

(** The rows that [approvalStep.create] inserts for a plan, the identifier
    generator standing at [n]. *)
Fixpoint stepsFor (expenseId : string) (n : nat) (p : plan)
  : list ApprovalStep :=
  match p with
  | [] => []
  | (approverId, i) :: r =>
      mkStep ("id-" ++ NilZero.string_of_uint (Nat.to_uint n)) expenseId
             approverId i "PENDING" None None None
      :: stepsFor expenseId (S n) r
  end.

(** The store after the rows of a plan have been inserted. *)
Definition withSteps (expenseId : string) (p : plan) (db : DB) : DB :=
  mkDB (companies db) (users db) (expenses db)
       (approvalSteps db ++ stepsFor expenseId (db_seq db) p)
       (approvalRules db) (exchangeRates db)
       (List.length p + db_seq db).

(** A plan can be inserted: the expense exists, every approver is a user,
    no approver comes twice and none has a step on the expense yet. *)
Definition insertable (expenseId : string) (p : plan) (db : DB) : Prop :=
  Prisma.expense_findUnique expenseId db <> None
  /\ (forall a i, In (a, i) p -> Prisma.user_findUnique a db <> None)
  /\ NoDup (map fst p)
  /\ (forall s a i, In s (approvalSteps db) -> In (a, i) p ->
        s_expenseId s = expenseId -> s_approverId s <> a).

(** Positions [i, i+1, ...] paired with the approvers of a chain. *)
Fixpoint indexedFrom (i : Z) (l : list User) : plan :=
  match l with
  | [] => []
  | a :: r => (u_id a, i) :: indexedFrom (i + 1) r
  end.

(** The inserts of a plan, one [approvalStep.create] after the other. *)
Definition createAll (expenseId : string) (p : plan) : M unit :=
  forEach p (fun ai => Prisma.approvalStep_create expenseId (fst ai) (snd ai)).

(** The plans of the five rule types. *)
Definition parallelPlan (rule : ApprovalRule) (db : DB) : plan :=
  map (fun u => (u_id u, 0)) (ApprovalEngine.getAllManagers (r_companyId rule) db).

Definition hybridPlan (rule : ApprovalRule) (db : DB) : plan :=
  ((match r_specificApproverId rule with
    | Some a => if truthy_string a then [(a, 0)] else []
    | None => []
    end)
   ++ map (fun u => (u_id u, 1))
        (filter (fun u => negb (eq_nullable (u_id u)
                                            (r_specificApproverId rule)))
                (ApprovalEngine.getAllManagers (r_companyId rule) db)))%list.

(** [grows expenseId db db']: [db'] is [db] with PENDING, undecided steps of
    the expense added at the end of the step table, nothing else written,
    and the unique index on (expense, approver) kept. *)
Definition grows (expenseId : string) (db db' : DB) : Prop :=
  companies db' = companies db /\ users db' = users db
  /\ expenses db' = expenses db /\ approvalRules db' = approvalRules db
  /\ exchangeRates db' = exchangeRates db
  /\ (exists news,
        approvalSteps db' = (approvalSteps db ++ news)%list
        /\ (forall s, In s news ->
              s_expenseId s = expenseId /\ s_status s = "PENDING"
              /\ s_actionBy s = None /\ s_actionAt s = None))
  /\ (oneStepPerApprover db -> oneStepPerApprover db').

(** The primary key of [users]. *)
Definition uniqueUserIds (db : DB) : Prop := NoDup (map u_id (users db)).

(** No step exists yet for the expense. *)
Definition noStepFor (expenseId : string) (db : DB) : Prop :=
  forall s, In s (approvalSteps db) -> s_expenseId s <> expenseId.

(** A computation that, whatever its outcome, only appends PENDING steps of
    the expense. *)
Definition growing (expenseId : string) {A} (m : M A) : Prop :=
  forall db, grows expenseId db (fst (m db)).

(** What an evaluation does is fixed by the steps and the rule: it closes
    the expense with one status, or it waits, or (rule of no known type)
    it reports the stored status. *)
Definition verdictOf (id : string) (m : Expense -> M string) : Prop :=
  (exists st, forall e d, e_id e = id ->
      Prisma.expense_findUnique id d <> None ->
      m e d = (closeWith id st d, Return st))
  \/ (forall e d, m e d = (d, Return "WAITING_APPROVAL"))
  \/ (forall e d, m e d = (d, Return (e_status e))).


(** The unique index of [exchange_rates] on
    (base_currency, target_currency, timestamp). *)
Definition uniqueRates (db : DB) : Prop :=
  forall x y, In x (exchangeRates db) -> In y (exchangeRates db) ->
    x_baseCurrency x = x_baseCurrency y ->
    x_targetCurrency x = x_targetCurrency y ->
    x_timestamp x = x_timestamp y -> x = y.

(** No step of the expense carries one of the two statuses the evaluation
    counts. *)
Definition undecided (id : string) (db : DB) : Prop :=
  forall s, In s (approvalSteps db) -> s_expenseId s = id ->
    s_status s <> "APPROVED" /\ s_status s <> "REJECTED".

(** The requests of a list are decisions with an action the route accepts. *)
Definition decisionsOnly (rqs : list (Env * request)) : Prop :=
  forall env rq, In (env, rq) rqs ->
    exists companyId userId id action comments,
      rq = Approve companyId userId id action comments
      /\ (action = "approve" \/ action = "reject").

(** Zero approved steps out of any number pass no threshold from 1 to 100. *)
Definition zeroPassesNothing (zero : number) : bool :=
  forallb (fun t => negb (JsNumber.geb (JsNumber.mul zero (ofZ 100)) (ofZ t)))
          (map Z.of_nat (seq 1 100)).

(** What every decision finds and leaves when no step has been counted yet:
    the row of the expense, its governing rule, and no counted step. *)
Definition stillOpen (id : string) (expense : Expense) (rule : ApprovalRule)
    (rest : list ApprovalRule) (db : DB) : Prop :=
  Prisma.expense_findUnique id db = Some expense
  /\ ApprovalEngine.sortByPriority
       (ApprovalEngine.getApplicableRules (e_companyId expense)
          (mkContext (e_category expense)
             (ApprovalEngine.numberOfNullable (e_convertedAmount expense))
             (e_userId expense)) db) = rule :: rest
  /\ undecided id db.

(** ** The table of latest rates ([CurrencyService.getLatestRates]) *)

Module LatestRates.

Definition isFreshOfBase (env : Env) (baseCurrency : string)
    (x : ExchangeRate) : bool :=
  String.eqb (x_baseCurrency x) baseCurrency
  && (now env - CurrencyService.oneHour <=? x_timestamp x).

(** [distinct: ['targetCurrency']]: of the ordered rows, the first one of
    each target currency. *)
Fixpoint distinctTarget (seen : list string) (l : list ExchangeRate)
  : list ExchangeRate :=
  match l with
  | [] => []
  | x :: r =>
      if existsb (String.eqb (x_targetCurrency x)) seen
      then distinctTarget seen r
      else x :: distinctTarget (x_targetCurrency x :: seen) r
  end.

(** [acc[k] = v] on an object, and [acc[k]]. *)
Fixpoint assign {V} (acc : list (string * V)) (k : string) (v : V)
  : list (string * V) :=
  match acc with
  | [] => [(k, v)]
  | (k', v') :: r =>
      if String.eqb k' k then (k, v) :: r else (k', v') :: assign r k v
  end.

Definition lookup {V} (acc : list (string * V)) (k : string) : option V :=
  option_map snd (find (fun kv => String.eqb (fst kv) k) acc).

(** [findMany({ where: { baseCurrency, timestamp: { gte: oneHourAgo } },
               orderBy: { timestamp: 'desc' },
               distinct: ['targetCurrency'] })]
    reduced to an object keyed by the target currency. *)
Definition getLatestRates (env : Env) (baseCurrency : string) (db : DB)
  : list (string * (number * Z)) :=
  fold_left
    (fun acc rate =>
       assign acc (x_targetCurrency rate) (x_rate rate, x_timestamp rate))
    (distinctTarget []
       (js_sort (fun a b => x_timestamp b - x_timestamp a)
          (filter (isFreshOfBase env baseCurrency) (exchangeRates db))))
    [].

End LatestRates.

(** A list in descending order of its keys. *)
Fixpoint descending {A} (key : A -> Z) (l : list A) : Prop :=
  match l with
  | [] => True
  | x :: r => (forall y, In y r -> key y <= key x) /\ descending key r
  end.

(** ** The users controller ([UserController.updateUser]) *)

Definition set_users (l : list User) (db : DB) : DB :=
  mkDB (companies db) l (expenses db) (approvalSteps db) (approvalRules db)
       (exchangeRates db) (db_seq db).

Module UserController.

(** The [data] of the update: a field the body leaves out is not written. *)
Definition with_changes (role managerId : option string)
    (isActive : option bool) (u : User) : User :=
  mkUser (u_id u) (u_companyId u)
    (match role with Some r => r | None => u_role u end)
    (match managerId with Some m => Some m | None => u_managerId u end)
    (match isActive with Some a => a | None => u_isActive u end).

(** [user.update({ where: { id }, data })], under the foreign key of
    [manager_id]. *)
Definition user_update (id : string) (f : User -> User) : M User :=
  fun db =>
    match Prisma.user_findUnique id db with
    | None => (db, Throw (Error "Record to update not found"))
    | Some u =>
        let written :=
          set_users (map (fun x => if String.eqb (u_id x) id then f x else x)
                         (users db)) db in
        match u_managerId (f u) with
        | Some m =>
            match Prisma.user_findUnique m db with
            | Some _ => (written, Return (f u))
            | None => (db, Throw (Error "Foreign key constraint failed"))
            end
        | None => (written, Return (f u))
        end
    end.

(** The body has passed the route's validation; the audit log writes no
    table of the model. *)
Definition updateUser (companyId id : string) (role managerId : option string)
    (isActive : option bool) : M User :=
  currentUser <- get (Prisma.user_findUnique id) ;;
  match currentUser with
  | None => throw (AppError "User not found" 404)
  | Some currentUser =>
      if negb (String.eqb (u_companyId currentUser) companyId)
      then throw (AppError "User not found" 404)
      else
        (match managerId with
         | Some m =>
             if truthy_string m
                && negb (eq_nullable m (u_managerId currentUser))
             then
               manager <- get (Prisma.user_findUnique m) ;;
               match manager with
               | None => throw (AppError "Invalid manager ID" 400)
               | Some manager =>
                   if negb (String.eqb (u_companyId manager) companyId)
                   then throw (AppError "Invalid manager ID" 400)
                   else ret tt
               end
             else ret tt
         | None => ret tt
         end) ;;;
        user_update id (with_changes role managerId isActive)
  end.

End UserController.


(** * Properties *)

(** ** Store lemmas *)

Section StoreLemmas.

Lemma expense_update_found (id : string) (f : Expense -> Expense) (db : DB)
      (e : Expense) :
  Prisma.expense_findUnique id db = Some e ->
  Prisma.expense_update id f db =
  (set_expenses
     (map (fun x => if String.eqb (e_id x) id then f x else x)
          (expenses db)) db, Return tt).
Proof.
  intros H. unfold Prisma.expense_update. now rewrite H.
Qed.

Lemma find_map_update (id : string) (f : Expense -> Expense)
      (l : list Expense) :
  (forall x, e_id (f x) = e_id x) ->
  find (fun e => String.eqb (e_id e) id)
       (map (fun x => if String.eqb (e_id x) id then f x else x) l) =
  option_map f (find (fun e => String.eqb (e_id e) id) l).
Proof.
  intros Hid. induction l as [|x l IH]; simpl; [reflexivity|].
  destruct (String.eqb (e_id x) id) eqn:E; simpl.
  - now rewrite Hid, E.
  - now rewrite E.
Qed.

Lemma findUnique_after_status (id st : string) (db : DB) (e : Expense) :
  Prisma.expense_findUnique id db = Some e ->
  Prisma.expense_findUnique id
    (set_expenses
       (map (fun x => if String.eqb (e_id x) id then with_status st x else x)
            (expenses db)) db) = Some (with_status st e).
Proof.
  intros H. unfold Prisma.expense_findUnique in *. simpl.
  rewrite find_map_update by reflexivity. now rewrite H.
Qed.

Lemma countStatus_pos (st : string) (steps : list ApprovalStep)
      (s : ApprovalStep) :
  In s steps -> s_status s = st ->
  (0 <? ApprovalEngine.countStatus st steps)%nat = true.
Proof.
  intros Hin Hst. apply Nat.ltb_lt. unfold ApprovalEngine.countStatus.
  assert (Hf : In s (filter (fun x => String.eqb (s_status x) st) steps)).
  { apply filter_In. split; [assumption|]. rewrite Hst. apply String.eqb_refl. }
  destruct (filter _ steps); [destruct Hf | simpl; lia].
Qed.

Lemma countStatus_zero (st : string) (steps : list ApprovalStep) :
  (forall s, In s steps -> s_status s <> st) ->
  (0 <? ApprovalEngine.countStatus st steps)%nat = false.
Proof.
  intros H. apply Nat.ltb_ge. unfold ApprovalEngine.countStatus.
  induction steps as [|x l IH]; simpl; [lia|].
  destruct (String.eqb (s_status x) st) eqn:E.
  - apply String.eqb_eq in E. exfalso. apply (H x); [now left | assumption].
  - apply IH. intros s Hs. apply H. now right.
Qed.

End StoreLemmas.

(** ** Rejection short-circuits every rule type *)

(** C2.  For every rule (whatever its type, the five known ones and any
    other string) and every step snapshot that holds a step whose status is
    REJECTED, [evaluateApprovalStatus], run on an expense that is a row of
    the store, returns REJECTED and leaves that expense REJECTED in the
    store; nothing of the rule is consulted, so an approval by the specific
    approver of a SPECIFIC or HYBRID rule does not change the result.  The
    alternate backend's [checkExpenseApprovalComplete] reports
    [isRejected] and not [isApproved] for an expense one of whose steps is
    rejected. *)
Theorem C2_rejected_step_rejects
        (db : DB) (expense row : Expense) (steps : list ApprovalStep)
        (rule : ApprovalRule) (s : ApprovalStep)
        (rows : list ApprovalStep) (j : ApprovalStep)
        (Hrow : Prisma.expense_findUnique (e_id expense) db = Some row)
        (Hin : In s steps) (Hrej : s_status s = "REJECTED")
        (Hjin : In j rows) (Hjrej : s_status j = "rejected") :
  (exists db',
      ApprovalEngine.evaluateApprovalStatus expense steps rule db
      = (db', Return "REJECTED")
      /\ Prisma.expense_findUnique (e_id expense) db'
         = Some (with_status "REJECTED" row))
  /\ JsBackend.isRejected
       (JsBackend.checkExpenseApprovalComplete (s_expenseId j) rows) = true
  /\ JsBackend.isApproved
       (JsBackend.checkExpenseApprovalComplete (s_expenseId j) rows) = false.
Proof.
  split.
  - unfold ApprovalEngine.evaluateApprovalStatus.
    rewrite (countStatus_pos "REJECTED" steps s Hin Hrej).
    unfold bind. rewrite (expense_update_found _ _ _ _ Hrow).
    eexists. split; [reflexivity|].
    now apply findUnique_after_status.
  - set (mine := JsBackend.stepsOfExpense (s_expenseId j) rows).
    assert (Hpos : (0 < JsBackend.countOf "rejected" mine)%nat).
    { unfold JsBackend.countOf.
      assert (Hf : In j (filter (fun x => String.eqb (s_status x) "rejected")
                                mine)).
      { apply filter_In. split; [|now rewrite Hjrej].
        apply filter_In. split; [assumption | apply String.eqb_refl]. }
      destruct (filter _ mine); [destruct Hf | simpl; lia]. }
    unfold JsBackend.checkExpenseApprovalComplete. fold mine.
    cbn [JsBackend.isRejected JsBackend.isApproved JsBackend.rejected
         JsBackend.approved JsBackend.total].
    split.
    + now apply Nat.ltb_lt.
    + destruct (JsBackend.countOf "rejected" mine); [lia | reflexivity].
Qed.

(** A HYBRID rule whose specific approver (admin) has approved while the
    manager has rejected: the evaluation is REJECTED. *)
Lemma C2_rejected_step_rejects_witness :
  let rule := Sample.rule "r1" "HYBRID" (Some 60) (Some "admin") 1 1 in
  let steps := [Sample.step "s1" "admin" 0 "APPROVED";
                Sample.step "s2" "manager" 1 "REJECTED"] in
  let rows := [Sample.step "s1" "admin" 1 "approved";
               Sample.step "s2" "manager" 2 "rejected"] in
  let e := Sample.waiting Sample.trip in
  let db := Sample.store [e] [rule] steps [] in
  (exists db',
      ApprovalEngine.evaluateApprovalStatus e steps rule db
      = (db', Return "REJECTED")
      /\ Prisma.expense_findUnique (e_id e) db'
         = Some (with_status "REJECTED" e))
  /\ JsBackend.isRejected (JsBackend.checkExpenseApprovalComplete "trip" rows)
     = true
  /\ JsBackend.isApproved (JsBackend.checkExpenseApprovalComplete "trip" rows)
     = false.
Proof.
  cbv zeta.
  apply (C2_rejected_step_rejects
           (Sample.store [Sample.waiting Sample.trip]
              [Sample.rule "r1" "HYBRID" (Some 60) (Some "admin") 1 1]
              [Sample.step "s1" "admin" 0 "APPROVED";
               Sample.step "s2" "manager" 1 "REJECTED"] [])
           (Sample.waiting Sample.trip) (Sample.waiting Sample.trip)
           [Sample.step "s1" "admin" 0 "APPROVED";
            Sample.step "s2" "manager" 1 "REJECTED"]
           (Sample.rule "r1" "HYBRID" (Some 60) (Some "admin") 1 1)
           (Sample.step "s2" "manager" 1 "REJECTED")
           [Sample.step "s1" "admin" 1 "approved";
            Sample.step "s2" "manager" 2 "rejected"]
           (Sample.step "s2" "manager" 2 "rejected") eq_refl).
  - right. left. reflexivity.
  - reflexivity.
  - right. left. reflexivity.
  - reflexivity.
Defined.

(** ** The percentage evaluation *)

Section Percentage.

Lemma geb_NaN_l (y : number) : JsNumber.geb NaN y = false.
Proof. unfold JsNumber.geb, SFleb, NaN. now destruct y. Qed.

Lemma approvalPercentage_nil : ApprovalEngine.approvalPercentage [] = NaN.
Proof. reflexivity. Qed.

(** No step at all: [0 / 0] is NaN and NaN passes no threshold. *)
Lemma evaluatePercentage_nil (expense : Expense) (threshold : Z) (db : DB) :
  ApprovalEngine.evaluatePercentage expense [] threshold db
  = (db, Return "WAITING_APPROVAL").
Proof.
  unfold ApprovalEngine.evaluatePercentage.
  now rewrite approvalPercentage_nil, geb_NaN_l.
Qed.

(** Threshold 60 and five steps: three approvals pass, two do not. *)
Lemma three_of_five_at_60 : decides 3 5 60 = true.
Proof. vm_compute. reflexivity. Qed.

Lemma two_of_five_at_60 : decides 2 5 60 = false.
Proof. vm_compute. reflexivity. Qed.

(** The quotient and the product are rounded: 29 approvals of 50 are 58
    percent, and the computed percentage stays below 58. *)
Lemma twenty_nine_of_fifty_at_58 : decides 29 50 58 = false.
Proof. vm_compute. reflexivity. Qed.

Lemma filter_repeat (f : ApprovalStep -> bool) (x : ApprovalStep) (n : nat) :
  filter f (repeat x n) = if f x then repeat x n else [].
Proof.
  induction n as [|n IH]; cbn [repeat filter]; [now destruct (f x)|].
  rewrite IH. now destruct (f x).
Qed.

Lemma approvalPercentage_ballot (k n : nat) :
  (k <= n)%nat ->
  ApprovalEngine.approvalPercentage (ballot k n) = percentageOf k n.
Proof.
  intros Hk. unfold ApprovalEngine.approvalPercentage, percentageOf.
  unfold ApprovalEngine.countStatus, ballot.
  rewrite filter_app, !filter_repeat. cbn [Sample.step s_status String.eqb
    Ascii.eqb Bool.eqb].
  rewrite app_nil_r, length_app, !repeat_length.
  now replace (k + (n - k))%nat with n by lia.
Qed.

Lemma agreesUpTo_spec (N n k : nat) (t : Z) :
  agreesUpTo N = true ->
  (1 <= n <= N)%nat -> (k <= n)%nat -> 1 <= t <= 100 ->
  JsNumber.geb (percentageOf k n) (ofZ t)
  = (t * Z.of_nat n <=? 100 * Z.of_nat k).
Proof.
  unfold agreesUpTo. intros H Hn Hk Ht.
  rewrite forallb_forall in H.
  specialize (H n ltac:(apply in_seq; lia)). rewrite forallb_forall in H.
  specialize (H k ltac:(apply in_seq; lia)). rewrite forallb_forall in H.
  assert (Hin : In t (map Z.of_nat (seq 1 100))).
  { apply in_map_iff. exists (Z.to_nat t). split; [lia|]. apply in_seq. lia. }
  specialize (H t Hin). apply Bool.eqb_prop in H. exact H.
Qed.

Lemma agrees_up_to_20 : agreesUpTo 20 = true.
Proof. vm_compute. reflexivity. Qed.

(** With one to twenty steps, the rounding of the quotient and of the
    product never changes the verdict: the expense is approved exactly when
    [k / n * 100 >= threshold] holds of the exact ratio.  (It does change it
    from fifty steps on, see [twenty_nine_of_fifty_at_58].) *)
Lemma percentage_exact_up_to_20 (n k : nat) (t : Z) :
  (1 <= n <= 20)%nat -> (k <= n)%nat -> 1 <= t <= 100 ->
  decides k n t = (t * Z.of_nat n <=? 100 * Z.of_nat k).
Proof.
  intros Hn Hk Ht. unfold decides. rewrite approvalPercentage_ballot by lia.
  exact (agreesUpTo_spec 20 n k t agrees_up_to_20 Hn Hk Ht).
Qed.

End Percentage.

(** C3.  On a snapshot without any step the evaluator of a PARALLEL or
    PERCENTAGE rule returns WAITING_APPROVAL, with the store untouched: the
    percentage is [0 / 0 * 100], which is NaN, and [NaN >= threshold] is
    false for every threshold. *)
Theorem C3_zero_steps_stay_waiting
        (expense : Expense) (rule : ApprovalRule) (db : DB)
        (Htype : r_type rule = "PARALLEL" \/ r_type rule = "PERCENTAGE") :
  ApprovalEngine.evaluateApprovalStatus expense [] rule db
  = (db, Return "WAITING_APPROVAL").
Proof.
  unfold ApprovalEngine.evaluateApprovalStatus.
  cbn [ApprovalEngine.countStatus filter List.length Nat.ltb Nat.leb].
  destruct Htype as [H | H]; rewrite H; cbn [String.eqb Ascii.eqb Bool.eqb orb];
    apply evaluatePercentage_nil.
Qed.

Lemma C3_zero_steps_stay_waiting_witness :
  (r_type (Sample.rule "r1" "PERCENTAGE" (Some 60) None 1 1) = "PARALLEL"
   \/ r_type (Sample.rule "r1" "PERCENTAGE" (Some 60) None 1 1) = "PERCENTAGE")
  /\ ApprovalEngine.evaluateApprovalStatus (Sample.waiting Sample.trip) []
       (Sample.rule "r1" "PERCENTAGE" (Some 60) None 1 1)
       (Sample.store [Sample.waiting Sample.trip]
          [Sample.rule "r1" "PERCENTAGE" (Some 60) None 1 1] [] [])
     = (Sample.store [Sample.waiting Sample.trip]
          [Sample.rule "r1" "PERCENTAGE" (Some 60) None 1 1] [] [],
        Return "WAITING_APPROVAL").
Proof.
  split.
  - right. reflexivity.
  - apply (C3_zero_steps_stay_waiting (Sample.waiting Sample.trip)
             (Sample.rule "r1" "PERCENTAGE" (Some 60) None 1 1)).
    right. reflexivity.
Defined.

(** ** The hybrid evaluation *)

(** C4, as stated, fails: HYBRID rule with threshold 60, the specific
    approver (admin) still PENDING and the only other approver APPROVED.
    No step is REJECTED.  The percentage taken over the remaining step alone
    is 100 and passes; the evaluator returns WAITING_APPROVAL, because it
    takes the percentage over both steps (50). *)
Lemma C4_remaining_steps_counterexample :
  let rule := Sample.rule "r1" "HYBRID" (Some 60) (Some "admin") 1 1 in
  let steps := [Sample.step "s1" "admin" 0 "PENDING";
                Sample.step "s2" "manager" 1 "APPROVED"] in
  let e := Sample.waiting Sample.trip in
  let db := Sample.store [e] [rule] steps [] in
  ApprovalEngine.countStatus "REJECTED" steps = 0%nat
  /\ snd (ApprovalEngine.evaluateApprovalStatus e steps rule db)
     = Return "WAITING_APPROVAL"
  /\ snd (ApprovalEngine.evaluatePercentage e (remainingSteps rule steps) 60 db)
     = Return "APPROVED".
Proof.
  cbv zeta. repeat split; vm_compute; reflexivity.
Qed.

(** C4, amended.  For a HYBRID rule and a snapshot without REJECTED step,
    evaluated on an expense that is a row of the store: when the step of
    the specific approver is APPROVED the result is APPROVED at once and the
    expense is stored APPROVED, whatever the other steps are; otherwise the
    result is that of [evaluatePercentage] over ALL the steps of the
    snapshot, the specific approver's step included, with the rule's
    threshold or 60 when it is unset. *)
Theorem C4_hybrid_specific_then_percentage_over_all_steps
        (db : DB) (expense row : Expense) (steps : list ApprovalStep)
        (rule : ApprovalRule)
        (Hrow : Prisma.expense_findUnique (e_id expense) db = Some row)
        (Htype : r_type rule = "HYBRID")
        (Hnorej : forall s, In s steps -> s_status s <> "REJECTED") :
  ((exists s, specificStepOf rule steps = Some s /\ s_status s = "APPROVED") ->
   exists db',
     ApprovalEngine.evaluateApprovalStatus expense steps rule db
     = (db', Return "APPROVED")
     /\ Prisma.expense_findUnique (e_id expense) db'
        = Some (with_status "APPROVED" row))
  /\ ((forall s, specificStepOf rule steps = Some s ->
                 s_status s <> "APPROVED") ->
      ApprovalEngine.evaluateApprovalStatus expense steps rule db
      = ApprovalEngine.evaluatePercentage expense steps
          (ApprovalEngine.thresholdOr rule 60) db).
Proof.
  assert (Heval :
            ApprovalEngine.evaluateApprovalStatus expense steps rule db
            = ApprovalEngine.evaluateHybrid expense steps rule db).
  { unfold ApprovalEngine.evaluateApprovalStatus.
    rewrite (countStatus_zero "REJECTED" steps Hnorej), Htype.
    reflexivity. }
  rewrite Heval. unfold ApprovalEngine.evaluateHybrid, specificStepOf.
  split.
  - intros [s [Hs Happ]]. rewrite Hs, Happ. cbn [String.eqb Ascii.eqb Bool.eqb].
    unfold bind. rewrite (expense_update_found _ _ _ _ Hrow).
    eexists. split; [reflexivity|]. now apply findUnique_after_status.
  - intros Hnot.
    destruct (find _ steps) as [s|] eqn:Hs; [|reflexivity].
    destruct (String.eqb (s_status s) "APPROVED") eqn:E; [|reflexivity].
    apply String.eqb_eq in E. exfalso. now apply (Hnot s).
Qed.

Lemma C4_hybrid_witness :
  let rule := Sample.rule "r1" "HYBRID" (Some 60) (Some "admin") 1 1 in
  let steps := [Sample.step "s1" "admin" 0 "APPROVED";
                Sample.step "s2" "manager" 1 "PENDING"] in
  let e := Sample.waiting Sample.trip in
  let db := Sample.store [e] [rule] steps [] in
  exists db',
    ApprovalEngine.evaluateApprovalStatus e steps rule db
    = (db', Return "APPROVED")
    /\ Prisma.expense_findUnique (e_id e) db'
       = Some (with_status "APPROVED" e).
Proof.
  cbv zeta.
  refine (proj1
    (C4_hybrid_specific_then_percentage_over_all_steps
       (Sample.store [Sample.waiting Sample.trip]
          [Sample.rule "r1" "HYBRID" (Some 60) (Some "admin") 1 1]
          [Sample.step "s1" "admin" 0 "APPROVED";
           Sample.step "s2" "manager" 1 "PENDING"] [])
       (Sample.waiting Sample.trip) (Sample.waiting Sample.trip)
       [Sample.step "s1" "admin" 0 "APPROVED";
        Sample.step "s2" "manager" 1 "PENDING"]
       (Sample.rule "r1" "HYBRID" (Some 60) (Some "admin") 1 1)
       eq_refl eq_refl _) _).
  - intros s [H | [H | []]]; subst s; discriminate.
  - exists (Sample.step "s1" "admin" 0 "APPROVED"). split; reflexivity.
Defined.

(** ** Rule matching *)

Section StableHead.

Context {A : Type} (key : A -> Z).

Lemma hd_insert_sorted (x : A) (l : list A) :
  hd_error (insert_sorted (fun a b => key b - key a) x l)
  = match hd_error l with
    | Some y => if key y <=? key x then Some x else Some y
    | None => Some x
    end.
Proof.
  destruct l as [|y l]; [reflexivity|]. cbn [insert_sorted hd_error].
  replace (key y - key x <=? 0) with (key y <=? key x)
    by (destruct (Z.leb_spec (key y) (key x));
        symmetry; [apply Z.leb_le | apply Z.leb_gt]; lia).
  now destruct (key y <=? key x).
Qed.

Lemma hd_js_sort_desc (l : list A) :
  hd_error (js_sort (fun a b => key b - key a) l) = firstOfTop key l.
Proof.
  induction l as [|x l IH]; [reflexivity|].
  cbn [js_sort firstOfTop]. now rewrite hd_insert_sorted, IH.
Qed.

Lemma firstOfTop_none (l : list A) : firstOfTop key l = None -> l = [].
Proof.
  destruct l as [|x l]; [reflexivity|]. cbn [firstOfTop].
  destruct (firstOfTop key l) as [y|]; [|discriminate].
  destruct (key y <=? key x); discriminate.
Qed.

Lemma firstOfTop_split (l : list A) (top : A) :
  firstOfTop key l = Some top ->
  exists pre post,
    l = (pre ++ top :: post)%list
    /\ (forall x, In x pre -> key x < key top)
    /\ (forall x, In x post -> key x <= key top).
Proof.
  revert top. induction l as [|x l IH]; intros top H; [discriminate|].
  cbn [firstOfTop] in H.
  destruct (firstOfTop key l) as [y|] eqn:Hy.
  - destruct (IH y eq_refl) as (pre & post & El & Hpre & Hpost).
    destruct (Z.leb_spec (key y) (key x)) as [Hle | Hlt];
      injection H as <-.
    + exists [], l. split; [reflexivity|]. split; [intros z []|].
      intros z Hz. rewrite El in Hz. apply in_app_or in Hz.
      destruct Hz as [Hz | [<- | Hz]].
      * specialize (Hpre z Hz). lia.
      * assumption.
      * specialize (Hpost z Hz). lia.
    + exists (x :: pre), post. split; [now rewrite El|]. split.
      * intros z [<- | Hz]; [assumption | now apply Hpre].
      * assumption.
  - injection H as <-. apply firstOfTop_none in Hy. subst l.
    exists [], []. split; [reflexivity|]. split; intros z [].
Qed.

End StableHead.

Section RuleMatching.

Lemma ruleApplies_covers (companyId : string) (context : ApprovalContext)
      (r : ApprovalRule) :
  ApprovalEngine.ruleApplies companyId context r = true
  <-> covers companyId context r.
Proof.
  unfold ApprovalEngine.ruleApplies, covers.
  rewrite !andb_true_iff, String.eqb_eq.
  split.
  - intros [[[[Hc Ha] Hcat] Hlo] Hhi]. repeat split; try assumption.
    + intros Hne. destruct (category context) as [|c s] eqn:Ec;
        [now elim Hne|]. cbn [truthy_string] in Hcat.
      destruct (r_appliesToCategory r) as [t|]; [|now left].
      right. apply String.eqb_eq in Hcat. now rewrite Hcat.
    + intros lo E. now rewrite E in Hlo.
    + intros hi E. now rewrite E in Hhi.
  - intros (Hc & Ha & Hcat & Hlo & Hhi). repeat split; try assumption.
    + destruct (category context) as [|c s] eqn:Ec; [reflexivity|].
      cbn [truthy_string].
      destruct Hcat as [E | E]; [discriminate | now rewrite E | ].
      rewrite E. apply String.eqb_refl.
    + destruct (r_minAmount r) as [lo|]; [now apply Hlo | reflexivity].
    + destruct (r_maxAmount r) as [hi|]; [now apply Hhi | reflexivity].
Qed.

End RuleMatching.

(** C5, as stated, fails on the tie: two active rules of the company with
    the same priority, both covering the expense; the store returns the one
    created later first (the query asks for no order).  It governs: the one
    SPECIFIC step it creates is for the manager, and the rule created
    earlier, with the admin as approver, is not applied. *)
Lemma C5_tie_counterexample :
  let late := Sample.rule "late" "SPECIFIC" None (Some "manager") 5 200 in
  let early := Sample.rule "early" "SPECIFIC" None (Some "admin") 5 100 in
  let db := Sample.store [Sample.waiting Sample.trip] [late; early] [] [] in
  let context := mkContext "Travel" (ofZ 110) "employee" in
  ApprovalEngine.getApplicableRules "acme" context db = [late; early]
  /\ r_priority early = r_priority late
  /\ r_createdAt early < r_createdAt late
  /\ hd_error (ApprovalEngine.sortByPriority
                 (ApprovalEngine.getApplicableRules "acme" context db))
     = Some late
  /\ map s_approverId
         (approvalSteps
            (fst (ApprovalEngine.createApprovalSteps 1 "trip" "acme" context
                                                     db)))
     = ["manager"].
Proof.
  cbv zeta. repeat split; vm_compute; reflexivity.
Qed.

(** C5, amended.  [getApplicableRules] returns exactly the rules of the
    store that are active, belong to the company, have an unset category or
    the category of the expense (a condition applied when the expense has a
    non-empty category), and whose optional bounds contain the amount, in
    store order.  When there is a candidate, [createApprovalSteps] applies
    one rule only: a candidate of greatest priority, and among the
    candidates of that priority the one the store returned first; the
    creation time plays no part. *)
Theorem C5_candidates_and_governing_rule
        (db : DB) (companyId : string) (context : ApprovalContext) :
  let candidates := ApprovalEngine.getApplicableRules companyId context db in
  (forall r, In r candidates
             <-> In r (approvalRules db) /\ covers companyId context r)
  /\ (forall rule,
         hd_error (ApprovalEngine.sortByPriority candidates) = Some rule ->
         (forall fuel expenseId,
             ApprovalEngine.createApprovalSteps fuel expenseId companyId
                                                context db
             = ApprovalEngine.applyRule fuel expenseId rule context db)
         /\ exists pre post,
             candidates = (pre ++ rule :: post)%list
             /\ (forall x, In x pre -> r_priority x < r_priority rule)
             /\ (forall x, In x post -> r_priority x <= r_priority rule)).
Proof.
  cbv zeta. split.
  - intros r. unfold ApprovalEngine.getApplicableRules.
    rewrite filter_In, ruleApplies_covers. reflexivity.
  - intros rule Hhd. split.
    + intros fuel expenseId. unfold ApprovalEngine.createApprovalSteps.
      unfold bind, get.
      destruct (ApprovalEngine.sortByPriority _) as [|r0 rest];
        [discriminate|].
      injection Hhd as ->. reflexivity.
    + apply (firstOfTop_split r_priority).
      now rewrite <- (hd_js_sort_desc r_priority).
Qed.

(** ** The manager chain *)

Section ManagerChain.

Lemma managerLoop_chain (db : DB) (cu : option User) (l : list User) :
  Chain db cu l ->
  forall fuel acc, (List.length l < fuel)%nat ->
    ApprovalEngine.managerLoop fuel db cu acc = Some (acc ++ l)%list.
Proof.
  induction 1 as [cu H | cu m l H _ IH]; intros fuel acc Hfuel;
    (destruct fuel as [|fuel]; [cbn in Hfuel; lia|]);
    cbn [ApprovalEngine.managerLoop]; rewrite H.
  - now rewrite app_nil_r.
  - rewrite IH by (cbn in Hfuel; lia). now rewrite <- app_assoc.
Qed.

Lemma managerLoop_short (db : DB) (cu : option User) (l : list User) :
  Chain db cu l ->
  forall fuel acc, (fuel <= List.length l)%nat ->
    ApprovalEngine.managerLoop fuel db cu acc = None.
Proof.
  induction 1 as [cu H | cu m l H _ IH]; intros fuel acc Hfuel;
    (destruct fuel as [|fuel]; [reflexivity|]); cbn in Hfuel; [lia|].
  cbn [ApprovalEngine.managerLoop]. rewrite H. apply IH. lia.
Qed.

Lemma managerOf_in (db : DB) (cu : option User) (m : User) :
  ApprovalEngine.managerOf db cu = Some m ->
  In m (users db) /\ Prisma.user_findUnique (u_id m) db = Some m.
Proof.
  unfold ApprovalEngine.managerOf, Prisma.user_findUnique.
  destruct cu as [u|]; [|discriminate].
  destruct (u_managerId u) as [mid|]; [|discriminate].
  intros H. pose proof (find_some _ _ H) as [Hin Heq].
  apply String.eqb_eq in Heq. split; [assumption|]. now rewrite Heq.
Qed.

(** A rank that decreases along every manager link bounds the chain. *)
Lemma ranked_chain (db : DB) (rank : string -> nat)
      (Hrank : forall u m, In u (users db) ->
                 ApprovalEngine.managerOf db (Some u) = Some m ->
                 (rank (u_id m) < rank (u_id u))%nat) :
  forall n u, In u (users db) -> (rank (u_id u) <= n)%nat ->
    exists l, Chain db (Some u) l /\ (List.length l <= n)%nat.
Proof.
  induction n as [|n IH]; intros u Hu Hn.
  - destruct (ApprovalEngine.managerOf db (Some u)) as [m|] eqn:Hm.
    + specialize (Hrank u m Hu Hm). lia.
    + exists []. split; [now constructor | cbn; lia].
  - destruct (ApprovalEngine.managerOf db (Some u)) as [m|] eqn:Hm.
    + destruct (managerOf_in _ _ _ Hm) as [Hin Hfind].
      specialize (Hrank u m Hu Hm).
      destruct (IH m Hin ltac:(lia)) as (l & Hl & Hlen).
      exists (m :: l). split; [|cbn; lia].
      apply chain_link; [assumption | now rewrite Hfind].
    + exists []. split; [now constructor | cbn; lia].
Qed.

Lemma circular_never_returns (fuel : nat) :
  forall acc,
    ApprovalEngine.managerLoop fuel circular (Some alice) acc = None
    /\ ApprovalEngine.managerLoop fuel circular (Some bob) acc = None.
Proof.
  induction fuel as [|fuel IH]; intros acc; [split; reflexivity|].
  cbn [ApprovalEngine.managerLoop].
  change (ApprovalEngine.managerOf circular (Some alice)) with (Some bob).
  change (ApprovalEngine.managerOf circular (Some bob)) with (Some alice).
  change (Prisma.user_findUnique (u_id bob) circular) with (Some bob).
  change (Prisma.user_findUnique (u_id alice) circular) with (Some alice).
  split; apply IH.
Qed.

End ManagerChain.

(** C9, as stated, fails: on the store where Alice's manager is Bob and
    Bob's manager is Alice, no amount of fuel lets [getManagerHierarchy]
    return for Alice: the loop has no visited set and no depth bound. *)
Lemma C9_cyclic_chain_counterexample :
  ~ exists fuel managers,
      snd (ApprovalEngine.getManagerHierarchy fuel "alice" circular)
      = Return managers.
Proof.
  intros (fuel & managers & H).
  unfold ApprovalEngine.getManagerHierarchy in H.
  change (Prisma.user_findUnique "alice" circular) with (Some alice) in H.
  rewrite (proj1 (circular_never_returns fuel [])) in H. discriminate.
Qed.

(** C9, amended.  When the manager links of the store are free of cycles
    (some rank decreases along every link), the walk from any user
    terminates: there is a finite list of managers, no longer than the rank
    of the user, that [getManagerHierarchy] returns for every fuel that
    exceeds its length, with the store unchanged.  The code itself has no
    bound: with a fuel not above that length the walk is still running. *)
Theorem C9_acyclic_chain_terminates
        (db : DB) (rank : string -> nat) (userId : string)
        (Hrank : forall u m, In u (users db) ->
                   ApprovalEngine.managerOf db (Some u) = Some m ->
                   (rank (u_id m) < rank (u_id u))%nat) :
  exists managers,
    (List.length managers <= rank userId)%nat
    /\ (forall fuel, (List.length managers < fuel)%nat ->
          ApprovalEngine.getManagerHierarchy fuel userId db
          = (db, Return managers))
    /\ (forall fuel, (fuel <= List.length managers)%nat ->
          ApprovalEngine.getManagerHierarchy fuel userId db = (db, Diverge)).
Proof.
  unfold ApprovalEngine.getManagerHierarchy.
  destruct (Prisma.user_findUnique userId db) as [u|] eqn:Hu.
  - pose proof (find_some _ _ Hu) as [Hin Heq]. apply String.eqb_eq in Heq.
    destruct (ranked_chain db rank Hrank (rank (u_id u)) u Hin (le_n _))
      as (l & Hl & Hlen).
    exists l. rewrite <- Heq. split; [assumption|]. split; intros fuel Hfuel.
    + now rewrite (managerLoop_chain _ _ _ Hl fuel []).
    + now rewrite (managerLoop_short _ _ _ Hl fuel []).
  - exists []. split; [cbn; lia|].
    assert (Hc : Chain db None []) by (now constructor).
    split; intros fuel Hfuel.
    + now rewrite (managerLoop_chain _ _ _ Hc fuel []).
    + now rewrite (managerLoop_short _ _ _ Hc fuel []).
Qed.

Lemma C9_acyclic_chain_terminates_witness :
  exists managers,
    (List.length managers <= (fun s => String.length s) "employee")%nat
    /\ (forall fuel, (List.length managers < fuel)%nat ->
          ApprovalEngine.getManagerHierarchy fuel "employee"
            (Sample.store [] [] [] [])
          = (Sample.store [] [] [] [], Return managers))
    /\ (forall fuel, (fuel <= List.length managers)%nat ->
          ApprovalEngine.getManagerHierarchy fuel "employee"
            (Sample.store [] [] [] [])
          = (Sample.store [] [] [] [], Diverge)).
Proof.
  apply (C9_acyclic_chain_terminates (Sample.store [] [] [] [])
           (fun s => String.length s) "employee").
  intros u m [<- | [<- | [<- | []]]] H; vm_compute in H;
    try discriminate. injection H as <-. vm_compute. lia.
Defined.

(** ** What a decision reads and writes *)

Section Decisions.

Lemma in_insert_sorted {A} (cmp : A -> A -> Z) (x y : A) (l : list A) :
  In y (insert_sorted cmp x l) <-> y = x \/ In y l.
Proof.
  induction l as [|z l IH]; cbn [insert_sorted].
  - cbn. intuition congruence.
  - destruct (cmp x z <=? 0); cbn [In]; [intuition congruence|].
    rewrite IH. cbn. intuition congruence.
Qed.

Lemma in_js_sort {A} (cmp : A -> A -> Z) (y : A) (l : list A) :
  In y (js_sort cmp l) <-> In y l.
Proof.
  induction l as [|x l IH]; cbn [js_sort]; [reflexivity|].
  rewrite in_insert_sorted, IH. cbn. intuition congruence.
Qed.

Lemma find_all_false {A} (f : A -> bool) (l : list A) :
  (forall x, In x l -> f x = false) -> find f l = None.
Proof.
  induction l as [|x l IH]; intros H; [reflexivity|]. cbn [find].
  rewrite (H x (or_introl eq_refl)). apply IH. intros y Hy. apply H.
  now right.
Qed.

Lemma in_ownSteps (userId id : string) (db : DB) (s : ApprovalStep) :
  In s (ownSteps userId id db)
  <-> In s (approvalSteps db) /\ s_expenseId s = id
      /\ s_approverId s = userId.
Proof.
  unfold ownSteps, Prisma.stepsOf.
  rewrite filter_In, in_js_sort, filter_In, !String.eqb_eq. tauto.
Qed.

(** [approveCheck] written out. *)
Lemma approveCheck_eq (companyId userId id : string) (db : DB) :
  ExpenseController.approveCheck companyId userId id db
  = match Prisma.expense_findUnique id db with
    | None => (db, Throw (AppError "Expense not found" 404))
    | Some expense =>
        if negb (String.eqb (e_companyId expense) companyId)
        then (db, Throw (AppError "Expense not found" 404))
        else if negb (String.eqb (e_status expense) "WAITING_APPROVAL")
        then (db, Throw (AppError "Expense is not waiting for approval" 400))
        else match find (isPendingOf userId) (ownSteps userId id db) with
             | None =>
                 (db, Throw (AppError
                   "You are not authorized to approve this expense" 403))
             | Some approvalStep => (db, Return (s_id approvalStep))
             end
    end.
Proof.
  unfold ExpenseController.approveCheck, bind, get, throw, ret.
  destruct (Prisma.expense_findUnique id db) as [e|]; [|reflexivity].
  destruct (negb (String.eqb (e_companyId e) companyId)); [reflexivity|].
  destruct (negb (String.eqb (e_status e) "WAITING_APPROVAL"));
    [reflexivity|].
  fold (ownSteps userId id db). fold (isPendingOf userId).
  now destruct (find _ _).
Qed.

Lemma approveCheck_reads_only (companyId userId id : string) (db : DB) :
  fst (ExpenseController.approveCheck companyId userId id db) = db.
Proof.
  rewrite approveCheck_eq.
  destruct (Prisma.expense_findUnique id db) as [e|]; [|reflexivity].
  destruct (negb _); [reflexivity|]. destruct (negb _); [reflexivity|].
  now destruct (find _ _).
Qed.

(** What a successful check has established. *)
Lemma approveCheck_return (companyId userId id stepId : string) (db db' : DB) :
  ExpenseController.approveCheck companyId userId id db
  = (db', Return stepId) ->
  db' = db
  /\ (exists expense,
         Prisma.expense_findUnique id db = Some expense
         /\ e_id expense = id
         /\ e_companyId expense = companyId
         /\ e_status expense = "WAITING_APPROVAL")
  /\ (exists step,
         In step (approvalSteps db) /\ s_id step = stepId
         /\ s_expenseId step = id /\ s_approverId step = userId
         /\ s_status step = "PENDING").
Proof.
  rewrite approveCheck_eq.
  destruct (Prisma.expense_findUnique id db) as [e|] eqn:He; [|discriminate].
  destruct (String.eqb (e_companyId e) companyId) eqn:Ec;
    cbn [negb]; [|discriminate].
  destruct (String.eqb (e_status e) "WAITING_APPROVAL") eqn:Es;
    cbn [negb]; [|discriminate].
  destruct (find _ _) as [s|] eqn:Hs; [|discriminate].
  intros H. injection H as <- <-. split; [reflexivity|].
  apply String.eqb_eq in Ec, Es.
  pose proof (find_some _ _ He) as [_ Hid]. apply String.eqb_eq in Hid.
  split; [now exists e|].
  pose proof (find_some _ _ Hs) as [Hin Hp].
  apply in_ownSteps in Hin. unfold isPendingOf in Hp.
  apply andb_true_iff in Hp. destruct Hp as [_ Hp].
  apply String.eqb_eq in Hp. exists s. tauto.
Qed.

Lemma approvalStep_update_found (id : string)
      (f : ApprovalStep -> ApprovalStep) (db : DB) (s : ApprovalStep) :
  In s (approvalSteps db) -> s_id s = id ->
  Prisma.approvalStep_update id f db
  = (set_approvalSteps (map (updS id f) (approvalSteps db)) db, Return tt).
Proof.
  intros Hin Hid. unfold Prisma.approvalStep_update.
  destruct (find _ (approvalSteps db)) eqn:Hf; [reflexivity|].
  pose proof (find_none _ _ Hf s Hin) as H. cbn in H.
  rewrite Hid, String.eqb_refl in H. discriminate.
Qed.

End Decisions.

Section Evaluation.

Variables (expense row : Expense) (db : DB).
Hypothesis Hrow : Prisma.expense_findUnique (e_id expense) db = Some row.

Lemma close_then_return (st : string) :
  (Prisma.expense_update (e_id expense) (with_status st) ;;; ret st) db
  = (closeWith (e_id expense) st db, Return st).
Proof.
  unfold bind. now rewrite (expense_update_found _ _ _ _ Hrow).
Qed.

Lemma settles_stay (st : string) : settles (e_id expense) db (db, Return st).
Proof. exists st. now left. Qed.

Lemma settles_approved :
  settles (e_id expense) db
    ((Prisma.expense_update (e_id expense) (with_status "APPROVED") ;;;
      ret "APPROVED") db).
Proof. rewrite close_then_return. exists "APPROVED". right. tauto. Qed.

Lemma settles_rejected :
  settles (e_id expense) db
    ((Prisma.expense_update (e_id expense) (with_status "REJECTED") ;;;
      ret "REJECTED") db).
Proof. rewrite close_then_return. exists "REJECTED". right. tauto. Qed.

Lemma sequentialScan_settles (steps : list ApprovalStep) :
  settles (e_id expense) db (ApprovalEngine.sequentialScan expense steps db).
Proof.
  induction steps as [|s l IH]; cbn [ApprovalEngine.sequentialScan].
  - apply settles_approved.
  - destruct (String.eqb (s_status s) "PENDING"); [apply settles_stay|].
    destruct (String.eqb (s_status s) "REJECTED");
      [apply settles_rejected | apply IH].
Qed.

Lemma evaluatePercentage_settles (steps : list ApprovalStep) (t : Z) :
  settles (e_id expense) db
    (ApprovalEngine.evaluatePercentage expense steps t db).
Proof.
  unfold ApprovalEngine.evaluatePercentage.
  destruct (JsNumber.geb _ _); [apply settles_approved | apply settles_stay].
Qed.

Lemma evaluateApprovalStatus_settles (steps : list ApprovalStep)
      (rule : ApprovalRule) :
  settles (e_id expense) db
    (ApprovalEngine.evaluateApprovalStatus expense steps rule db).
Proof.
  unfold ApprovalEngine.evaluateApprovalStatus.
  destruct (0 <? ApprovalEngine.countStatus "REJECTED" steps)%nat;
    [apply settles_rejected|].
  destruct (String.eqb (r_type rule) "SEQUENTIAL");
    [apply sequentialScan_settles|].
  destruct (_ || _); [apply evaluatePercentage_settles|].
  destruct (String.eqb (r_type rule) "SPECIFIC").
  { unfold ApprovalEngine.evaluateSpecific.
    destruct (0 <? _)%nat; [apply settles_approved | apply settles_stay]. }
  destruct (String.eqb (r_type rule) "HYBRID"); [|apply settles_stay].
  unfold ApprovalEngine.evaluateHybrid.
  destruct (find _ steps) as [s|]; [|apply evaluatePercentage_settles].
  destruct (String.eqb (s_status s) "APPROVED");
    [apply settles_approved | apply evaluatePercentage_settles].
Qed.

End Evaluation.

Section DecisionEffect.

Lemma processApproval_settles (id : string) (db : DB) (expense : Expense) :
  Prisma.expense_findUnique id db = Some expense ->
  settles id db (ApprovalEngine.processApproval id db).
Proof.
  intros He. unfold ApprovalEngine.processApproval. rewrite He.
  pose proof (find_some _ _ He) as [_ Hid]. apply String.eqb_eq in Hid.
  destruct (ApprovalEngine.sortByPriority _) as [|rule rest].
  - exists (e_status expense). now left.
  - rewrite <- Hid. apply (evaluateApprovalStatus_settles expense expense).
    now rewrite Hid.
Qed.

(** The whole of [approveExpense]: it throws at a guard, before any write,
    or it decides one PENDING step of the actor and then lets the engine
    settle the expense. *)
Lemma approveExpense_effect (env : Env) (companyId userId id action : string)
      (comments : option string) (db : DB) :
  let r := ExpenseController.approveExpense env companyId userId id action
                                            comments db in
  (exists e, r = (db, Throw e)
             /\ ExpenseController.approveCheck companyId userId id db
                = (db, Throw e))
  \/ (exists step expense,
         In step (approvalSteps db)
         /\ s_expenseId step = id /\ s_approverId step = userId
         /\ s_status step = "PENDING"
         /\ Prisma.expense_findUnique id db = Some expense
         /\ e_companyId expense = companyId
         /\ e_status expense = "WAITING_APPROVAL"
         /\ settles id (decideStep env userId action comments (s_id step) db)
              r).
Proof.
  cbv zeta. unfold ExpenseController.approveExpense, bind.
  destruct (ExpenseController.approveCheck companyId userId id db)
    as [db1 [stepId | e | ]] eqn:Hc.
  - apply approveCheck_return in Hc.
    destruct Hc as (-> & (expense & He & Hid & Hco & Hst)
                    & (step & Hin & Hsid & Hex & Hap & Hpe)).
    right. exists step, expense. repeat (split; [assumption|]).
    unfold ExpenseController.approveWrite.
    rewrite (approvalStep_update_found _ _ _ _ Hin Hsid).
    fold (decideStep env userId action comments stepId db). rewrite Hsid.
    now apply (processApproval_settles id _ expense).
  - left. exists e.
    pose proof (approveCheck_reads_only companyId userId id db) as Hro.
    rewrite Hc in Hro. cbn in Hro. subst db1. tauto.
  - exfalso. rewrite approveCheck_eq in Hc.
    destruct (Prisma.expense_findUnique id db); [|discriminate].
    destruct (negb _); [discriminate|]. destruct (negb _); [discriminate|].
    destruct (find _ _); discriminate.
Qed.

Lemma approveExpense_refused (env : Env) (companyId userId id action : string)
      (comments : option string) (db : DB) (e : error) :
  ExpenseController.approveCheck companyId userId id db = (db, Throw e) ->
  ExpenseController.approveExpense env companyId userId id action comments db
  = (db, Throw e).
Proof.
  intros H. unfold ExpenseController.approveExpense, bind. now rewrite H.
Qed.

End DecisionEffect.

(** ** What a submission reads and writes *)

Create HintDb keeps discriminated.

Section Frames.

Lemma keeps_ret {A} (a : A) : keepsExpenses (ret a).
Proof. intros db. reflexivity. Qed.

Lemma keeps_throw {A} (e : error) : keepsExpenses (@throw A e).
Proof. intros db. reflexivity. Qed.

Lemma keeps_get {A} (f : DB -> A) : keepsExpenses (get f).
Proof. intros db. reflexivity. Qed.

Lemma keeps_bind {A B} (m : M A) (k : A -> M B) :
  keepsExpenses m -> (forall a, keepsExpenses (k a)) ->
  keepsExpenses (bind m k).
Proof.
  intros Hm Hk db. unfold bind. specialize (Hm db).
  destruct (m db) as [db1 [a | e | ]]; cbn [fst] in *;
    [now rewrite Hk | assumption | assumption].
Qed.

Lemma keeps_catch {A} (m : M A) (h : error) :
  keepsExpenses m -> keepsExpenses (catch_rethrow m h).
Proof.
  intros Hm db. unfold catch_rethrow. specialize (Hm db).
  now destruct (m db) as [db1 [a | e | ]].
Qed.

Lemma keeps_forEach {A} (l : list A) (body : A -> M unit) :
  (forall x, keepsExpenses (body x)) -> keepsExpenses (forEach l body).
Proof.
  intros Hb. induction l as [|x l IH]; cbn [forEach];
    [apply keeps_ret | apply keeps_bind; auto].
Qed.

Lemma keeps_create (expenseId approverId : string) (i : Z) :
  keepsExpenses (Prisma.approvalStep_create expenseId approverId i).
Proof.
  intros db. unfold Prisma.approvalStep_create.
  destruct (existsb _ _); [reflexivity|].
  destruct (Prisma.expense_findUnique expenseId db); [|reflexivity].
  now destruct (Prisma.user_findUnique approverId db).
Qed.

Lemma keeps_createIndexed (expenseId : string) (l : list User) :
  forall i, keepsExpenses (ApprovalEngine.createIndexed expenseId i l).
Proof.
  induction l as [|a l IH]; intros i; cbn [ApprovalEngine.createIndexed];
    [apply keeps_ret | apply keeps_bind; auto using keeps_create].
Qed.

Lemma keeps_getManagerHierarchy (fuel : nat) (userId : string) :
  keepsExpenses (ApprovalEngine.getManagerHierarchy fuel userId).
Proof.
  intros db. unfold ApprovalEngine.getManagerHierarchy.
  now destruct (ApprovalEngine.managerLoop _ _ _ _).
Qed.

Hint Resolve keeps_ret keeps_throw keeps_get keeps_create
     keeps_createIndexed keeps_getManagerHierarchy : keeps.

Lemma keeps_applyRule (fuel : nat) (expenseId : string) (rule : ApprovalRule)
      (context : ApprovalContext) :
  keepsExpenses (ApprovalEngine.applyRule fuel expenseId rule context).
Proof.
  assert (Hpar : keepsExpenses
            (ApprovalEngine.createParallelApproval expenseId rule context)).
  { apply keeps_bind; [auto with keeps|]. intros l.
    apply keeps_forEach. auto with keeps. }
  unfold ApprovalEngine.applyRule.
  destruct (String.eqb (r_type rule) "SEQUENTIAL").
  { apply keeps_bind; auto with keeps. }
  destruct (String.eqb (r_type rule) "PARALLEL"); [assumption|].
  destruct (String.eqb (r_type rule) "PERCENTAGE"); [assumption|].
  destruct (String.eqb (r_type rule) "SPECIFIC").
  { unfold ApprovalEngine.createSpecificApproval.
    destruct (r_specificApproverId rule) as [a|]; [|auto with keeps].
    destruct (truthy_string a); auto with keeps. }
  destruct (String.eqb (r_type rule) "HYBRID"); [|auto with keeps].
  unfold ApprovalEngine.createHybridApproval.
  apply keeps_bind.
  { destruct (r_specificApproverId rule) as [a|]; [|auto with keeps].
    destruct (truthy_string a); auto with keeps. }
  intros _. apply keeps_bind; [auto with keeps|]. intros l.
  apply keeps_forEach. intros x. destruct (negb _); auto with keeps.
Qed.

Lemma keeps_createApprovalSteps (fuel : nat) (expenseId companyId : string)
      (context : ApprovalContext) :
  keepsExpenses
    (ApprovalEngine.createApprovalSteps fuel expenseId companyId context).
Proof.
  unfold ApprovalEngine.createApprovalSteps.
  apply keeps_bind; [auto with keeps|]. intros rules.
  destruct (ApprovalEngine.sortByPriority rules);
    [auto with keeps | apply keeps_applyRule].
Qed.

Lemma keeps_convertCurrency (env : Env) (fromCurrency toCurrency : string)
      (x : number) :
  keepsExpenses
    (CurrencyService.convertCurrency env fromCurrency toCurrency x).
Proof.
  unfold CurrencyService.convertCurrency. apply keeps_catch.
  apply keeps_bind; [auto with keeps|]. intros [c|]; [auto with keeps|].
  destruct (spotRate env fromCurrency toCurrency); [|auto with keeps].
  apply keeps_bind; [|auto with keeps].
  intros db. unfold CurrencyService.cacheRate. now destruct (existsb _ _).
Qed.

Lemma keeps_conversionFor (env : Env) (expense : Expense) (company : Company) :
  keepsExpenses (ExpenseController.conversionFor env expense company).
Proof.
  unfold ExpenseController.conversionFor.
  destruct (negb _); [apply keeps_convertCurrency | apply keeps_ret].
Qed.

(** [submitExpense] either leaves the expense table as it is, or it has
    found the expense as a DRAFT and rewrites its row, once. *)
Lemma submitExpense_effect (env : Env) (fuel : nat)
      (companyId userId id : string) (db : DB) :
  let db' := fst (ExpenseController.submitExpense env fuel companyId userId
                                                  id db) in
  expenses db' = expenses db
  \/ exists expense c,
      Prisma.expense_findUnique id db = Some expense
      /\ e_status expense = "DRAFT"
      /\ expenses db'
         = map (updE id (with_submission (convertedAmount c) (rate c)
                                         (timestamp c) (now env)))
               (expenses db).
Proof.
  cbv zeta.
  destruct (ExpenseController.submitExpense env fuel companyId userId id db)
    as [db' r] eqn:Hs.
  cbn [fst]. unfold ExpenseController.submitExpense in Hs.
  unfold bind, get, throw, ret in Hs.
  destruct (Prisma.expense_findUnique id db) as [expense|] eqn:He;
    [|injection Hs as <- _; now left].
  destruct (negb (String.eqb (e_companyId expense) companyId));
    [injection Hs as <- _; now left|].
  destruct (negb (String.eqb (e_userId expense) userId));
    [injection Hs as <- _; now left|].
  destruct (String.eqb (e_status expense) "DRAFT") eqn:Est;
    cbn [negb] in Hs; [|injection Hs as <- _; now left].
  apply String.eqb_eq in Est.
  destruct (Prisma.company_findUnique (e_companyId expense) db)
    as [company|]; [|injection Hs as <- _; now left].
  pose proof (keeps_conversionFor env expense company db) as Hconv.
  destruct (ExpenseController.conversionFor env expense company db)
    as [db1 [c | e | ]]; cbn [fst] in Hconv;
    [|injection Hs as <- _; now left|injection Hs as <- _; now left].
  right. exists expense, c. split; [reflexivity|]. split; [assumption|].
  assert (He1 : Prisma.expense_findUnique id db1 = Some expense)
    by (unfold Prisma.expense_findUnique in *; now rewrite Hconv).
  rewrite (expense_update_found _ _ _ _ He1) in Hs.
  match type of Hs with
  | context [ApprovalEngine.createApprovalSteps ?f ?i ?c ?x ?d] =>
      pose proof (keeps_createApprovalSteps f i c x d) as Hk;
      destruct (ApprovalEngine.createApprovalSteps f i c x d)
        as [db2 [[] | e | ]]
  end; cbn [fst expenses set_expenses] in Hk;
    injection Hs as <- _; now rewrite Hk, Hconv.
Qed.

End Frames.

(** ** Submitted expenses under later requests *)

Section Stability.

Lemma findUnique_expenses (id : string) (db1 db2 : DB) :
  expenses db1 = expenses db2 ->
  Prisma.expense_findUnique id db1 = Prisma.expense_findUnique id db2.
Proof. intros H. unfold Prisma.expense_findUnique. now rewrite H. Qed.

Lemma find_map_updE (id id' : string) (f : Expense -> Expense)
      (l : list Expense) :
  (forall x, e_id (f x) = e_id x) ->
  find (fun e => String.eqb (e_id e) id) (map (updE id' f) l)
  = if String.eqb id id'
    then option_map f (find (fun e => String.eqb (e_id e) id) l)
    else find (fun e => String.eqb (e_id e) id) l.
Proof.
  intros Hf. induction l as [|x l IH]; cbn [map find].
  - now destruct (String.eqb id id').
  - assert (Hid : e_id (updE id' f x) = e_id x)
      by (unfold updE; destruct (String.eqb (e_id x) id'); auto).
    rewrite Hid. destruct (String.eqb (e_id x) id) eqn:E2; [|apply IH].
    apply String.eqb_eq in E2. subst id. unfold updE.
    now destruct (String.eqb (e_id x) id').
Qed.

Lemma find_app_found {A} (f : A -> bool) (l r : list A) (x : A) :
  find f l = Some x -> find f (l ++ r) = Some x.
Proof.
  induction l as [|y l IH]; cbn [find app]; [discriminate|].
  destruct (f y); [trivial | exact IH].
Qed.

Lemma keptBy_refl (e : Expense) : e_status e <> "DRAFT" -> keptBy e e.
Proof. intros H. repeat split; auto. Qed.

Lemma keptBy_trans (e1 e2 e3 : Expense) :
  keptBy e1 e2 -> keptBy e2 e3 -> keptBy e1 e3.
Proof.
  intros ((Ha & Hb & Hc) & Hd & He) ((Ha' & Hb' & Hc') & Hd' & He').
  repeat split; try congruence.
  intros Hw. specialize (He Hw). subst e2. now apply He'.
Qed.

Lemma handle_keeps (env : Env) (rq : request) (db : DB) (id : string)
      (e : Expense) :
  Prisma.expense_findUnique id db = Some e ->
  e_status e <> "DRAFT" ->
  exists e', Prisma.expense_findUnique id (handle env rq db) = Some e'
             /\ keptBy e e'.
Proof.
  intros He Hst.
  assert (Hsame : forall db', expenses db' = expenses db ->
            exists e', Prisma.expense_findUnique id db' = Some e'
                       /\ keptBy e e').
  { intros db' H. exists e. rewrite (findUnique_expenses id db' db H).
    split; [assumption | now apply keptBy_refl]. }
  destruct rq as [companyId userId cur amt cat | fuel companyId userId id0
                  | companyId userId id0 action comments]; cbn [handle].
  - unfold ExpenseController.createExpense, Prisma.expense_create.
    destruct (Prisma.company_findUnique companyId db); [|now apply Hsame].
    destruct (Prisma.user_findUnique userId db); [|now apply Hsame].
    exists e. split; [|now apply keptBy_refl].
    unfold Prisma.expense_findUnique in *.
    cbn [fst bump_seq set_expenses expenses]. apply find_app_found, He.
  - destruct (submitExpense_effect env fuel companyId userId id0 db)
      as [H | (x & c & Hx & Hd & H)]; [now apply Hsame|].
    unfold Prisma.expense_findUnique in *. rewrite H.
    rewrite find_map_updE by reflexivity.
    destruct (String.eqb id id0) eqn:E.
    + apply String.eqb_eq in E. subst id0. congruence.
    + exists e. split; [assumption | now apply keptBy_refl].
  - destruct (approveExpense_effect env companyId userId id0 action comments
                                    db)
      as [(err & -> & _) | (step & x & _ & _ & _ & _ & Hx & _ & Hw & Hs)].
    + now apply Hsame.
    + destruct Hs as (st & [-> | (Hst' & ->)]); [now apply Hsame|].
      cbn [fst]. unfold Prisma.expense_findUnique in *.
      cbn [closeWith decideStep expenses set_expenses set_approvalSteps].
      rewrite find_map_updE by reflexivity.
      destruct (String.eqb id id0) eqn:E.
      * apply String.eqb_eq in E. subst id0. rewrite He in Hx.
        injection Hx as <-. rewrite He. cbn [option_map].
        exists (with_status st e). split; [reflexivity|].
        repeat split; cbn [with_status e_status]; try tauto.
        destruct Hst' as [-> | ->]; discriminate.
      * exists e. split; [assumption | now apply keptBy_refl].
Qed.

Lemma serve_keeps (rqs : list (Env * request)) :
  forall (db : DB) (id : string) (e : Expense),
    Prisma.expense_findUnique id db = Some e ->
    e_status e <> "DRAFT" ->
    exists e', Prisma.expense_findUnique id (serve rqs db) = Some e'
               /\ keptBy e e'.
Proof.
  induction rqs as [|[env rq] rqs IH]; intros db id e He Hst; cbn [serve].
  - exists e. split; [assumption | now apply keptBy_refl].
  - destruct (handle_keeps env rq db id e He Hst) as (e1 & H1 & K1).
    destruct (IH _ id e1 H1 (proj1 (proj2 K1))) as (e2 & H2 & K2).
    exists e2. split; [assumption | now apply (keptBy_trans e e1 e2)].
Qed.

End Stability.

(** ** The guards of a decision *)

(** C6 at the failing input.  The expense is WAITING_APPROVAL under a
    PERCENTAGE rule of threshold 100; the admin has already approved and
    the manager has not.  The admin deciding again (a step that is no
    longer PENDING) and the employee deciding (no step at all) receive the
    very same error, 403 "You are not authorized to approve this expense":
    the decided step is not told apart from the missing one. *)
Lemma C6_same_error_counterexample :
  let e := Sample.waiting Sample.trip in
  let db := Sample.store [e]
              [Sample.rule "r1" "PERCENTAGE" (Some 100) None 1 1]
              [Sample.step "s1" "admin" 0 "APPROVED";
               Sample.step "s2" "manager" 0 "PENDING"] [] in
  let env := mkEnv Sample.noon Sample.offline in
  let decided := ExpenseController.approveExpense env "acme" "admin" "trip"
                   "approve" None db in
  let stranger := ExpenseController.approveExpense env "acme" "employee"
                    "trip" "approve" None db in
  snd decided
  = Throw (AppError "You are not authorized to approve this expense" 403)
  /\ snd stranger = snd decided.
Proof.
  cbv zeta. split; vm_compute; reflexivity.
Qed.

(** C6.  What [approveExpense] does for an expense of the caller's
    company.  It has two guards with their own errors, in this order: an
    expense that is not WAITING_APPROVAL is refused with 400 "Expense is
    not waiting for approval"; otherwise an actor without a PENDING step on
    the expense is refused with 403 "You are not authorized to approve this
    expense", and that is the answer both to an actor who has no step and
    to an actor whose step is already decided: the claim's AlreadyDecided
    has no error of its own.  The rest of the claim holds: every call that
    throws leaves the store as it was, and an expense that is APPROVED or
    REJECTED keeps its row through any later sequence of requests. *)
Theorem C6_guards_of_a_decision
        (env : Env) (companyId userId id action : string)
        (comments : option string) (db : DB) (expense : Expense)
        (Hfound : Prisma.expense_findUnique id db = Some expense)
        (Hcompany : e_companyId expense = companyId) :
  let r := ExpenseController.approveExpense env companyId userId id action
                                            comments db in
  (e_status expense <> "WAITING_APPROVAL" ->
   r = (db, Throw (AppError "Expense is not waiting for approval" 400)))
  /\ (e_status expense = "WAITING_APPROVAL" ->
      (forall s, In s (approvalSteps db) -> s_expenseId s = id ->
                 s_approverId s = userId -> s_status s <> "PENDING") ->
      r = (db, Throw (AppError
                        "You are not authorized to approve this expense" 403)))
  /\ (forall e, snd r = Throw e -> fst r = db)
  /\ (e_status expense = "APPROVED" \/ e_status expense = "REJECTED" ->
      forall rqs, Prisma.expense_findUnique id (serve rqs db) = Some expense).
Proof.
  cbv zeta.
  assert (Hcheck :
    ExpenseController.approveCheck companyId userId id db
    = if negb (String.eqb (e_status expense) "WAITING_APPROVAL")
      then (db, Throw (AppError "Expense is not waiting for approval" 400))
      else match find (isPendingOf userId) (ownSteps userId id db) with
           | None =>
               (db, Throw (AppError
                  "You are not authorized to approve this expense" 403))
           | Some approvalStep => (db, Return (s_id approvalStep))
           end).
  { rewrite approveCheck_eq, Hfound, Hcompany, String.eqb_refl. reflexivity. }
  repeat split.
  - intros Hst. unfold ExpenseController.approveExpense, bind.
    rewrite Hcheck.
    destruct (String.eqb (e_status expense) "WAITING_APPROVAL") eqn:E;
      [apply String.eqb_eq in E; contradiction | reflexivity].
  - intros Hst Hnone. unfold ExpenseController.approveExpense, bind.
    rewrite Hcheck, Hst. cbn [String.eqb Ascii.eqb Bool.eqb negb].
    rewrite find_all_false; [reflexivity|].
    intros s Hs. apply in_ownSteps in Hs. destruct Hs as (Hin & Hex & Hap).
    unfold isPendingOf. rewrite Hap, String.eqb_refl. cbn [andb].
    apply String.eqb_neq. now apply Hnone.
  - intros e He.
    destruct (approveExpense_effect env companyId userId id action comments db)
      as [(err & Hr & _) | (step & x & _ & _ & _ & _ & _ & _ & _ & Hs)].
    + now rewrite Hr.
    + destruct Hs as (st & [Hr | (_ & Hr)]); rewrite Hr in He; discriminate.
  - intros Hterm rqs.
    assert (Hd : e_status expense <> "DRAFT")
      by (destruct Hterm as [H | H]; rewrite H; discriminate).
    assert (Hw : e_status expense <> "WAITING_APPROVAL")
      by (destruct Hterm as [H | H]; rewrite H; discriminate).
    destruct (serve_keeps rqs db id expense Hfound Hd) as (e' & He' & K).
    rewrite He'. f_equal. now apply K.
Qed.

(** The admin, whose step is already APPROVED, decides again. *)
Lemma C6_guards_of_a_decision_witness :
  let e := Sample.waiting Sample.trip in
  let db := Sample.store [e]
              [Sample.rule "r1" "PERCENTAGE" (Some 100) None 1 1]
              [Sample.step "s1" "admin" 0 "APPROVED";
               Sample.step "s2" "manager" 0 "PENDING"] [] in
  let env := mkEnv Sample.noon Sample.offline in
  ExpenseController.approveExpense env "acme" "admin" "trip" "approve" None db
  = (db, Throw (AppError "You are not authorized to approve this expense"
                         403)).
Proof.
  cbv zeta.
  refine (proj1 (proj2
    (C6_guards_of_a_decision (mkEnv Sample.noon Sample.offline) "acme" "admin"
       "trip" "approve" None
       (Sample.store [Sample.waiting Sample.trip]
          [Sample.rule "r1" "PERCENTAGE" (Some 100) None 1 1]
          [Sample.step "s1" "admin" 0 "APPROVED";
           Sample.step "s2" "manager" 0 "PENDING"] [])
       (Sample.waiting Sample.trip) eq_refl eq_refl)) eq_refl _).
  intros s [<- | [<- | []]] _ Happ; [discriminate | discriminate Happ].
Defined.

(** The decide handler of the alternate backend tells the two cases apart:
    a step of another approver is answered 403, the caller's own step that
    is no longer pending is answered 400. *)
Lemma js_handler_tells_decided_from_unauthorized
      (userId action : string) (comments : option string)
      (step : ApprovalStep) :
  action = "approve" \/ action = "reject" ->
  (s_approverId step <> userId ->
   JsController.processApprovalChecks userId action comments (Some step)
   = JsController.NotAuthorized)
  /\ (s_approverId step = userId -> s_status step <> "pending" ->
      JsController.processApprovalChecks userId action comments (Some step)
      = JsController.AlreadyProcessed)
  /\ JsController.statusCode JsController.NotAuthorized = Some 403
  /\ JsController.statusCode JsController.AlreadyProcessed = Some 400.
Proof.
  intros Ha.
  assert (Hok : negb (String.eqb action "approve"
                      || String.eqb action "reject") = false)
    by (destruct Ha as [-> | ->]; reflexivity).
  unfold JsController.processApprovalChecks. rewrite Hok.
  repeat split.
  - intros Hne. apply String.eqb_neq in Hne. now rewrite Hne.
  - intros He Hs. apply String.eqb_eq in He. apply String.eqb_neq in Hs.
    now rewrite He, Hs.
Qed.

(** ** The conversion frozen at submission *)

Section Conversion.

Variables (env : Env) (fromCurrency toCurrency : string).


(** It has no answer exactly when no entry of the pair is fresh. *)
Lemma getCachedRate_none (db : DB) :
  CurrencyService.getCachedRate env fromCurrency toCurrency db = None ->
  forall x, In x (exchangeRates db) ->
    CurrencyService.isFreshRate env fromCurrency toCurrency x = false.
Proof.
  unfold CurrencyService.getCachedRate. rewrite (hd_js_sort_desc x_timestamp).
  intros H x Hx. apply firstOfTop_none in H.
  destruct (CurrencyService.isFreshRate env fromCurrency toCurrency x) eqn:E;
    [|reflexivity].
  assert (Hin : In x (filter (CurrencyService.isFreshRate env fromCurrency
                                toCurrency) (exchangeRates db)))
    by (apply filter_In; now split).
  rewrite H in Hin. destruct Hin.
Qed.

Lemma convertCurrency_hit (x : number) (db : DB) (c : ExchangeRate) :
  CurrencyService.getCachedRate env fromCurrency toCurrency db = Some c ->
  CurrencyService.convertCurrency env fromCurrency toCurrency x db
  = (db, Return (mkConversion (toFixed2 (JsNumber.mul x (x_rate c)))
                              (x_rate c) (x_timestamp c))).
Proof.
  intros H. unfold CurrencyService.convertCurrency, catch_rethrow, bind, get.
  now rewrite H.
Qed.

Lemma convertCurrency_fetch (x : number) (db : DB) (r : number) :
  CurrencyService.getCachedRate env fromCurrency toCurrency db = None ->
  spotRate env fromCurrency toCurrency = Some r ->
  CurrencyService.convertCurrency env fromCurrency toCurrency x db
  = (fst (CurrencyService.cacheRate fromCurrency toCurrency r (now env) db),
     Return (mkConversion (toFixed2 (JsNumber.mul x r)) r (now env))).
Proof.
  intros H Hr. unfold CurrencyService.convertCurrency, catch_rethrow, bind, get.
  rewrite H, Hr. unfold CurrencyService.cacheRate.
  now destruct (existsb _ _).
Qed.

Lemma convertCurrency_unavailable (x : number) (db : DB) :
  CurrencyService.getCachedRate env fromCurrency toCurrency db = None ->
  spotRate env fromCurrency toCurrency = None ->
  CurrencyService.convertCurrency env fromCurrency toCurrency x db
  = (db, Throw (Error "Currency conversion service unavailable")).
Proof.
  intros H Hr. unfold CurrencyService.convertCurrency, catch_rethrow, bind, get.
  now rewrite H, Hr.
Qed.

End Conversion.

Section Submission.

Variables (env : Env) (fuel : nat) (companyId userId id : string) (db : DB)
          (expense : Expense) (company : Company).
Hypothesis Hfound : Prisma.expense_findUnique id db = Some expense.
Hypothesis Hcompany : e_companyId expense = companyId.
Hypothesis Howner : e_userId expense = userId.
Hypothesis Hdraft : e_status expense = "DRAFT".
Hypothesis Hco :
  Prisma.company_findUnique (e_companyId expense) db = Some company.


(** A conversion that succeeds is written on the row of the expense, and
    what follows in [submitExpense] does not touch that row. *)
Lemma submit_stores (db1 : DB) (c : CurrencyConversionResult) :
  ExpenseController.conversionFor env expense company db = (db1, Return c) ->
  Prisma.expense_findUnique id
    (fst (ExpenseController.submitExpense env fuel companyId userId id db))
  = Some (with_submission (convertedAmount c) (rate c) (timestamp c)
                          (now env) expense).
Proof.
  intros Hc.
  pose proof (keeps_conversionFor env expense company db) as Hk.
  rewrite Hc in Hk. cbn [fst] in Hk.
  assert (He1 : Prisma.expense_findUnique id db1 = Some expense)
    by (now rewrite (findUnique_expenses id db1 db Hk)).
  unfold ExpenseController.submitExpense, bind, get, throw, ret.
  rewrite Hfound, Hcompany, Howner, Hdraft, !String.eqb_refl.
  cbn [negb String.eqb Ascii.eqb Bool.eqb].
  rewrite <- Hcompany, Hco, Hc, Hcompany.
  rewrite (expense_update_found _ _ _ _ He1).
  match goal with
  | |- context [ApprovalEngine.createApprovalSteps ?f ?i ?k ?x ?d] =>
      pose proof (keeps_createApprovalSteps f i k x d) as Hs;
      destruct (ApprovalEngine.createApprovalSteps f i k x d)
        as [db2 [[] | err | ]]
  end; cbn [fst] in *;
    rewrite (findUnique_expenses id db2 _ Hs);
    unfold Prisma.expense_findUnique in *;
    cbn [expenses set_expenses];
    change (fun e : Expense => if String.eqb (e_id e) id then ?f e else e)
      with (updE id f);
    rewrite find_map_updE by reflexivity;
    now rewrite String.eqb_refl, He1.
Qed.

(** [submitExpense] past its guards and its conversion: the row is written,
    then the steps are created, and the outcome is theirs. *)
Lemma submitExpense_eq (db1 : DB) (c : CurrencyConversionResult) :
  ExpenseController.conversionFor env expense company db = (db1, Return c) ->
  ExpenseController.submitExpense env fuel companyId userId id db
  = match ApprovalEngine.createApprovalSteps fuel id companyId
            (mkContext (e_category expense) (convertedAmount c) userId)
            (submitted env id c db1) with
    | (db2, Return _) =>
        (db2, Return (with_submission (convertedAmount c) (rate c)
                                      (timestamp c) (now env) expense))
    | (db2, Throw e) => (db2, Throw e)
    | (db2, Diverge) => (db2, Diverge)
    end.
Proof.
  intros Hc.
  pose proof (keeps_conversionFor env expense company db) as Hk.
  rewrite Hc in Hk. cbn [fst] in Hk.
  assert (He1 : Prisma.expense_findUnique id db1 = Some expense)
    by (now rewrite (findUnique_expenses id db1 db Hk)).
  unfold ExpenseController.submitExpense, bind, get, throw, ret.
  rewrite Hfound, Hcompany, Howner, Hdraft, !String.eqb_refl.
  cbn [negb String.eqb Ascii.eqb Bool.eqb].
  rewrite <- Hcompany, Hco, Hc, Hcompany.
  rewrite (expense_update_found _ _ _ _ He1).
  reflexivity.
Qed.

End Submission.

Section NoRule.

Lemma createApprovalSteps_no_rule (fuel : nat) (expenseId companyId : string)
      (context : ApprovalContext) (db : DB) :
  ApprovalEngine.getApplicableRules companyId context db = [] ->
  ApprovalEngine.createApprovalSteps fuel expenseId companyId context db
  = (db, Return tt).
Proof.
  intros H. unfold ApprovalEngine.createApprovalSteps, bind, get.
  now rewrite H.
Qed.

(** The conversion writes the rate cache only. *)
Lemma conversionFor_tables (env : Env) (expense : Expense) (company : Company)
      (db : DB) :
  let db1 := fst (ExpenseController.conversionFor env expense company db) in
  approvalSteps db1 = approvalSteps db /\ approvalRules db1 = approvalRules db.
Proof.
  cbv zeta. unfold ExpenseController.conversionFor.
  destruct (negb _); [|now split].
  unfold CurrencyService.convertCurrency, catch_rethrow, bind, get.
  destruct (CurrencyService.getCachedRate _ _ _ db); [now split|].
  destruct (spotRate env _ _); [|now split].
  unfold CurrencyService.cacheRate. now destruct (existsb _ _).
Qed.

End NoRule.

(** ** Submission when no rule matches *)

(** C1.  A draft without any step is submitted by its owner, the
    conversion succeeds, and no rule of the company covers the expense.
    Then [submitExpense] returns, the expense is stored WAITING_APPROVAL
    (not APPROVED), and the step table is as it was: no step exists for the
    expense.  From then on every [approveExpense] on it, by whomever, is
    refused with 403, so that nothing can take it out of
    WAITING_APPROVAL. *)
Theorem C1_no_rule_leaves_expense_waiting
        (env : Env) (fuel : nat) (companyId userId id : string) (db db1 : DB)
        (expense : Expense) (company : Company) (c : CurrencyConversionResult)
        (Hfound : Prisma.expense_findUnique id db = Some expense)
        (Hcompany : e_companyId expense = companyId)
        (Howner : e_userId expense = userId)
        (Hdraft : e_status expense = "DRAFT")
        (Hco : Prisma.company_findUnique (e_companyId expense) db
               = Some company)
        (Hnosteps : forall s, In s (approvalSteps db) -> s_expenseId s <> id)
        (Hconv : ExpenseController.conversionFor env expense company db
                 = (db1, Return c))
        (Hnone : ApprovalEngine.getApplicableRules companyId
                   (mkContext (e_category expense) (convertedAmount c) userId)
                   db1 = []) :
  let stored := with_submission (convertedAmount c) (rate c) (timestamp c)
                                (now env) expense in
  ExpenseController.submitExpense env fuel companyId userId id db
  = (submitted env id c db1, Return stored)
  /\ Prisma.expense_findUnique id (submitted env id c db1) = Some stored
  /\ e_status stored = "WAITING_APPROVAL"
  /\ approvalSteps (submitted env id c db1) = approvalSteps db
  /\ (forall env' who action comments,
         ExpenseController.approveExpense env' companyId who id action comments
                                          (submitted env id c db1)
         = (submitted env id c db1,
            Throw (AppError "You are not authorized to approve this expense"
                            403))).
Proof.
  cbv zeta.
  pose proof (conversionFor_tables env expense company db) as [Hst Hru].
  rewrite Hconv in Hst, Hru. cbn [fst] in Hst, Hru.
  assert (Hsub : ExpenseController.submitExpense env fuel companyId userId id db
                 = (submitted env id c db1,
                    Return (with_submission (convertedAmount c) (rate c)
                              (timestamp c) (now env) expense))).
  { rewrite (submitExpense_eq env fuel companyId userId id db expense company
               Hfound Hcompany Howner Hdraft Hco db1 c Hconv).
    now rewrite createApprovalSteps_no_rule. }
  assert (Hrow : Prisma.expense_findUnique id (submitted env id c db1)
                 = Some (with_submission (convertedAmount c) (rate c)
                           (timestamp c) (now env) expense)).
  { pose proof (submit_stores env fuel companyId userId id db expense company
                  Hfound Hcompany Howner Hdraft Hco db1 c Hconv) as H.
    now rewrite Hsub in H. }
  split; [exact Hsub|]. split; [exact Hrow|]. split; [reflexivity|].
  split; [exact Hst|].
  intros env' who action comments. apply approveExpense_refused.
  rewrite approveCheck_eq, Hrow.
  cbn [with_submission e_companyId e_status]. rewrite Hcompany, String.eqb_refl.
  cbn [negb String.eqb Ascii.eqb Bool.eqb].
  rewrite find_all_false; [reflexivity|].
  intros s Hs. apply in_ownSteps in Hs. destruct Hs as (Hin & Hex & _).
  exfalso. apply (Hnosteps s); [|assumption].
  change (approvalSteps (submitted env id c db1)) with (approvalSteps db1) in Hin.
  now rewrite Hst in Hin.
Qed.

(** 100 EUR of travel submitted in a company without any rule. *)
Lemma C1_no_rule_witness :
  let env := mkEnv Sample.noon (Sample.quoting Sample.rate_1_10) in
  let db := Sample.store [Sample.trip] [] [] [] in
  let r := ExpenseController.submitExpense env 1 "acme" "employee" "trip" db in
  (exists e, snd r = Return e /\ e_status e = "WAITING_APPROVAL")
  /\ map e_status (expenses (fst r)) = ["WAITING_APPROVAL"]
  /\ approvalSteps (fst r) = [].
Proof.
  cbv zeta.
  pose proof (C1_no_rule_leaves_expense_waiting
    (mkEnv Sample.noon (Sample.quoting Sample.rate_1_10)) 1 "acme" "employee"
    "trip" (Sample.store [Sample.trip] [] [] [])
    (fst (ExpenseController.conversionFor
            (mkEnv Sample.noon (Sample.quoting Sample.rate_1_10)) Sample.trip
            Sample.acme (Sample.store [Sample.trip] [] [] [])))
    Sample.trip Sample.acme
    (mkConversion (ofZ 110) Sample.rate_1_10 Sample.noon)
    eq_refl eq_refl eq_refl eq_refl eq_refl
    (fun s (H : In s []) => match H with end) eq_refl eq_refl) as H.
  cbv zeta in H. destruct H as (Hsub & _ & _ & Hsteps & _).
  rewrite Hsub. cbn [fst snd]. split; [|split].
  - eexists. split; reflexivity.
  - reflexivity.
  - exact Hsteps.
Defined.

(** ** Submission that fails while the steps are created *)

(** C8.  A draft is submitted by its owner and the conversion succeeds; the
    creation of the steps then throws.  [submitExpense] fails with that
    error, and the row written before it stays: the expense is stored
    WAITING_APPROVAL with its three conversion fields. *)
Theorem C8_failed_step_creation_keeps_the_update
        (env : Env) (fuel : nat) (companyId userId id : string) (db db1 : DB)
        (expense : Expense) (company : Company) (c : CurrencyConversionResult)
        (err : error)
        (Hfound : Prisma.expense_findUnique id db = Some expense)
        (Hcompany : e_companyId expense = companyId)
        (Howner : e_userId expense = userId)
        (Hdraft : e_status expense = "DRAFT")
        (Hco : Prisma.company_findUnique (e_companyId expense) db
               = Some company)
        (Hconv : ExpenseController.conversionFor env expense company db
                 = (db1, Return c))
        (Hfail : snd (ApprovalEngine.createApprovalSteps fuel id companyId
                        (mkContext (e_category expense) (convertedAmount c)
                                   userId)
                        (submitted env id c db1)) = Throw err) :
  let r := ExpenseController.submitExpense env fuel companyId userId id db in
  let stored := with_submission (convertedAmount c) (rate c) (timestamp c)
                                (now env) expense in
  snd r = Throw err
  /\ Prisma.expense_findUnique id (fst r) = Some stored
  /\ e_status stored = "WAITING_APPROVAL"
  /\ e_convertedAmount stored = Some (convertedAmount c)
  /\ e_conversionRate stored = Some (rate c)
  /\ e_rateTimestamp stored = Some (timestamp c).
Proof.
  cbv zeta. split.
  - rewrite (submitExpense_eq env fuel companyId userId id db expense company
               Hfound Hcompany Howner Hdraft Hco db1 c Hconv).
    destruct (ApprovalEngine.createApprovalSteps _ _ _ _ _) as [db2 [u | e | ]];
      cbn [snd] in *; try discriminate. now injection Hfail as ->.
  - split; [|repeat split].
    apply (submit_stores env fuel companyId userId id db expense company
             Hfound Hcompany Howner Hdraft Hco db1 c Hconv).
Qed.

(** The governing rule is a SPECIFIC rule whose approver is unset. *)
Lemma C8_failed_step_creation_witness :
  let env := mkEnv Sample.noon (Sample.quoting Sample.rate_1_10) in
  let db := Sample.store [Sample.trip]
              [Sample.rule "r1" "SPECIFIC" None None 1 1] [] [] in
  let r := ExpenseController.submitExpense env 1 "acme" "employee" "trip" db in
  snd r = Throw (Error "Specific approver not defined in rule")
  /\ Prisma.expense_findUnique "trip" (fst r)
     = Some (with_submission (ofZ 110) Sample.rate_1_10 Sample.noon
                             Sample.noon Sample.trip).
Proof.
  cbv zeta.
  pose proof (C8_failed_step_creation_keeps_the_update
    (mkEnv Sample.noon (Sample.quoting Sample.rate_1_10)) 1 "acme" "employee"
    "trip"
    (Sample.store [Sample.trip] [Sample.rule "r1" "SPECIFIC" None None 1 1]
                  [] [])
    (fst (ExpenseController.conversionFor
            (mkEnv Sample.noon (Sample.quoting Sample.rate_1_10)) Sample.trip
            Sample.acme
            (Sample.store [Sample.trip]
               [Sample.rule "r1" "SPECIFIC" None None 1 1] [] [])))
    Sample.trip Sample.acme
    (mkConversion (ofZ 110) Sample.rate_1_10 Sample.noon)
    (Error "Specific approver not defined in rule")
    eq_refl eq_refl eq_refl eq_refl eq_refl eq_refl eq_refl) as H.
  cbv zeta in H. destruct H as (Hthrow & Hrow & _).
  split; [exact Hthrow | exact Hrow].
Defined.


Lemma hundredths_exact (m : positive) (e : Z) :
  0 <= e -> hundredths m e = 100 * (Zpos m * 2 ^ e).
Proof.
  intros He. unfold hundredths. destruct e; try lia.
Qed.



Section Stored.

Variables (env : Env) (fuel : nat) (companyId userId id : string) (db : DB)
          (expense : Expense) (company : Company).
Hypothesis Hfound : Prisma.expense_findUnique id db = Some expense.
Hypothesis Hcompany : e_companyId expense = companyId.
Hypothesis Howner : e_userId expense = userId.
Hypothesis Hdraft : e_status expense = "DRAFT".
Hypothesis Hco :
  Prisma.company_findUnique (e_companyId expense) db = Some company.


End Stored.




(** ** Two decisions on the same step *)

Section StepRows.

Lemma updS_id (id : string) (f : ApprovalStep -> ApprovalStep)
      (s : ApprovalStep) :
  (forall x, s_id (f x) = s_id x) -> s_id (updS id f s) = s_id s.
Proof. intros H. unfold updS. now destruct (String.eqb (s_id s) id). Qed.

Lemma decideStep_ids (env : Env) (userId action : string)
      (comments : option string) (stepId : string) (db : DB) :
  map s_id (approvalSteps (decideStep env userId action comments stepId db))
  = map s_id (approvalSteps db).
Proof.
  cbn [decideStep approvalSteps set_approvalSteps]. rewrite map_map.
  apply map_ext. intros s. now apply updS_id.
Qed.

Lemma settles_steps (id : string) (db : DB) (r : DB * outcome string) :
  settles id db r -> approvalSteps (fst r) = approvalSteps db.
Proof. intros (st & [-> | (_ & ->)]); reflexivity. Qed.

Lemma processApproval_steps (id : string) (db : DB) :
  approvalSteps (fst (ApprovalEngine.processApproval id db))
  = approvalSteps db.
Proof.
  destruct (Prisma.expense_findUnique id db) as [e|] eqn:He.
  - now apply (settles_steps id), (processApproval_settles id db e).
  - unfold ApprovalEngine.processApproval. now rewrite He.
Qed.

Lemma approveWrite_ids (env : Env) (userId action : string)
      (comments : option string) (stepId : string) (db : DB) :
  map s_id (approvalSteps
              (fst (ExpenseController.approveWrite env userId action comments
                                                   stepId db)))
  = map s_id (approvalSteps db).
Proof.
  unfold ExpenseController.approveWrite, Prisma.approvalStep_update.
  destruct (find _ (approvalSteps db)); [|reflexivity].
  apply (decideStep_ids env userId action comments stepId db).
Qed.

Lemma advance_ids (env : Env) (d : Race.decision) (p : Race.pc) (db : DB) :
  map s_id (approvalSteps (fst (Race.advance env d p db)))
  = map s_id (approvalSteps db).
Proof.
  destruct p as [ | stepId | | r]; cbn [Race.advance].
  - pose proof (approveCheck_reads_only (Race.d_companyId d)
                  (Race.d_userId d) (Race.d_id d) db) as H.
    destruct (ExpenseController.approveCheck _ _ _ db) as [db' [x | e | ]];
      cbn [fst] in *; now subst db'.
  - pose proof (approveWrite_ids env (Race.d_userId d) (Race.d_action d)
                  (Race.d_comments d) stepId db) as H.
    destruct (ExpenseController.approveWrite _ _ _ _ _ db)
      as [db' [x | e | ]]; exact H.
  - pose proof (processApproval_steps (Race.d_id d) db) as H.
    destruct (ApprovalEngine.processApproval _ db) as [db' r].
    cbn [fst] in *. now rewrite H.
  - reflexivity.
Qed.

(** Whatever the interleaving, the step table keeps the same rows. *)
Lemma run_ids (env : Env) (d1 d2 : Race.decision) (sched : list Race.turn) :
  forall db p1 p2,
    map s_id (approvalSteps (fst (fst (Race.run env d1 d2 sched db p1 p2))))
    = map s_id (approvalSteps db).
Proof.
  induction sched as [|t sched IH]; intros db p1 p2; [reflexivity|].
  destruct t; cbn [Race.run].
  - pose proof (advance_ids env d1 p1 db) as H.
    destruct (Race.advance env d1 p1 db) as [db' p1'].
    rewrite IH. exact H.
  - pose proof (advance_ids env d2 p2 db) as H.
    destruct (Race.advance env d2 p2 db) as [db' p2'].
    rewrite IH. exact H.
Qed.

End StepRows.

(** C10, as stated, fails.  The admin holds a PENDING step and sends two
    decisions, approve and reject, that interleave: both pass the guards
    before either writes.  Both calls return; none is refused; the step is
    written twice, first APPROVE and then REJECT, the second write landing
    on a step that is no longer PENDING.  The alternate backend's
    [updateStatus] likewise rewrites a step that is already approved. *)
Lemma C10_race_counterexample :
  let e := Sample.waiting Sample.trip in
  let db := Sample.store [e]
              [Sample.rule "r1" "PERCENTAGE" (Some 100) None 1 1]
              [Sample.step "s1" "admin" 0 "PENDING";
               Sample.step "s2" "manager" 0 "PENDING"] [] in
  let env := mkEnv Sample.noon Sample.offline in
  let approve := Race.mkDecision "acme" "admin" "trip" "approve" None in
  let reject := Race.mkDecision "acme" "admin" "trip" "reject" None in
  let half := Race.run env approve reject
                [Race.First; Race.Second; Race.First] db Race.Start Race.Start in
  let done := Race.run env approve reject
                [Race.First; Race.Second; Race.First; Race.Second;
                 Race.First; Race.Second] db Race.Start Race.Start in
  map s_status (approvalSteps (fst (fst half))) = ["APPROVE"; "PENDING"]
  /\ snd half = Race.Checked "s1"
  /\ snd (fst done) = Race.Finished (Return "WAITING_APPROVAL")
  /\ snd done = Race.Finished (Return "WAITING_APPROVAL")
  /\ map s_status (approvalSteps (fst (fst done))) = ["REJECT"; "PENDING"]
  /\ option_map (fun r => map s_status (fst r))
       (JsBackend.updateStatus Sample.noon "s1" "rejected" "admin" None
          [Sample.step "s1" "admin" 1 "approved"])
     = Some ["rejected"].
Proof.
  cbv zeta. repeat split; vm_compute; reflexivity.
Qed.

(** C10, amended.  The write of a decision is an update keyed by the step
    identifier alone; the PENDING test belongs to the read that precedes it.
    When a second decision of the same actor on the same expense starts
    after the first has returned, it is refused (400 when the first closed
    the expense, 403 otherwise) and writes nothing, provided the first
    action does not spell "pending" and the store has one step per expense
    and approver.  Under any interleaving of two decisions the step table
    keeps the same rows, so the percentage counts no step twice. *)
Theorem C10_keyed_write_and_sequential_decisions
        (env1 env2 : Env) (companyId userId id action1 action2 : string)
        (comments1 comments2 : option string) (db db1 : DB) (st : string)
        (Huniq : oneStepPerApprover db)
        (Haction : toUpperCase action1 <> "PENDING")
        (Hfirst : ExpenseController.approveExpense env1 companyId userId id
                    action1 comments1 db = (db1, Return st)) :
  (forall d s, In s (approvalSteps d) ->
      ExpenseController.approveWrite env1 userId action1 comments1 (s_id s) d
      = (decideStep env1 userId action1 comments1 (s_id s) d, Return tt))
  /\ (exists e,
         ExpenseController.approveExpense env2 companyId userId id action2
                                          comments2 db1 = (db1, Throw e)
         /\ (e = AppError "Expense is not waiting for approval" 400
             \/ e = AppError "You are not authorized to approve this expense"
                             403))
  /\ (forall d1 d2 sched p1 p2 d,
         map s_id (approvalSteps
                     (fst (fst (Race.run env1 d1 d2 sched d p1 p2))))
         = map s_id (approvalSteps d))
  /\ (ApprovalEngine.countStatus "APPROVED" (approvalSteps db1)
      <= List.length (approvalSteps db))%nat.
Proof.
  destruct (approveExpense_effect env1 companyId userId id action1 comments1 db)
    as [(err & Hr & _) | (step & x & Hin & Hex & Hap & Hpe & Hx & Hco & Hw & Hs)];
    [rewrite Hfirst in Hr; discriminate|].
  rewrite Hfirst in Hs.
  set (mid := decideStep env1 userId action1 comments1 (s_id step) db) in *.
  assert (Hsteps : approvalSteps db1 = approvalSteps mid)
    by (apply (settles_steps id mid (db1, Return st) Hs)).
  split; [|split; [|split]].
  - intros d s Hs'. unfold ExpenseController.approveWrite.
    now rewrite (approvalStep_update_found _ _ d s Hs' eq_refl).
  - assert (Hnone : find (isPendingOf userId) (ownSteps userId id db1) = None).
    { apply find_all_false. intros s' Hs'. apply in_ownSteps in Hs'.
      destruct Hs' as (Hin' & Hex' & Hap'). rewrite Hsteps in Hin'.
      cbn [mid decideStep approvalSteps set_approvalSteps] in Hin'.
      apply in_map_iff in Hin'. destruct Hin' as (s0 & <- & Hin0).
      assert (Hs0 : s_expenseId s0 = id /\ s_approverId s0 = userId).
      { revert Hex' Hap'. unfold updS.
        destruct (String.eqb (s_id s0) (s_id step)); cbn; tauto. }
      assert (s0 = step)
        by (apply Huniq; try assumption; destruct Hs0; congruence).
      subst s0. unfold isPendingOf, updS. rewrite String.eqb_refl.
      cbn [with_decision s_approverId s_status].
      rewrite Hap, String.eqb_refl. cbn [andb]. now apply String.eqb_neq. }
    assert (Hx1 : exists x1, Prisma.expense_findUnique id db1 = Some x1
                             /\ e_companyId x1 = companyId).
    { destruct Hs as (st' & [H | (_ & H)]); injection H as -> _.
      - exists x. split; [exact Hx | exact Hco].
      - exists (with_status st' x). split; [|exact Hco].
        unfold Prisma.expense_findUnique in *.
        cbn [closeWith mid decideStep expenses set_expenses set_approvalSteps].
        rewrite find_map_updE by reflexivity.
        now rewrite String.eqb_refl, Hx. }
    destruct Hx1 as (x1 & Hx1 & Hco1).
    assert (Hcheck := approveCheck_eq companyId userId id db1).
    rewrite Hx1, Hco1, String.eqb_refl, Hnone in Hcheck. cbn [negb] in Hcheck.
    destruct (negb (String.eqb (e_status x1) "WAITING_APPROVAL")).
    + eexists. split; [apply approveExpense_refused, Hcheck | now left].
    + eexists. split; [apply approveExpense_refused, Hcheck | now right].
  - intros d1 d2 sched p1 p2 d. apply run_ids.
  - rewrite Hsteps. unfold ApprovalEngine.countStatus.
    etransitivity; [apply filter_length_le|].
    cbn [mid decideStep approvalSteps set_approvalSteps].
    now rewrite length_map.
Qed.

Lemma C10_sequential_decisions_witness :
  let e := Sample.waiting Sample.trip in
  let db := Sample.store [e]
              [Sample.rule "r1" "PERCENTAGE" (Some 100) None 1 1]
              [Sample.step "s1" "admin" 0 "PENDING";
               Sample.step "s2" "manager" 0 "PENDING"] [] in
  let env := mkEnv Sample.noon Sample.offline in
  let db1 := fst (ExpenseController.approveExpense env "acme" "admin" "trip"
                    "approve" None db) in
  exists err,
    ExpenseController.approveExpense env "acme" "admin" "trip" "reject" None
                                     db1 = (db1, Throw err)
    /\ (err = AppError "Expense is not waiting for approval" 400
        \/ err = AppError "You are not authorized to approve this expense" 403).
Proof.
  cbv zeta.
  refine (proj1 (proj2
    (C10_keyed_write_and_sequential_decisions
       (mkEnv Sample.noon Sample.offline) (mkEnv Sample.noon Sample.offline)
       "acme" "admin" "trip" "approve" "reject" None None
       (Sample.store [Sample.waiting Sample.trip]
          [Sample.rule "r1" "PERCENTAGE" (Some 100) None 1 1]
          [Sample.step "s1" "admin" 0 "PENDING";
           Sample.step "s2" "manager" 0 "PENDING"] [])
       _ "WAITING_APPROVAL" _ _ _))).
  - intros s1 s2 [<- | [<- | []]] [<- | [<- | []]]; cbn;
      intros; try reflexivity; discriminate.
  - discriminate.
  - vm_compute. reflexivity.
Defined.

(** * Further properties of the code *)

(** ** Verdicts of the sequential and of the specific evaluation *)

Section Verdicts.

Variables (expense row : Expense) (db : DB).
Hypothesis Hrow : Prisma.expense_findUnique (e_id expense) db = Some row.

Lemma sequentialScan_pending (l : list ApprovalStep) (p : ApprovalStep) :
  (forall s, In s l -> s_status s <> "REJECTED") ->
  In p l -> s_status p = "PENDING" ->
  ApprovalEngine.sequentialScan expense l db = (db, Return "WAITING_APPROVAL").
Proof.
  intros Hrej Hin Hp. induction l as [|s l IH]; [destruct Hin|].
  cbn [ApprovalEngine.sequentialScan].
  destruct (String.eqb (s_status s) "PENDING") eqn:E; [reflexivity|].
  destruct (String.eqb (s_status s) "REJECTED") eqn:R.
  - apply String.eqb_eq in R. exfalso. apply (Hrej s); [now left | exact R].
  - destruct Hin as [-> | Hin].
    + rewrite Hp in E. discriminate.
    + apply IH; [|exact Hin]. intros x Hx. apply Hrej. now right.
Qed.

Lemma sequentialScan_all_decided (l : list ApprovalStep) :
  (forall s, In s l -> s_status s <> "REJECTED") ->
  (forall s, In s l -> s_status s <> "PENDING") ->
  ApprovalEngine.sequentialScan expense l db
  = (closeWith (e_id expense) "APPROVED" db, Return "APPROVED").
Proof.
  intros Hrej Hpen. induction l as [|s l IH];
    cbn [ApprovalEngine.sequentialScan].
  - apply (close_then_return expense row db Hrow).
  - pose proof (Hrej s (or_introl eq_refl)) as R.
    pose proof (Hpen s (or_introl eq_refl)) as E.
    apply String.eqb_neq in R, E. rewrite E, R.
    apply IH; intros x Hx; [apply Hrej | apply Hpen]; now right.
Qed.

End Verdicts.

(** X1.  Under a SEQUENTIAL rule and a snapshot without REJECTED step, the
    order of the steps plays no part in the verdict: the evaluation waits,
    writing nothing, as soon as one step is PENDING, and otherwise approves
    and stores APPROVED.  A step whose status is anything else than PENDING
    or REJECTED counts as approved. *)
Theorem X1_sequential_waits_for_every_pending_step
        (db : DB) (expense row : Expense) (steps : list ApprovalStep)
        (rule : ApprovalRule)
        (Hrow : Prisma.expense_findUnique (e_id expense) db = Some row)
        (Htype : r_type rule = "SEQUENTIAL")
        (Hnorej : forall s, In s steps -> s_status s <> "REJECTED") :
  ((exists s, In s steps /\ s_status s = "PENDING") ->
   ApprovalEngine.evaluateApprovalStatus expense steps rule db
   = (db, Return "WAITING_APPROVAL"))
  /\ ((forall s, In s steps -> s_status s <> "PENDING") ->
      ApprovalEngine.evaluateApprovalStatus expense steps rule db
      = (closeWith (e_id expense) "APPROVED" db, Return "APPROVED")).
Proof.
  assert (Heval :
    ApprovalEngine.evaluateApprovalStatus expense steps rule db
    = ApprovalEngine.sequentialScan expense
        (js_sort (fun a b => s_sequenceIndex a - s_sequenceIndex b) steps) db).
  { unfold ApprovalEngine.evaluateApprovalStatus.
    rewrite (countStatus_zero "REJECTED" steps Hnorej), Htype. reflexivity. }
  rewrite Heval. split.
  - intros (p & Hin & Hp).
    apply (sequentialScan_pending expense db _ p); [|now apply in_js_sort|exact Hp].
    intros s Hs. apply in_js_sort in Hs. now apply Hnorej.
  - intros Hpen. apply (sequentialScan_all_decided expense row db Hrow).
    + intros s Hs. apply in_js_sort in Hs. now apply Hnorej.
    + intros s Hs. apply in_js_sort in Hs. now apply Hpen.
Qed.

(** The second of two steps is approved, the first still pending. *)
Lemma X1_sequential_witness :
  let rule := Sample.rule "r1" "SEQUENTIAL" None None 1 1 in
  let steps := [Sample.step "s1" "manager" 0 "PENDING";
                Sample.step "s2" "admin" 1 "APPROVED"] in
  let e := Sample.waiting Sample.trip in
  let db := Sample.store [e] [rule] steps [] in
  ApprovalEngine.evaluateApprovalStatus e steps rule db
  = (db, Return "WAITING_APPROVAL").
Proof.
  cbv zeta.
  refine (proj1
    (X1_sequential_waits_for_every_pending_step
       (Sample.store [Sample.waiting Sample.trip]
          [Sample.rule "r1" "SEQUENTIAL" None None 1 1]
          [Sample.step "s1" "manager" 0 "PENDING";
           Sample.step "s2" "admin" 1 "APPROVED"] [])
       (Sample.waiting Sample.trip) (Sample.waiting Sample.trip)
       [Sample.step "s1" "manager" 0 "PENDING";
        Sample.step "s2" "admin" 1 "APPROVED"]
       (Sample.rule "r1" "SEQUENTIAL" None None 1 1) eq_refl eq_refl _) _).
  - intros s [H | [H | []]]; subst s; discriminate.
  - exists (Sample.step "s1" "manager" 0 "PENDING"). split; [now left | reflexivity].
Defined.

(** X2.  Under a SPECIFIC rule and a snapshot without REJECTED step, the
    expense is approved, and stored APPROVED, as soon as any step of the
    snapshot is APPROVED, whoever its approver is; otherwise the evaluation
    waits and writes nothing. *)
Theorem X2_specific_approves_on_any_approved_step
        (db : DB) (expense row : Expense) (steps : list ApprovalStep)
        (rule : ApprovalRule)
        (Hrow : Prisma.expense_findUnique (e_id expense) db = Some row)
        (Htype : r_type rule = "SPECIFIC")
        (Hnorej : forall s, In s steps -> s_status s <> "REJECTED") :
  ((exists s, In s steps /\ s_status s = "APPROVED") ->
   ApprovalEngine.evaluateApprovalStatus expense steps rule db
   = (closeWith (e_id expense) "APPROVED" db, Return "APPROVED"))
  /\ ((forall s, In s steps -> s_status s <> "APPROVED") ->
      ApprovalEngine.evaluateApprovalStatus expense steps rule db
      = (db, Return "WAITING_APPROVAL")).
Proof.
  assert (Heval :
    ApprovalEngine.evaluateApprovalStatus expense steps rule db
    = ApprovalEngine.evaluateSpecific expense steps db).
  { unfold ApprovalEngine.evaluateApprovalStatus.
    rewrite (countStatus_zero "REJECTED" steps Hnorej), Htype. reflexivity. }
  rewrite Heval. unfold ApprovalEngine.evaluateSpecific. split.
  - intros (s & Hin & Hs). rewrite (countStatus_pos "APPROVED" steps s Hin Hs).
    apply (close_then_return expense row db Hrow).
  - intros Hnone. now rewrite (countStatus_zero "APPROVED" steps Hnone).
Qed.

Lemma X2_specific_witness :
  let rule := Sample.rule "r1" "SPECIFIC" None (Some "admin") 1 1 in
  let steps := [Sample.step "s1" "admin" 0 "APPROVED"] in
  let e := Sample.waiting Sample.trip in
  let db := Sample.store [e] [rule] steps [] in
  ApprovalEngine.evaluateApprovalStatus e steps rule db
  = (closeWith "trip" "APPROVED" db, Return "APPROVED").
Proof.
  cbv zeta.
  refine (proj1
    (X2_specific_approves_on_any_approved_step
       (Sample.store [Sample.waiting Sample.trip]
          [Sample.rule "r1" "SPECIFIC" None (Some "admin") 1 1]
          [Sample.step "s1" "admin" 0 "APPROVED"] [])
       (Sample.waiting Sample.trip) (Sample.waiting Sample.trip)
       [Sample.step "s1" "admin" 0 "APPROVED"]
       (Sample.rule "r1" "SPECIFIC" None (Some "admin") 1 1) eq_refl eq_refl _) _).
  - intros s [H | []]; subst s; discriminate.
  - exists (Sample.step "s1" "admin" 0 "APPROVED"). split; [now left | reflexivity].
Defined.

(** ** The steps a rule creates *)

Section Creation.

Variable expenseId : string.

Lemma withSteps_nil (db : DB) : withSteps expenseId [] db = db.
Proof.
  unfold withSteps. cbn [stepsFor List.length Nat.add]. rewrite app_nil_r.
  now destruct db.
Qed.

Lemma withSteps_cons (x : string * Z) (r : plan) (db : DB) :
  withSteps expenseId r (withSteps expenseId [x] db)
  = withSteps expenseId (x :: r) db.
Proof.
  destruct x as [a i]. unfold withSteps.
  cbn [companies users expenses approvalSteps approvalRules exchangeRates
       db_seq stepsFor List.length Nat.add].
  rewrite <- app_assoc. cbn [app]. f_equal. lia.
Qed.

Lemma create_insertable (a : string) (i : Z) (r : plan) (db : DB) :
  insertable expenseId ((a, i) :: r) db ->
  Prisma.approvalStep_create expenseId a i db
  = (withSteps expenseId [(a, i)] db, Return tt)
  /\ insertable expenseId r (withSteps expenseId [(a, i)] db).
Proof.
  intros (Hexp & Husers & Hnd & Hfree). split.
  - unfold Prisma.approvalStep_create.
    assert (Hex : existsb (fun s => String.eqb (s_expenseId s) expenseId
                                    && String.eqb (s_approverId s) a)
                          (approvalSteps db) = false).
    { destruct (existsb _ _) eqn:E; [|reflexivity].
      apply existsb_exists in E. destruct E as (s & Hs & Hb).
      apply andb_true_iff in Hb. destruct Hb as [H1 H2].
      apply String.eqb_eq in H1, H2.
      exfalso. apply (Hfree s a i Hs (or_introl eq_refl) H1 H2). }
    rewrite Hex.
    destruct (Prisma.expense_findUnique expenseId db); [|now elim Hexp].
    pose proof (Husers a i (or_introl eq_refl)) as Hu.
    destruct (Prisma.user_findUnique a db); [|now elim Hu].
    reflexivity.
  - inversion Hnd as [|x l Hnotin Hnd']; subst.
    repeat split.
    + exact Hexp.
    + intros b j Hb. apply (Husers b j). now right.
    + exact Hnd'.
    + intros s b j Hs Hb Hse.
      cbn [withSteps approvalSteps stepsFor] in Hs.
      apply in_app_or in Hs. destruct Hs as [Hs | [<- | []]].
      * apply (Hfree s b j Hs (or_intror Hb) Hse).
      * cbn [s_approverId]. intros ->. apply Hnotin.
        apply (in_map fst) in Hb. exact Hb.
Qed.

(** The inserts of an insertable plan all succeed. *)
Lemma createAll_insertable (p : plan) :
  forall db, insertable expenseId p db ->
    createAll expenseId p db = (withSteps expenseId p db, Return tt).
Proof.
  induction p as [|[a i] r IH]; intros db Hins.
  - now rewrite withSteps_nil.
  - destruct (create_insertable a i r db Hins) as [Hc Hr].
    unfold createAll in *. cbn [forEach fst snd]. unfold bind.
    rewrite Hc, (IH _ Hr). now rewrite withSteps_cons.
Qed.

Lemma createIndexed_createAll (l : list User) :
  forall i db,
    ApprovalEngine.createIndexed expenseId i l db
    = createAll expenseId (indexedFrom i l) db.
Proof.
  induction l as [|a l IH]; intros i db; [reflexivity|].
  unfold createAll in *.
  cbn [ApprovalEngine.createIndexed indexedFrom forEach fst snd].
  unfold bind. destruct (Prisma.approvalStep_create _ _ _ db) as [db1 [[]|e|]];
    [apply IH | reflexivity | reflexivity].
Qed.

Lemma forEach_filter_create (f : User -> bool) (i : Z) (l : list User) :
  forall db,
    forEach l (fun u => if f u
                        then Prisma.approvalStep_create expenseId (u_id u) i
                        else ret tt) db
    = createAll expenseId (map (fun u => (u_id u, i)) (filter f l)) db.
Proof.
  induction l as [|u l IH]; intros db; [reflexivity|].
  unfold createAll in *. cbn [forEach filter]. destruct (f u).
  - cbn [map forEach fst snd]. unfold bind.
    destruct (Prisma.approvalStep_create _ _ _ db) as [db1 [[]|e|]];
      [apply IH | reflexivity | reflexivity].
  - unfold bind, ret. apply IH.
Qed.

Lemma forEach_create (i : Z) (l : list User) (db : DB) :
  forEach l (fun u => Prisma.approvalStep_create expenseId (u_id u) i) db
  = createAll expenseId (map (fun u => (u_id u, i)) l) db.
Proof.
  revert db. induction l as [|u l IH]; intros db; [reflexivity|].
  unfold createAll in *. cbn [map forEach fst snd]. unfold bind.
  destruct (Prisma.approvalStep_create _ _ _ db) as [db1 [[]|e|]];
    [apply IH | reflexivity | reflexivity].
Qed.

End Creation.

Section Insertable.

Lemma find_in_unique (db : DB) (u : User) :
  In u (users db) -> Prisma.user_findUnique (u_id u) db <> None.
Proof.
  intros Hin H. unfold Prisma.user_findUnique in H.
  pose proof (find_none _ _ H u Hin) as E. cbn in E.
  now rewrite String.eqb_refl in E.
Qed.

Lemma NoDup_map_filter {A B} (g : A -> B) (f : A -> bool) (l : list A) :
  NoDup (map g l) -> NoDup (map g (filter f l)).
Proof.
  induction l as [|x l IH]; intros H; [constructor|].
  inversion H as [|y m Hnotin Hnd]; subst. cbn [filter].
  destruct (f x); [|now apply IH].
  cbn [map]. constructor; [|now apply IH].
  intros Hin. apply Hnotin. apply in_map_iff in Hin.
  destruct Hin as (z & Hz & Hzin). apply filter_In in Hzin.
  apply in_map_iff. exists z. tauto.
Qed.

Lemma getAllManagers_in (companyId : string) (db : DB) (u : User) :
  In u (ApprovalEngine.getAllManagers companyId db)
  <-> In u (users db) /\ u_companyId u = companyId
      /\ (u_role u = "MANAGER" \/ u_role u = "ADMIN") /\ u_isActive u = true.
Proof.
  unfold ApprovalEngine.getAllManagers, ApprovalEngine.isManagerRole.
  rewrite filter_In, !andb_true_iff, orb_true_iff, !String.eqb_eq. tauto.
Qed.

End Insertable.

Section RuleSteps.

Lemma insertable_fresh (expenseId : string) (p : plan) (db : DB) :
  Prisma.expense_findUnique expenseId db <> None ->
  noStepFor expenseId db ->
  (forall a i, In (a, i) p -> Prisma.user_findUnique a db <> None) ->
  NoDup (map fst p) ->
  insertable expenseId p db.
Proof.
  intros He Hno Hu Hnd. repeat split; try assumption.
  intros s a i Hs _ Hse. exfalso. now apply (Hno s).
Qed.

Lemma map_fst_indexedFrom (l : list User) :
  forall i, map fst (indexedFrom i l) = map u_id l.
Proof.
  induction l as [|a l IH]; intros i; [reflexivity|].
  cbn [indexedFrom map fst]. now rewrite IH.
Qed.

Lemma in_indexedFrom (l : list User) :
  forall i a j, In (a, j) (indexedFrom i l) -> exists u, In u l /\ u_id u = a.
Proof.
  induction l as [|x l IH]; intros i a j H; [destruct H|].
  cbn [indexedFrom] in H. destruct H as [H | H].
  - injection H as <- _. exists x. split; [now left | reflexivity].
  - destruct (IH _ _ _ H) as (u & Hu & E). exists u. split; [now right | exact E].
Qed.

(** Along a ranked chain the managers are users of the store, of smaller
    rank than the start, and pairwise distinct. *)
Lemma ranked_chain_distinct (db : DB) (rank : string -> nat)
      (Hrank : forall u m, In u (users db) ->
                 ApprovalEngine.managerOf db (Some u) = Some m ->
                 (rank (u_id m) < rank (u_id u))%nat) :
  forall n u, In u (users db) -> (rank (u_id u) <= n)%nat ->
    exists l, Chain db (Some u) l
              /\ (forall m, In m l ->
                    In m (users db) /\ (rank (u_id m) < rank (u_id u))%nat)
              /\ NoDup (map u_id l).
Proof.
  induction n as [|n IH]; intros u Hu Hn.
  - destruct (ApprovalEngine.managerOf db (Some u)) as [m|] eqn:Hm.
    + specialize (Hrank u m Hu Hm). lia.
    + exists []. split; [now constructor|]. split; [intros m []|constructor].
  - destruct (ApprovalEngine.managerOf db (Some u)) as [m|] eqn:Hm.
    + destruct (managerOf_in _ _ _ Hm) as [Hin Hfind].
      pose proof (Hrank u m Hu Hm) as Hlt.
      destruct (IH m Hin ltac:(lia)) as (l & Hl & Hall & Hnd).
      exists (m :: l). split; [|split].
      * apply chain_link; [assumption | now rewrite Hfind].
      * intros x [<- | Hx]; [now split|].
        destruct (Hall x Hx) as [Hxin Hxlt]. split; [assumption | lia].
      * cbn [map]. constructor; [|exact Hnd].
        intros Hmem. apply in_map_iff in Hmem.
        destruct Hmem as (x & Hid & Hx). destruct (Hall x Hx) as [_ Hxlt].
        rewrite Hid in Hxlt. lia.
    + exists []. split; [now constructor|]. split; [intros m []|constructor].
Qed.

End RuleSteps.

(** X3.  SEQUENTIAL rule, manager links free of cycles, submitter a user of
    the store, expense without step so far: with enough fuel [applyRule]
    returns after inserting one PENDING step per manager of the submitter's
    chain, in chain order, the direct manager at sequence index 0 and each
    next manager one index higher; nothing else is written. *)
Theorem X3_sequential_steps_follow_the_chain
        (db : DB) (rank : string -> nat) (expenseId : string)
        (rule : ApprovalRule) (context : ApprovalContext) (submitter : User)
        (Hrank : forall u m, In u (users db) ->
                   ApprovalEngine.managerOf db (Some u) = Some m ->
                   (rank (u_id m) < rank (u_id u))%nat)
        (Htype : r_type rule = "SEQUENTIAL")
        (Hsub : Prisma.user_findUnique (userId context) db = Some submitter)
        (Hexp : Prisma.expense_findUnique expenseId db <> None)
        (Hnew : noStepFor expenseId db) :
  exists managers,
    Chain db (Some submitter) managers
    /\ forall fuel, (List.length managers < fuel)%nat ->
         ApprovalEngine.applyRule fuel expenseId rule context db
         = (withSteps expenseId (indexedFrom 0 managers) db, Return tt).
Proof.
  pose proof (find_some _ _ Hsub) as [Hin _].
  destruct (ranked_chain_distinct db rank Hrank _ submitter Hin (le_n _))
    as (l & Hl & Hall & Hnd).
  exists l. split; [exact Hl|]. intros fuel Hfuel.
  unfold ApprovalEngine.applyRule. rewrite Htype. cbn [String.eqb Ascii.eqb Bool.eqb].
  unfold ApprovalEngine.createSequentialApproval, bind,
    ApprovalEngine.getManagerHierarchy.
  rewrite Hsub, (managerLoop_chain _ _ _ Hl fuel [] Hfuel). cbn [app].
  rewrite createIndexed_createAll. apply createAll_insertable.
  apply insertable_fresh; try assumption.
  - intros a i Ha. destruct (in_indexedFrom _ _ _ _ Ha) as (u & Hu & <-).
    apply find_in_unique. now apply Hall.
  - now rewrite map_fst_indexedFrom.
Qed.

Lemma X3_sequential_witness :
  let db := Sample.store [Sample.waiting Sample.trip]
              [Sample.rule "r1" "SEQUENTIAL" None None 1 1] [] [] in
  exists managers,
    Chain db (Some Sample.employee) managers
    /\ forall fuel, (List.length managers < fuel)%nat ->
         ApprovalEngine.applyRule fuel "trip"
           (Sample.rule "r1" "SEQUENTIAL" None None 1 1)
           (mkContext "Travel" (ofZ 110) "employee") db
         = (withSteps "trip" (indexedFrom 0 managers) db, Return tt).
Proof.
  cbv zeta.
  apply (X3_sequential_steps_follow_the_chain
           (Sample.store [Sample.waiting Sample.trip]
              [Sample.rule "r1" "SEQUENTIAL" None None 1 1] [] [])
           (fun s => String.length s) "trip"
           (Sample.rule "r1" "SEQUENTIAL" None None 1 1)
           (mkContext "Travel" (ofZ 110) "employee") Sample.employee).
  - intros u m [<- | [<- | [<- | []]]] H; vm_compute in H;
      try discriminate. injection H as <-. vm_compute. lia.
  - reflexivity.
  - reflexivity.
  - discriminate.
  - intros s [].
Defined.

(** X4.  PARALLEL or PERCENTAGE rule, user identifiers unique, expense
    without step so far: [applyRule] returns after inserting one PENDING
    step at sequence index 0 for every active MANAGER or ADMIN of the
    rule's company, in store order, and for no one else.  The submitter is
    not left out: a submitter who is an active manager or admin receives a
    step on the own expense. *)
Theorem X4_parallel_steps_for_every_manager
        (db : DB) (fuel : nat) (expenseId : string) (rule : ApprovalRule)
        (context : ApprovalContext)
        (Htype : r_type rule = "PARALLEL" \/ r_type rule = "PERCENTAGE")
        (Hids : uniqueUserIds db)
        (Hexp : Prisma.expense_findUnique expenseId db <> None)
        (Hnew : noStepFor expenseId db) :
  ApprovalEngine.applyRule fuel expenseId rule context db
  = (withSteps expenseId (parallelPlan rule db) db, Return tt)
  /\ (forall a i, In (a, i) (parallelPlan rule db) <->
        i = 0 /\ exists u, In u (users db) /\ u_id u = a
                           /\ u_companyId u = r_companyId rule
                           /\ (u_role u = "MANAGER" \/ u_role u = "ADMIN")
                           /\ u_isActive u = true).
Proof.
  split.
  - assert (Hpar : ApprovalEngine.createParallelApproval expenseId rule context db
                   = (withSteps expenseId (parallelPlan rule db) db, Return tt)).
    { unfold ApprovalEngine.createParallelApproval, bind, get.
      rewrite forEach_create. apply createAll_insertable.
      apply insertable_fresh; try assumption.
      - intros a i Ha. unfold parallelPlan in Ha. apply in_map_iff in Ha.
        destruct Ha as (u & E & Hu). injection E as <- _.
        apply find_in_unique. now apply getAllManagers_in in Hu.
      - unfold parallelPlan. rewrite map_map. cbn [fst].
        unfold ApprovalEngine.getAllManagers. now apply NoDup_map_filter. }
    unfold ApprovalEngine.applyRule, ApprovalEngine.createPercentageApproval.
    destruct Htype as [H | H]; rewrite H; cbn [String.eqb Ascii.eqb Bool.eqb];
      exact Hpar.
  - intros a i. unfold parallelPlan. rewrite in_map_iff. split.
    + intros (u & E & Hu). injection E as <- <-. split; [reflexivity|].
      exists u. apply getAllManagers_in in Hu. tauto.
    + intros (-> & u & Hin & <- & Hc & Hr & Ha). exists u.
      split; [reflexivity|]. apply getAllManagers_in. tauto.
Qed.

Lemma X4_parallel_witness :
  let rule := Sample.rule "r1" "PERCENTAGE" (Some 60) None 1 1 in
  let db := Sample.store [Sample.waiting Sample.trip] [rule] [] [] in
  ApprovalEngine.applyRule 0 "trip" rule
    (mkContext "Travel" (ofZ 110) "employee") db
  = (withSteps "trip" [("admin", 0); ("manager", 0)] db, Return tt).
Proof.
  cbv zeta.
  refine (proj1
    (X4_parallel_steps_for_every_manager
       (Sample.store [Sample.waiting Sample.trip]
          [Sample.rule "r1" "PERCENTAGE" (Some 60) None 1 1] [] [])
       0 "trip" (Sample.rule "r1" "PERCENTAGE" (Some 60) None 1 1)
       (mkContext "Travel" (ofZ 110) "employee") _ _ _ _)).
  - right. reflexivity.
  - unfold uniqueUserIds. cbn. repeat constructor; cbn; intuition discriminate.
  - discriminate.
  - intros s [].
Defined.

Section HybridSteps.

Lemma create_keeps_users (expenseId a : string) (i : Z) (db : DB) :
  users (fst (Prisma.approvalStep_create expenseId a i db)) = users db.
Proof.
  unfold Prisma.approvalStep_create. destruct (existsb _ _); [reflexivity|].
  destruct (Prisma.expense_findUnique expenseId db); [|reflexivity].
  now destruct (Prisma.user_findUnique a db).
Qed.

Lemma getAllManagers_users (companyId : string) (db db' : DB) :
  users db' = users db ->
  ApprovalEngine.getAllManagers companyId db'
  = ApprovalEngine.getAllManagers companyId db.
Proof. intros H. unfold ApprovalEngine.getAllManagers. now rewrite H. Qed.

Lemma createHybridApproval_createAll (expenseId : string) (rule : ApprovalRule)
      (context : ApprovalContext) (db : DB) :
  ApprovalEngine.createHybridApproval expenseId rule context db
  = createAll expenseId (hybridPlan rule db) db.
Proof.
  unfold ApprovalEngine.createHybridApproval, hybridPlan.
  assert (Hrest : forall d, users d = users db ->
            (approvers <- get (ApprovalEngine.getAllManagers (r_companyId rule));;
             forEach approvers
               (fun approver =>
                  if negb (eq_nullable (u_id approver)
                                       (r_specificApproverId rule))
                  then Prisma.approvalStep_create expenseId (u_id approver) 1
                  else ret tt)) d
            = createAll expenseId
                (map (fun u => (u_id u, 1))
                   (filter (fun u => negb (eq_nullable (u_id u)
                                             (r_specificApproverId rule)))
                      (ApprovalEngine.getAllManagers (r_companyId rule) db)))
                d).
  { intros d Hd. unfold bind at 1. unfold get.
    rewrite (getAllManagers_users _ db d Hd).
    apply (forEach_filter_create expenseId
             (fun u => negb (eq_nullable (u_id u) (r_specificApproverId rule)))). }
  destruct (r_specificApproverId rule) as [a|] eqn:Ha.
  - destruct (truthy_string a).
    + cbn [app]. unfold createAll at 1. cbn [forEach fst snd].
      unfold bind at 1. unfold bind at 2.
      pose proof (create_keeps_users expenseId a 0 db) as Hu.
      destruct (Prisma.approvalStep_create expenseId a 0 db)
        as [db1 [[]|e|]]; cbn [fst] in Hu; [|reflexivity|reflexivity].
      now apply Hrest.
    + cbn [app]. unfold bind at 1. unfold ret at 1. now apply Hrest.
  - cbn [app]. unfold bind at 1. unfold ret at 1. now apply Hrest.
Qed.

End HybridSteps.

(** X5.  HYBRID rule, user identifiers unique, expense without step so far,
    the specific approver (when the rule names one) a user of the store:
    [applyRule] returns after inserting a PENDING step at sequence index 0
    for the specific approver, when the rule names one, and a PENDING step
    at sequence index 1 for every other active MANAGER or ADMIN of the
    rule's company.  The specific approver never receives a second step,
    and a rule that names no approver is no error here. *)
Theorem X5_hybrid_steps
        (db : DB) (fuel : nat) (expenseId : string) (rule : ApprovalRule)
        (context : ApprovalContext)
        (Htype : r_type rule = "HYBRID")
        (Hids : uniqueUserIds db)
        (Hexp : Prisma.expense_findUnique expenseId db <> None)
        (Hnew : noStepFor expenseId db)
        (Hspecific : forall a, r_specificApproverId rule = Some a -> a <> "" ->
                       Prisma.user_findUnique a db <> None) :
  ApprovalEngine.applyRule fuel expenseId rule context db
  = (withSteps expenseId (hybridPlan rule db) db, Return tt)
  /\ (forall a i, In (a, i) (hybridPlan rule db) <->
        (i = 0 /\ r_specificApproverId rule = Some a /\ a <> "")
        \/ (i = 1 /\ r_specificApproverId rule <> Some a
            /\ exists u, In u (users db) /\ u_id u = a
                         /\ u_companyId u = r_companyId rule
                         /\ (u_role u = "MANAGER" \/ u_role u = "ADMIN")
                         /\ u_isActive u = true)).
Proof.
  assert (Htruthy : forall a, truthy_string a = true <-> a <> "").
  { intros a. destruct a; cbn; split; intros; try discriminate; congruence. }
  assert (Hneq : forall x, negb (eq_nullable x (r_specificApproverId rule)) = true
                           <-> r_specificApproverId rule <> Some x).
  { intros x. unfold eq_nullable. destruct (r_specificApproverId rule) as [t|].
    - rewrite negb_true_iff. split.
      + intros H E. injection E as ->. now rewrite String.eqb_refl in H.
      + intros H. apply String.eqb_neq. congruence.
    - split; [discriminate | reflexivity]. }
  assert (Hchar : forall a i, In (a, i) (hybridPlan rule db) <->
        (i = 0 /\ r_specificApproverId rule = Some a /\ a <> "")
        \/ (i = 1 /\ r_specificApproverId rule <> Some a
            /\ exists u, In u (users db) /\ u_id u = a
                         /\ u_companyId u = r_companyId rule
                         /\ (u_role u = "MANAGER" \/ u_role u = "ADMIN")
                         /\ u_isActive u = true)).
  { intros a i. unfold hybridPlan. rewrite in_app_iff, in_map_iff. split.
    - intros [H | (u & E & Hu)].
      + left. destruct (r_specificApproverId rule) as [t|]; [|destruct H].
        destruct (truthy_string t) eqn:T; [|destruct H].
        destruct H as [H | []]. injection H as <- <-.
        repeat split. now apply Htruthy.
      + right. injection E as <- <-. apply filter_In in Hu.
        destruct Hu as [Hu Hn]. apply Hneq in Hn.
        apply getAllManagers_in in Hu. split; [reflexivity|].
        split; [exact Hn|]. exists u. tauto.
    - intros [(-> & E & Hne) | (-> & Hn & u & Hin & <- & Hc & Hr & Ha)].
      + left. rewrite E. apply Htruthy in Hne. rewrite Hne. now left.
      + right. exists u. split; [reflexivity|]. apply filter_In.
        split; [apply getAllManagers_in; tauto | now apply Hneq]. }
  split; [|exact Hchar].
  unfold ApprovalEngine.applyRule. rewrite Htype.
  cbn [String.eqb Ascii.eqb Bool.eqb].
  rewrite createHybridApproval_createAll. apply createAll_insertable.
  apply insertable_fresh; try assumption.
  - intros a i Ha. apply Hchar in Ha.
    destruct Ha as [(_ & E & Hne) | (_ & _ & u & Hin & <- & _)].
    + now apply Hspecific.
    + now apply find_in_unique.
  - unfold hybridPlan. rewrite map_app, map_map. cbn [fst].
    assert (Hrest : NoDup (map u_id
              (filter (fun u => negb (eq_nullable (u_id u)
                                        (r_specificApproverId rule)))
                 (ApprovalEngine.getAllManagers (r_companyId rule) db)))).
    { apply NoDup_map_filter. unfold ApprovalEngine.getAllManagers.
      now apply NoDup_map_filter. }
    destruct (r_specificApproverId rule) as [t|] eqn:E; [|exact Hrest].
    destruct (truthy_string t); [|exact Hrest].
    cbn [map fst app]. constructor; [|exact Hrest].
    intros Hin. apply in_map_iff in Hin. destruct Hin as (u & Hid & Hu).
    apply filter_In in Hu. destruct Hu as [_ Hn].
    cbn [eq_nullable] in Hn. rewrite Hid, String.eqb_refl in Hn. discriminate.
Qed.

Lemma X5_hybrid_witness :
  let rule := Sample.rule "r1" "HYBRID" (Some 60) (Some "admin") 1 1 in
  let db := Sample.store [Sample.waiting Sample.trip] [rule] [] [] in
  ApprovalEngine.applyRule 0 "trip" rule
    (mkContext "Travel" (ofZ 110) "employee") db
  = (withSteps "trip" [("admin", 0); ("manager", 1)] db, Return tt).
Proof.
  cbv zeta.
  refine (proj1
    (X5_hybrid_steps
       (Sample.store [Sample.waiting Sample.trip]
          [Sample.rule "r1" "HYBRID" (Some 60) (Some "admin") 1 1] [] [])
       0 "trip" (Sample.rule "r1" "HYBRID" (Some 60) (Some "admin") 1 1)
       (mkContext "Travel" (ofZ 110) "employee") eq_refl _ _ _ _)).
  - unfold uniqueUserIds. cbn. repeat constructor; cbn; intuition discriminate.
  - discriminate.
  - intros s [].
  - intros a E _. injection E as <-. discriminate.
Defined.

(** X6.  SPECIFIC rule.  When the rule names no approver (unset or empty)
    [applyRule] throws "Specific approver not defined in rule" and writes
    nothing.  When it names a user of the store who has no step on the
    expense yet, [applyRule] returns after inserting exactly one PENDING
    step for that user at sequence index 0; whether that user is active,
    or belongs to the company of the rule, is not looked at. *)
Theorem X6_specific_step
        (db : DB) (fuel : nat) (expenseId : string) (rule : ApprovalRule)
        (context : ApprovalContext)
        (Htype : r_type rule = "SPECIFIC") :
  ((r_specificApproverId rule = None \/ r_specificApproverId rule = Some "") ->
   ApprovalEngine.applyRule fuel expenseId rule context db
   = (db, Throw (Error "Specific approver not defined in rule")))
  /\ (forall a, r_specificApproverId rule = Some a -> a <> "" ->
        insertable expenseId [(a, 0)] db ->
        ApprovalEngine.applyRule fuel expenseId rule context db
        = (withSteps expenseId [(a, 0)] db, Return tt)).
Proof.
  unfold ApprovalEngine.applyRule. rewrite Htype.
  cbn [String.eqb Ascii.eqb Bool.eqb].
  unfold ApprovalEngine.createSpecificApproval. split.
  - intros [-> | ->]; reflexivity.
  - intros a -> Hne Hins. destruct a as [|c a]; [now elim Hne|].
    cbn [truthy_string].
    apply (create_insertable expenseId _ 0 [] db Hins).
Qed.

(** The approver named by the rule is an inactive user. *)
Lemma X6_specific_witness :
  let retired := mkUser "retired" "other" "EMPLOYEE" None false in
  let rule := Sample.rule "r1" "SPECIFIC" None (Some "retired") 1 1 in
  let db := mkDB [Sample.acme] [Sample.employee; retired]
                 [Sample.waiting Sample.trip] [] [rule] [] 0 in
  ApprovalEngine.applyRule 0 "trip" rule
    (mkContext "Travel" (ofZ 110) "employee") db
  = (withSteps "trip" [("retired", 0)] db, Return tt).
Proof.
  cbv zeta.
  refine (proj2
    (X6_specific_step
       (mkDB [Sample.acme]
             [Sample.employee; mkUser "retired" "other" "EMPLOYEE" None false]
             [Sample.waiting Sample.trip] []
             [Sample.rule "r1" "SPECIFIC" None (Some "retired") 1 1] [] 0)
       0 "trip" (Sample.rule "r1" "SPECIFIC" None (Some "retired") 1 1)
       (mkContext "Travel" (ofZ 110) "employee") eq_refl)
    "retired" eq_refl _ _).
  - discriminate.
  - repeat split.
    + discriminate.
    + intros a i [H | []]. injection H as <- _. discriminate.
    + repeat constructor. intros [].
    + intros s a i [].
Defined.

Section Growth.

Variable expenseId : string.

Lemma grows_refl (db : DB) : grows expenseId db db.
Proof.
  unfold grows. repeat split; try tauto.
  exists []. split; [now rewrite app_nil_r | intros s []].
Qed.

Lemma grows_trans (db1 db2 db3 : DB) :
  grows expenseId db1 db2 -> grows expenseId db2 db3 ->
  grows expenseId db1 db3.
Proof.
  intros (Hc & Hu & He & Hr & Hx & (n1 & Hs1 & Hn1) & Hk1)
         (Hc' & Hu' & He' & Hr' & Hx' & (n2 & Hs2 & Hn2) & Hk2).
  unfold grows. repeat split; try congruence; [|tauto].
  exists (n1 ++ n2)%list. split.
  - now rewrite Hs2, Hs1, app_assoc.
  - intros s Hs. apply in_app_iff in Hs. destruct Hs; auto.
Qed.

Lemma grows_create (a : string) (i : Z) (db : DB) :
  grows expenseId db (fst (Prisma.approvalStep_create expenseId a i db)).
Proof.
  unfold Prisma.approvalStep_create.
  destruct (existsb _ _) eqn:Hex; [apply grows_refl|].
  destruct (Prisma.expense_findUnique expenseId db); [|apply grows_refl].
  destruct (Prisma.user_findUnique a db); [|apply grows_refl].
  cbn [fst]. unfold grows. cbn. repeat split.
  - eexists. split; [reflexivity|]. intros s [<- | []]. now cbn.
  - intros Huniq s1 s2 H1 H2 He Ha.
    assert (Hold : forall s, In s (approvalSteps db) ->
              ~ (s_expenseId s = expenseId /\ s_approverId s = a)).
    { intros s Hs [E1 E2].
      assert (existsb (fun s => String.eqb (s_expenseId s) expenseId
                                && String.eqb (s_approverId s) a)
                      (approvalSteps db) = true) as Ht.
      { apply existsb_exists. exists s. split; [exact Hs|].
        now rewrite E1, E2, !String.eqb_refl. }
      congruence. }
    apply in_app_iff in H1. apply in_app_iff in H2.
    destruct H1 as [H1 | [<- | []]], H2 as [H2 | [<- | []]].
    + now apply Huniq.
    + exfalso. apply (Hold s1 H1). now cbn in He, Ha.
    + exfalso. apply (Hold s2 H2). now cbn in He, Ha.
    + reflexivity.
Qed.


Lemma growing_ret {A} (a : A) : growing expenseId (ret a).
Proof. intros db. apply grows_refl. Qed.

Lemma growing_throw {A} (e : error) : growing expenseId (@throw A e).
Proof. intros db. apply grows_refl. Qed.

Lemma growing_get {A} (f : DB -> A) : growing expenseId (get f).
Proof. intros db. apply grows_refl. Qed.

Lemma growing_bind {A B} (m : M A) (k : A -> M B) :
  growing expenseId m -> (forall a, growing expenseId (k a)) -> growing expenseId (bind m k).
Proof.
  intros Hm Hk db. unfold bind. specialize (Hm db).
  destruct (m db) as [db' [a|e|]]; cbn [fst] in *; try exact Hm.
  eapply grows_trans; [exact Hm | apply Hk].
Qed.

Lemma growing_forEach {A} (l : list A) (body : A -> M unit) :
  (forall x, growing expenseId (body x)) -> growing expenseId (forEach l body).
Proof.
  intros Hb. induction l as [|x r IH]; cbn [forEach].
  - apply growing_ret.
  - apply growing_bind; [apply Hb | intros _; exact IH].
Qed.

Lemma growing_createIndexed (l : list User) (i : Z) :
  growing expenseId (ApprovalEngine.createIndexed expenseId i l).
Proof.
  revert i. induction l as [|a r IH]; intros i; cbn [ApprovalEngine.createIndexed].
  - apply growing_ret.
  - apply growing_bind; [intros db; apply grows_create | intros _; apply IH].
Qed.

Lemma growing_getManagerHierarchy (fuel : nat) (u : string) :
  growing expenseId (ApprovalEngine.getManagerHierarchy fuel u).
Proof.
  intros db. unfold ApprovalEngine.getManagerHierarchy.
  destruct (ApprovalEngine.managerLoop _ _ _ _); apply grows_refl.
Qed.

Lemma growing_applyRule (fuel : nat) (rule : ApprovalRule)
      (context : ApprovalContext) :
  growing expenseId (ApprovalEngine.applyRule fuel expenseId rule context).
Proof.
  assert (Hc : forall a i, growing expenseId (Prisma.approvalStep_create expenseId a i))
    by (intros a i db; apply grows_create).
  unfold ApprovalEngine.applyRule.
  destruct (String.eqb (r_type rule) "SEQUENTIAL").
  { apply growing_bind; [apply growing_getManagerHierarchy|].
    intros l. apply growing_createIndexed. }
  destruct (String.eqb (r_type rule) "PARALLEL").
  { apply growing_bind; [apply growing_get|].
    intros l. apply growing_forEach. intros x. apply Hc. }
  destruct (String.eqb (r_type rule) "PERCENTAGE").
  { apply growing_bind; [apply growing_get|].
    intros l. apply growing_forEach. intros x. apply Hc. }
  destruct (String.eqb (r_type rule) "SPECIFIC").
  { unfold ApprovalEngine.createSpecificApproval.
    destruct (r_specificApproverId rule) as [a|]; [|apply growing_throw].
    destruct (truthy_string a); [apply Hc | apply growing_throw]. }
  destruct (String.eqb (r_type rule) "HYBRID").
  { unfold ApprovalEngine.createHybridApproval. apply growing_bind.
    - destruct (r_specificApproverId rule) as [a|]; [|apply growing_ret].
      destruct (truthy_string a); [apply Hc | apply growing_ret].
    - intros _. apply growing_bind; [apply growing_get|].
      intros l. apply growing_forEach. intros x.
      destruct (negb _); [apply Hc | apply growing_ret]. }
  apply growing_throw.
Qed.

Lemma growing_createApprovalSteps (fuel : nat) (companyId : string)
      (context : ApprovalContext) :
  growing expenseId (ApprovalEngine.createApprovalSteps fuel expenseId companyId context).
Proof.
  unfold ApprovalEngine.createApprovalSteps.
  apply growing_bind; [apply growing_get|]. intros rules.
  destruct (ApprovalEngine.sortByPriority rules);
    [apply growing_ret | apply growing_applyRule].
Qed.

End Growth.

(** X7.  Whatever the rules, the users and the outcome (return, error part
    way through, or a walk that never ends), [createApprovalSteps] only
    appends steps to the step table, each of them a PENDING step of the
    expense being submitted with no decision recorded; it changes no
    existing step and no other table, and it keeps the step table free of
    two steps with the same expense and approver. *)
Theorem X7_step_creation_only_appends_pending_steps
        (fuel : nat) (expenseId companyId : string)
        (context : ApprovalContext) (db : DB) :
  grows expenseId db
    (fst (ApprovalEngine.createApprovalSteps fuel expenseId companyId
            context db)).
Proof.
  unfold ApprovalEngine.createApprovalSteps.
  apply growing_bind; [apply growing_get|]. intros rules db'.
  destruct (ApprovalEngine.sortByPriority rules) as [|rule rest].
  - apply grows_refl.
  - apply growing_applyRule.
Qed.

Section SubmitGuards.

Variables (env : Env) (fuel : nat) (companyId userId id : string) (db : DB).

Lemma submitExpense_missing :
  Prisma.expense_findUnique id db = None ->
  ExpenseController.submitExpense env fuel companyId userId id db
  = (db, Throw (AppError "Expense not found" 404)).
Proof.
  intros H. unfold ExpenseController.submitExpense, bind, get. now rewrite H.
Qed.

Lemma submitExpense_guarded (e : Expense) :
  Prisma.expense_findUnique id db = Some e ->
  (e_companyId e <> companyId ->
   ExpenseController.submitExpense env fuel companyId userId id db
   = (db, Throw (AppError "Expense not found" 404)))
  /\ (e_companyId e = companyId -> e_userId e <> userId ->
      ExpenseController.submitExpense env fuel companyId userId id db
      = (db, Throw (AppError "You can only submit your own expenses" 403)))
  /\ (e_companyId e = companyId -> e_userId e = userId ->
      e_status e <> "DRAFT" ->
      ExpenseController.submitExpense env fuel companyId userId id db
      = (db, Throw (AppError "Only draft expenses can be submitted" 400))).
Proof.
  intros H. unfold ExpenseController.submitExpense, bind, get. rewrite H.
  repeat split.
  - intros Hc. apply String.eqb_neq in Hc. now rewrite Hc.
  - intros Hc Hu. apply String.eqb_eq in Hc. apply String.eqb_neq in Hu.
    now rewrite Hc, Hu.
  - intros Hc Hu Hs. apply String.eqb_eq in Hc, Hu. apply String.eqb_neq in Hs.
    now rewrite Hc, Hu, Hs.
Qed.

(** A submission that got as far as its write has passed the guards and
    left the row out of DRAFT. *)
Lemma submitExpense_wrote :
  expenses (fst (ExpenseController.submitExpense env fuel companyId userId id
                   db)) <> expenses db
  \/ (exists e, snd (ExpenseController.submitExpense env fuel companyId userId
                       id db) = Return e) ->
  exists stored,
    Prisma.expense_findUnique id
      (fst (ExpenseController.submitExpense env fuel companyId userId id db))
    = Some stored
    /\ e_companyId stored = companyId /\ e_userId stored = userId
    /\ e_status stored = "WAITING_APPROVAL".
Proof.
  intros Hw.
  destruct (Prisma.expense_findUnique id db) as [expense|] eqn:Hfound.
  2:{ rewrite submitExpense_missing in Hw by assumption. cbn in Hw.
      destruct Hw as [Hw | [e Hw]]; [now elim Hw | discriminate]. }
  destruct (submitExpense_guarded expense Hfound) as (G1 & G2 & G3).
  destruct (String.eqb_spec (e_companyId expense) companyId) as [Hc|Hc].
  2:{ rewrite (G1 Hc) in Hw. cbn in Hw.
      destruct Hw as [Hw | [e Hw]]; [now elim Hw | discriminate]. }
  destruct (String.eqb_spec (e_userId expense) userId) as [Hu|Hu].
  2:{ rewrite (G2 Hc Hu) in Hw. cbn in Hw.
      destruct Hw as [Hw | [e Hw]]; [now elim Hw | discriminate]. }
  destruct (String.eqb_spec (e_status expense) "DRAFT") as [Hs|Hs].
  2:{ rewrite (G3 Hc Hu Hs) in Hw. cbn in Hw.
      destruct Hw as [Hw | [e Hw]]; [now elim Hw | discriminate]. }
  destruct (Prisma.company_findUnique (e_companyId expense) db)
    as [company|] eqn:Hco.
  2:{ exfalso. revert Hw.
      unfold ExpenseController.submitExpense, bind, get. rewrite Hfound.
      apply String.eqb_eq in Hc, Hu, Hs. rewrite Hc, Hu, Hs. cbn [negb].
      rewrite Hco. cbn.
      intros [Hw | [e Hw]]; [now elim Hw | discriminate]. }
  destruct (ExpenseController.conversionFor env expense company db)
    as [db1 [c|e|]] eqn:Hconv.
  - exists (with_submission (convertedAmount c) (rate c) (timestamp c)
                            (now env) expense).
    split; [|now cbn].
    exact (submit_stores env fuel companyId userId id db expense company
             Hfound Hc Hu Hs Hco db1 c Hconv).
  - exfalso. revert Hw.
    pose proof (keeps_conversionFor env expense company db) as Hk.
    unfold ExpenseController.submitExpense, bind, get. rewrite Hfound.
    apply String.eqb_eq in Hc, Hu, Hs. rewrite Hc, Hu, Hs. cbn [negb].
    rewrite Hco, Hconv. rewrite Hconv in Hk. cbn in *.
    intros [Hw | [e' Hw]]; [now elim Hw | discriminate].
  - exfalso. revert Hw.
    pose proof (keeps_conversionFor env expense company db) as Hk.
    unfold ExpenseController.submitExpense, bind, get. rewrite Hfound.
    apply String.eqb_eq in Hc, Hu, Hs. rewrite Hc, Hu, Hs. cbn [negb].
    rewrite Hco, Hconv. rewrite Hconv in Hk. cbn in *.
    intros [Hw | [e' Hw]]; [now elim Hw | discriminate].
Qed.

End SubmitGuards.

(** X8.  [submitExpense] refuses, writing nothing: an expense that does
    not exist or belongs to another company with 404 "Expense not found";
    an expense of another user of the company with 403; an expense of the
    caller that is not DRAFT with 400.  And an expense is submitted at most
    once: after a submission that returned, or that changed the expense
    table before failing, every further submission of that expense by the
    same caller is refused with the 400 and writes nothing. *)
Theorem X8_submission_guards_and_single_submission
        (env : Env) (fuel : nat) (companyId userId id : string) (db : DB) :
  let r := ExpenseController.submitExpense env fuel companyId userId id db in
  (Prisma.expense_findUnique id db = None ->
   r = (db, Throw (AppError "Expense not found" 404)))
  /\ (forall e, Prisma.expense_findUnique id db = Some e ->
        (e_companyId e <> companyId ->
         r = (db, Throw (AppError "Expense not found" 404)))
        /\ (e_companyId e = companyId -> e_userId e <> userId ->
            r = (db, Throw (AppError "You can only submit your own expenses"
                                     403)))
        /\ (e_companyId e = companyId -> e_userId e = userId ->
            e_status e <> "DRAFT" ->
            r = (db, Throw (AppError "Only draft expenses can be submitted"
                                     400))))
  /\ (expenses (fst r) <> expenses db \/ (exists e, snd r = Return e) ->
      forall env' fuel',
        ExpenseController.submitExpense env' fuel' companyId userId id (fst r)
        = (fst r, Throw (AppError "Only draft expenses can be submitted"
                                  400))).
Proof.
  cbv zeta. split; [apply submitExpense_missing|].
  split; [apply submitExpense_guarded|].
  intros Hw env' fuel'.
  destruct (submitExpense_wrote env fuel companyId userId id db Hw)
    as (stored & Hst & Hc & Hu & Hs).
  apply (submitExpense_guarded env' fuel' companyId userId id _ stored Hst);
    try assumption.
  rewrite Hs. discriminate.
Qed.

Lemma X8_single_submission_witness :
  let env := mkEnv Sample.noon (Sample.quoting Sample.rate_1_10) in
  let db := Sample.store [Sample.trip]
              [Sample.rule "r1" "SEQUENTIAL" None None 1 1] [] [] in
  let r := ExpenseController.submitExpense env 5%nat "acme" "employee" "trip" db in
  ExpenseController.submitExpense env 5%nat "acme" "employee" "trip" (fst r)
  = (fst r, Throw (AppError "Only draft expenses can be submitted" 400)).
Proof.
  cbv zeta.
  refine (proj2 (proj2
    (X8_submission_guards_and_single_submission
       (mkEnv Sample.noon (Sample.quoting Sample.rate_1_10)) 5%nat "acme"
       "employee" "trip"
       (Sample.store [Sample.trip]
          [Sample.rule "r1" "SEQUENTIAL" None None 1 1] [] []))) _
    (mkEnv Sample.noon (Sample.quoting Sample.rate_1_10)) 5%nat).
  right. eexists. vm_compute. reflexivity.
Defined.

Section Verdict.

Variable id : string.

Lemma close_by_id (st : string) (e : Expense) (d : DB) :
  e_id e = id -> Prisma.expense_findUnique id d <> None ->
  (Prisma.expense_update (e_id e) (with_status st) ;;; ret st) d
  = (closeWith id st d, Return st).
Proof.
  intros <- Hd.
  destruct (Prisma.expense_findUnique (e_id e) d) as [row|] eqn:Hrow;
    [|now elim Hd].
  exact (close_then_return e row d Hrow st).
Qed.

Lemma verdict_close (st : string) :
  verdictOf id (fun e => Prisma.expense_update (e_id e) (with_status st) ;;;
                      ret st).
Proof. left. exists st. intros e d. apply close_by_id. Qed.

Lemma verdict_wait : verdictOf id (fun _ => ret "WAITING_APPROVAL").
Proof. right. left. reflexivity. Qed.

Lemma verdict_scan (steps : list ApprovalStep) :
  verdictOf id (fun e => ApprovalEngine.sequentialScan e steps).
Proof.
  induction steps as [|s l IH]; cbn [ApprovalEngine.sequentialScan].
  - apply verdict_close.
  - destruct (String.eqb (s_status s) "PENDING"); [apply verdict_wait|].
    destruct (String.eqb (s_status s) "REJECTED");
      [apply verdict_close | exact IH].
Qed.

Lemma verdict_percentage (steps : list ApprovalStep) (t : Z) :
  verdictOf id (fun e => ApprovalEngine.evaluatePercentage e steps t).
Proof.
  unfold ApprovalEngine.evaluatePercentage.
  destruct (JsNumber.geb _ _); [apply verdict_close | apply verdict_wait].
Qed.

Lemma verdict_evaluate (steps : list ApprovalStep) (rule : ApprovalRule) :
  verdictOf id (fun e => ApprovalEngine.evaluateApprovalStatus e steps rule).
Proof.
  unfold ApprovalEngine.evaluateApprovalStatus.
  destruct (0 <? ApprovalEngine.countStatus "REJECTED" steps)%nat;
    [apply verdict_close|].
  destruct (String.eqb (r_type rule) "SEQUENTIAL"); [apply verdict_scan|].
  destruct (_ || _); [apply verdict_percentage|].
  destruct (String.eqb (r_type rule) "SPECIFIC").
  { unfold ApprovalEngine.evaluateSpecific.
    destruct (0 <? _)%nat; [apply verdict_close | apply verdict_wait]. }
  destruct (String.eqb (r_type rule) "HYBRID").
  2:{ right. right. reflexivity. }
  unfold ApprovalEngine.evaluateHybrid.
  destruct (find _ steps) as [s|]; [|apply verdict_percentage].
  destruct (String.eqb (s_status s) "APPROVED");
    [apply verdict_close | apply verdict_percentage].
Qed.

End Verdict.

Lemma closeWith_twice (id st : string) (db : DB) :
  closeWith id st (closeWith id st db) = closeWith id st db.
Proof.
  unfold closeWith, set_expenses. cbn. f_equal. rewrite map_map.
  apply map_ext. intros x. unfold updE.
  destruct (String.eqb (e_id x) id) eqn:E; cbn; [|now rewrite E].
  now rewrite E.
Qed.

Lemma findUnique_id (id : string) (db : DB) (e : Expense) :
  Prisma.expense_findUnique id db = Some e -> e_id e = id.
Proof.
  intros H. apply find_some in H. now apply String.eqb_eq.
Qed.

(** X9.  [processApproval] throws "Expense not found" for an unknown
    expense and, when no rule applies to the expense, returns its stored
    status, writing nothing in both cases.  Run a second time on the store
    it left, it gives the same result and leaves that store as it is: the
    evaluation can be repeated. *)
Theorem X9_process_approval_can_be_repeated (id : string) (db : DB) :
  let r := ApprovalEngine.processApproval id db in
  (Prisma.expense_findUnique id db = None ->
   r = (db, Throw (Error "Expense not found")))
  /\ (forall e, Prisma.expense_findUnique id db = Some e ->
        ApprovalEngine.getApplicableRules (e_companyId e)
          (mkContext (e_category e)
                     (ApprovalEngine.numberOfNullable (e_convertedAmount e))
                     (e_userId e)) db = [] ->
        r = (db, Return (e_status e)))
  /\ ApprovalEngine.processApproval id (fst r) = r.
Proof.
  cbv zeta.
  destruct (Prisma.expense_findUnique id db) as [e|] eqn:Hfound.
  2:{ assert (Hr : ApprovalEngine.processApproval id db
                   = (db, Throw (Error "Expense not found")))
        by (unfold ApprovalEngine.processApproval; now rewrite Hfound).
      rewrite Hr. split; [reflexivity|]. split; [discriminate|]. exact Hr. }
  pose proof (findUnique_id _ _ _ Hfound) as Hid.
  destruct (ApprovalEngine.sortByPriority
              (ApprovalEngine.getApplicableRules (e_companyId e)
                 (mkContext (e_category e)
                    (ApprovalEngine.numberOfNullable (e_convertedAmount e))
                    (e_userId e)) db)) as [|rule rest] eqn:Hrules.
  { assert (Hr : ApprovalEngine.processApproval id db
                 = (db, Return (e_status e)))
      by (unfold ApprovalEngine.processApproval; now rewrite Hfound, Hrules).
    rewrite Hr. split; [discriminate|]. split; [|exact Hr].
    now intros e0 [= <-] _. }
  assert (Hr : ApprovalEngine.processApproval id db
               = ApprovalEngine.evaluateApprovalStatus e
                   (Prisma.stepsOf id db) rule db)
    by (unfold ApprovalEngine.processApproval; now rewrite Hfound, Hrules).
  split; [discriminate|]. split.
  { intros e0 [= <-] Hnone. rewrite Hnone in Hrules. discriminate. }
  rewrite Hr.
  assert (Hsame : fst (ApprovalEngine.evaluateApprovalStatus e
                     (Prisma.stepsOf id db) rule db) = db ->
            ApprovalEngine.processApproval id
              (fst (ApprovalEngine.evaluateApprovalStatus e
                      (Prisma.stepsOf id db) rule db))
            = ApprovalEngine.evaluateApprovalStatus e
                (Prisma.stepsOf id db) rule db).
  { intros ->. exact Hr. }
  destruct (verdict_evaluate id (Prisma.stepsOf id db) rule)
    as [(st & Hclose) | [Hwait | Hkeep]].
  - assert (Hne : Prisma.expense_findUnique id db <> None) by congruence.
    rewrite (Hclose e db Hid Hne). cbn [fst].
    unfold ApprovalEngine.processApproval.
    assert (Hrow : Prisma.expense_findUnique id (closeWith id st db)
                   = Some (with_status st e))
      by (apply findUnique_after_status; exact Hfound).
    rewrite Hrow. cbn [e_companyId e_category e_convertedAmount e_userId
                       with_status].
    change (ApprovalEngine.getApplicableRules (e_companyId e)
              (mkContext (e_category e)
                 (ApprovalEngine.numberOfNullable (e_convertedAmount e))
                 (e_userId e)) (closeWith id st db))
      with (ApprovalEngine.getApplicableRules (e_companyId e)
              (mkContext (e_category e)
                 (ApprovalEngine.numberOfNullable (e_convertedAmount e))
                 (e_userId e)) db).
    rewrite Hrules.
    change (Prisma.stepsOf id (closeWith id st db))
      with (Prisma.stepsOf id db).
    rewrite (Hclose (with_status st e) (closeWith id st db)).
    + now rewrite closeWith_twice.
    + exact Hid.
    + congruence.
  - apply Hsame. now rewrite Hwait.
  - apply Hsame. now rewrite Hkeep.
Qed.

Section RateCache.

Lemma firstOfTop_intro {A} (key : A -> Z) (pre post : list A) (c : A) :
  (forall x, In x pre -> key x < key c) ->
  (forall x, In x post -> key x <= key c) ->
  firstOfTop key (pre ++ c :: post) = Some c.
Proof.
  intros Hpre Hpost. induction pre as [|x pre IH]; cbn [app firstOfTop].
  - destruct (firstOfTop key post) as [y|] eqn:Hy; [|reflexivity].
    destruct (firstOfTop_split key _ _ Hy) as (p & q & E & _ & _).
    assert (Hin : In y post) by (rewrite E; apply in_or_app; right; now left).
    apply Hpost in Hin. apply Z.leb_le in Hin. now rewrite Hin.
  - rewrite IH by (intros y Hy; apply Hpre; now right).
    assert (H : key x < key c) by (apply Hpre; now left).
    apply Z.leb_gt in H. now rewrite H.
Qed.

Lemma filter_all_false {A} (f : A -> bool) (l : list A) :
  (forall x, In x l -> f x = false) -> filter f l = [].
Proof.
  induction l as [|x l IH]; intros H; [reflexivity|]. cbn [filter].
  rewrite (H x (or_introl eq_refl)). apply IH. intros y Hy. apply H.
  now right.
Qed.

Lemma filter_narrow {A} (p q : A -> bool) (l : list A) :
  (forall x, q x = true -> p x = true) ->
  filter q (filter p l) = filter q l.
Proof.
  intros H. induction l as [|x l IH]; [reflexivity|]. cbn [filter].
  destruct (p x) eqn:Hp; cbn [filter].
  - now rewrite IH.
  - destruct (q x) eqn:Hq; [|exact IH]. apply H in Hq. congruence.
Qed.

Variables (fromCurrency toCurrency : string).

(** An entry the cache answers with stays the answer as long as it is
    fresh. *)
Lemma cache_persists (env env' : Env) (db : DB) (c : ExchangeRate) :
  CurrencyService.getCachedRate env fromCurrency toCurrency db = Some c ->
  now env <= now env' ->
  now env' - CurrencyService.oneHour <= x_timestamp c ->
  CurrencyService.getCachedRate env' fromCurrency toCurrency db = Some c.
Proof.
  unfold CurrencyService.getCachedRate.
  rewrite !(hd_js_sort_desc x_timestamp). intros H Hnow Hfresh.
  destruct (firstOfTop_split _ _ _ H) as (pre & post & E & Hp & Hq).
  assert (Hc : CurrencyService.isFreshRate env fromCurrency toCurrency c
               = true).
  { assert (Hin : In c (filter (CurrencyService.isFreshRate env fromCurrency
                                  toCurrency) (exchangeRates db)))
      by (rewrite E; apply in_or_app; right; now left).
    now apply filter_In in Hin. }
  rewrite <- (filter_narrow
                (CurrencyService.isFreshRate env fromCurrency toCurrency)
                (CurrencyService.isFreshRate env' fromCurrency toCurrency)).
  2:{ intros x. unfold CurrencyService.isFreshRate.
      rewrite !andb_true_iff, !Z.leb_le. intros [Hbt Hts]. split; [exact Hbt|].
      lia. }
  rewrite E, filter_app. cbn [filter].
  assert (Hc' : CurrencyService.isFreshRate env' fromCurrency toCurrency c
                = true).
  { unfold CurrencyService.isFreshRate in *.
    apply andb_true_iff in Hc. destruct Hc as [Hbt _]. rewrite Hbt.
    now apply Z.leb_le. }
  rewrite Hc'. apply firstOfTop_intro.
  - intros x Hx. apply filter_In in Hx. now apply Hp.
  - intros x Hx. apply filter_In in Hx. now apply Hq.
Qed.

Lemma cacheRate_fresh_row (env : Env) (r : number) (db : DB) :
  CurrencyService.getCachedRate env fromCurrency toCurrency db = None ->
  exchangeRates
    (fst (CurrencyService.cacheRate fromCurrency toCurrency r (now env) db))
  = (exchangeRates db ++ [mkRate fromCurrency toCurrency r (now env)])%list
  /\ CurrencyService.getCachedRate env fromCurrency toCurrency
       (fst (CurrencyService.cacheRate fromCurrency toCurrency r (now env) db))
     = Some (mkRate fromCurrency toCurrency r (now env)).
Proof.
  intros Hmiss.
  pose proof (getCachedRate_none env fromCurrency toCurrency db Hmiss) as Hold.
  assert (Hnew : CurrencyService.isFreshRate env fromCurrency toCurrency
                   (mkRate fromCurrency toCurrency r (now env)) = true).
  { unfold CurrencyService.isFreshRate. cbn. rewrite !String.eqb_refl. cbn.
    apply Z.leb_le. unfold CurrencyService.oneHour. lia. }
  unfold CurrencyService.cacheRate.
  destruct (existsb _ _) eqn:Hex.
  { exfalso. apply existsb_exists in Hex. destruct Hex as (x & Hx & Hm).
    apply andb_true_iff in Hm. destruct Hm as [Hbt Hts].
    apply Z.eqb_eq in Hts. specialize (Hold x Hx).
    unfold CurrencyService.isFreshRate in Hold. rewrite Hbt, Hts in Hold.
    cbn in Hold. apply Z.leb_gt in Hold. unfold CurrencyService.oneHour in Hold.
    lia. }
  cbn [fst]. split; [reflexivity|].
  unfold CurrencyService.getCachedRate. rewrite (hd_js_sort_desc x_timestamp).
  cbn [exchangeRates set_exchangeRates]. rewrite filter_app.
  rewrite (filter_all_false _ _ Hold). cbn [filter app]. now rewrite Hnew.
Qed.

End RateCache.

(** X10.  A conversion that returned serves the same rate for the hour
    that follows the time stamp it returned: every later conversion of the
    same pair, asked while that time stamp is at most one hour old, returns
    that rate and that time stamp for any amount, whatever the rate source
    would answer then, and writes nothing. *)
Theorem X10_returned_rate_is_served_for_an_hour
        (env : Env) (fromCurrency toCurrency : string) (x : number)
        (db db' : DB) (res : CurrencyConversionResult)
        (Hret : CurrencyService.convertCurrency env fromCurrency toCurrency x
                  db = (db', Return res)) :
  forall env' y,
    now env <= now env' ->
    now env' - CurrencyService.oneHour <= timestamp res ->
    CurrencyService.convertCurrency env' fromCurrency toCurrency y db'
    = (db', Return (mkConversion (toFixed2 (JsNumber.mul y (rate res)))
                                 (rate res) (timestamp res))).
Proof.
  intros env' y Hnow Hfresh.
  destruct (CurrencyService.getCachedRate env fromCurrency toCurrency db)
    as [c|] eqn:Hc.
  - rewrite (convertCurrency_hit _ _ _ _ _ _ Hc) in Hret.
    injection Hret as <- <-. cbn [rate timestamp] in *.
    apply convertCurrency_hit. now apply (cache_persists _ _ env env').
  - destruct (spotRate env fromCurrency toCurrency) as [r|] eqn:Hr.
    + rewrite (convertCurrency_fetch _ _ _ _ _ _ Hc Hr) in Hret.
      injection Hret as <- <-. cbn [rate timestamp] in *.
      destruct (cacheRate_fresh_row fromCurrency toCurrency env r db Hc)
        as [_ Hnew].
      rewrite (convertCurrency_hit env' fromCurrency toCurrency y _ _
                 (cache_persists _ _ env env' _ _ Hnew Hnow Hfresh)).
      reflexivity.
    + rewrite (convertCurrency_unavailable _ _ _ _ _ Hc Hr) in Hret.
      discriminate.
Qed.

(** The source quotes 1.10 at noon; half an hour later it is down. *)
Lemma X10_returned_rate_witness :
  let env := mkEnv Sample.noon (Sample.quoting Sample.rate_1_10) in
  let later := mkEnv (Sample.noon + 1800000) Sample.offline in
  let db := Sample.store [] [] [] [] in
  let db' := fst (CurrencyService.convertCurrency env "EUR" "USD" (ofZ 100)
                    db) in
  CurrencyService.convertCurrency later "EUR" "USD" (ofZ 200) db'
  = (db', Return (mkConversion (ofZ 220) Sample.rate_1_10 Sample.noon)).
Proof.
  cbv zeta.
  exact (X10_returned_rate_is_served_for_an_hour
           (mkEnv Sample.noon (Sample.quoting Sample.rate_1_10)) "EUR" "USD"
           (ofZ 100) (Sample.store [] [] [] []) _
           (mkConversion (ofZ 110) Sample.rate_1_10 Sample.noon) eq_refl
           (mkEnv (Sample.noon + 1800000) Sample.offline) (ofZ 200)
           ltac:(cbn; unfold Sample.noon; lia)
           ltac:(cbn; unfold Sample.noon, CurrencyService.oneHour; lia)).
Defined.

(** X11.  Whatever its outcome, [convertCurrency] writes no table but the
    rate cache; there it keeps every row and appends at most one, a row of
    the pair asked for, stamped with the current time, and only when the
    cache had no fresh row of the pair and the source answered.  The cache
    stays free of two rows with the same pair and time stamp. *)
Theorem X11_conversion_only_appends_to_the_rate_cache
        (env : Env) (fromCurrency toCurrency : string) (x : number) (db : DB) :
  let db' := fst (CurrencyService.convertCurrency env fromCurrency toCurrency
                    x db) in
  companies db' = companies db /\ users db' = users db
  /\ expenses db' = expenses db /\ approvalSteps db' = approvalSteps db
  /\ approvalRules db' = approvalRules db /\ db_seq db' = db_seq db
  /\ (exchangeRates db' = exchangeRates db
      \/ exists r,
           CurrencyService.getCachedRate env fromCurrency toCurrency db = None
           /\ spotRate env fromCurrency toCurrency = Some r
           /\ exchangeRates db'
              = (exchangeRates db
                 ++ [mkRate fromCurrency toCurrency r (now env)])%list)
  /\ (uniqueRates db -> uniqueRates db').
Proof.
  cbv zeta.
  destruct (CurrencyService.getCachedRate env fromCurrency toCurrency db)
    as [c|] eqn:Hc.
  { rewrite (convertCurrency_hit _ _ _ _ _ _ Hc). cbn [fst]. tauto. }
  destruct (spotRate env fromCurrency toCurrency) as [r|] eqn:Hr.
  2:{ rewrite (convertCurrency_unavailable _ _ _ _ _ Hc Hr). cbn [fst].
      tauto. }
  rewrite (convertCurrency_fetch _ _ _ _ _ _ Hc Hr). cbn [fst].
  destruct (cacheRate_fresh_row fromCurrency toCurrency env r db Hc)
    as [Happ _].
  assert (Hother :
    let d := fst (CurrencyService.cacheRate fromCurrency toCurrency r
                    (now env) db) in
    companies d = companies db /\ users d = users db
    /\ expenses d = expenses db /\ approvalSteps d = approvalSteps db
    /\ approvalRules d = approvalRules db /\ db_seq d = db_seq db).
  { cbv zeta. unfold CurrencyService.cacheRate.
    destruct (existsb _ _); cbn; tauto. }
  cbv zeta in Hother.
  destruct Hother as (H1 & H2 & H3 & H4 & H5 & H6).
  repeat (split; [assumption|]). split.
  { right. exists r. tauto. }
  intros Huniq a b Ha Hb Hbase Htarget Hts. rewrite Happ in Ha, Hb.
  pose proof (getCachedRate_none env fromCurrency toCurrency db Hc) as Hold.
  assert (Hclash : forall z, In z (exchangeRates db) ->
            x_baseCurrency z = fromCurrency ->
            x_targetCurrency z = toCurrency ->
            x_timestamp z = now env -> False).
  { intros z Hz Hzb Hzt Hzs. specialize (Hold z Hz).
    unfold CurrencyService.isFreshRate in Hold.
    rewrite Hzb, Hzt, Hzs, !String.eqb_refl in Hold. cbn in Hold.
    apply Z.leb_gt in Hold. unfold CurrencyService.oneHour in Hold. lia. }
  apply in_app_or in Ha. apply in_app_or in Hb.
  destruct Ha as [Ha | [<- | []]], Hb as [Hb | [<- | []]].
  - now apply Huniq.
  - exfalso. now apply (Hclash a Ha).
  - exfalso. apply (Hclash b Hb); now symmetry.
  - reflexivity.
Qed.

Section Decided.

Lemma action_upper (action : string) :
  action = "approve" \/ action = "reject" ->
  toUpperCase action <> "PENDING" /\ toUpperCase action <> "APPROVED"
  /\ toUpperCase action <> "REJECTED".
Proof. intros [-> | ->]; vm_compute; repeat split; discriminate. Qed.

Variables (env : Env) (companyId userId id action : string)
          (comments : option string) (db : DB).

(** The steps of the expense after a decision on the step [sid]: those of
    before, the rows with that identifier carrying the decision. *)
Lemma stepsOf_decided (sid : string) (s' : ApprovalStep) :
  In s' (Prisma.stepsOf id (decideStep env userId action comments sid db)) ->
  exists s, In s (approvalSteps db) /\ s_expenseId s = id
            /\ ((s_id s = sid /\ s_status s' = toUpperCase action)
                \/ (s_id s <> sid /\ s' = s)).
Proof.
  unfold Prisma.stepsOf. rewrite in_js_sort, filter_In.
  cbn [approvalSteps decideStep set_approvalSteps]. rewrite in_map_iff.
  intros [(s & <- & Hs) Hid]. exists s. split; [exact Hs|].
  unfold updS in *. destruct (String.eqb_spec (s_id s) sid) as [E|E].
  - cbn in Hid. apply String.eqb_eq in Hid. split; [exact Hid|]. left.
    now split.
  - apply String.eqb_eq in Hid. split; [exact Hid|]. right. now split.
Qed.

(** Past its guards, [approveExpense] is the evaluation of the store in
    which the first PENDING step of the actor carries the decision. *)
Lemma approveExpense_passed (expense : Expense) (step : ApprovalStep) :
  Prisma.expense_findUnique id db = Some expense ->
  e_companyId expense = companyId ->
  e_status expense = "WAITING_APPROVAL" ->
  find (isPendingOf userId) (ownSteps userId id db) = Some step ->
  ExpenseController.approveExpense env companyId userId id action comments db
  = ApprovalEngine.processApproval id
      (decideStep env userId action comments (s_id step) db).
Proof.
  intros Hfound Hc Hw Hstep.
  unfold ExpenseController.approveExpense, bind.
  rewrite approveCheck_eq, Hfound.
  apply String.eqb_eq in Hc, Hw. rewrite Hc, Hw. cbn [negb]. rewrite Hstep.
  apply find_some in Hstep. destruct Hstep as [Hin _].
  apply in_ownSteps in Hin. destruct Hin as [Hin _].
  unfold ExpenseController.approveWrite.
  now rewrite (approvalStep_update_found _ _ _ _ Hin eq_refl).
Qed.

End Decided.

(** X12.  A decision made through [approveExpense] with one of the two
    actions the route accepts stores the action in upper case, APPROVE or
    REJECT, as the status of the step.  So no step ever becomes APPROVED or
    REJECTED by a decision: every step with one of these two statuses after
    the call was there, unchanged, before it.  When the call returns, a
    step of the actor on the expense carries the decision: the upper-cased
    action, the actor, the time and the comments. *)
Theorem X12_decision_stores_the_upper_cased_action
        (env : Env) (companyId userId id action : string)
        (comments : option string) (db : DB)
        (Haction : action = "approve" \/ action = "reject") :
  let r := ExpenseController.approveExpense env companyId userId id action
                                            comments db in
  (forall s, In s (approvalSteps (fst r)) ->
      s_status s = "APPROVED" \/ s_status s = "REJECTED" ->
      In s (approvalSteps db))
  /\ (forall st, snd r = Return st ->
        exists s, In s (approvalSteps (fst r))
                  /\ s_expenseId s = id /\ s_approverId s = userId
                  /\ s_status s = toUpperCase action
                  /\ s_actionBy s = Some userId
                  /\ s_actionAt s = Some (now env)
                  /\ s_comments s = comments).
Proof.
  cbv zeta. destruct (action_upper action Haction) as (_ & HA & HR).
  destruct (approveExpense_effect env companyId userId id action comments db)
    as [(e & -> & _) | (step & expense & Hin & Hex & Hap & Hpe & _ & _ & _
                        & Hset)].
  - cbn [fst snd]. split; [tauto | discriminate].
  - rewrite (settles_steps _ _ _ Hset).
    cbn [approvalSteps decideStep set_approvalSteps]. split.
    + intros s Hs Hfinal. apply in_map_iff in Hs.
      destruct Hs as (s0 & <- & Hs0). unfold updS in *.
      destruct (String.eqb (s_id s0) (s_id step)); [|exact Hs0].
      cbn in Hfinal. destruct Hfinal; congruence.
    + intros st _.
      exists (with_decision (toUpperCase action) userId (now env) comments
                            step).
      split; [|now cbn].
      apply in_map_iff. exists step. split; [|exact Hin].
      unfold updS. now rewrite String.eqb_refl.
Qed.

Lemma X12_decision_witness :
  let env := mkEnv Sample.noon Sample.offline in
  let db := Sample.store [Sample.waiting Sample.trip]
              [Sample.rule "r1" "PERCENTAGE" (Some 50) None 1 1]
              [Sample.step "s1" "manager" 0 "PENDING"] [] in
  map s_status
    (approvalSteps
       (fst (ExpenseController.approveExpense env "acme" "manager" "trip"
               "approve" None db)))
  = ["APPROVE"].
Proof.
  cbv zeta.
  destruct (proj2
    (X12_decision_stores_the_upper_cased_action
       (mkEnv Sample.noon Sample.offline) "acme" "manager" "trip" "approve"
       None
       (Sample.store [Sample.waiting Sample.trip]
          [Sample.rule "r1" "PERCENTAGE" (Some 50) None 1 1]
          [Sample.step "s1" "manager" 0 "PENDING"] [])
       (or_introl eq_refl)) "WAITING_APPROVAL" eq_refl) as (s & _).
  reflexivity.
Defined.

(** X13.  Under a SEQUENTIAL rule, when the actor holds the only step of
    the expense that is still PENDING and no step is REJECTED, the decision
    closes the expense as APPROVED, whichever of the two actions was sent:
    a reject is stored as REJECT, which the evaluation does not count as a
    rejection. *)
Theorem X13_sequential_last_decision_approves
        (env : Env) (companyId userId id action : string)
        (comments : option string) (db : DB) (expense : Expense)
        (rule : ApprovalRule) (rest : list ApprovalRule) (step : ApprovalStep)
        (Hfound : Prisma.expense_findUnique id db = Some expense)
        (Hcompany : e_companyId expense = companyId)
        (Hwaiting : e_status expense = "WAITING_APPROVAL")
        (Hrules : ApprovalEngine.sortByPriority
                    (ApprovalEngine.getApplicableRules (e_companyId expense)
                       (mkContext (e_category expense)
                          (ApprovalEngine.numberOfNullable
                             (e_convertedAmount expense))
                          (e_userId expense)) db) = rule :: rest)
        (Htype : r_type rule = "SEQUENTIAL")
        (Hstep : In step (approvalSteps db))
        (Hexpense : s_expenseId step = id)
        (Hactor : s_approverId step = userId)
        (Hpending : s_status step = "PENDING")
        (Hothers : forall s, In s (approvalSteps db) -> s_expenseId s = id ->
                     s_id s <> s_id step ->
                     s_status s <> "PENDING" /\ s_status s <> "REJECTED")
        (Haction : action = "approve" \/ action = "reject") :
  let db' := closeWith id "APPROVED"
               (decideStep env userId action comments (s_id step) db) in
  ExpenseController.approveExpense env companyId userId id action comments db
  = (db', Return "APPROVED")
  /\ Prisma.expense_findUnique id db'
     = Some (with_status "APPROVED" expense).
Proof.
  cbv zeta. destruct (action_upper action Haction) as (HP & _ & HR).
  pose proof (findUnique_id _ _ _ Hfound) as Hid.
  assert (Hfirst : exists st0,
             find (isPendingOf userId) (ownSteps userId id db) = Some st0
             /\ s_id st0 = s_id step).
  { destruct (find (isPendingOf userId) (ownSteps userId id db)) as [st0|]
      eqn:Hf.
    - exists st0. split; [reflexivity|].
      apply find_some in Hf. destruct Hf as [Hin Hp].
      apply in_ownSteps in Hin. destruct Hin as (Hin & He & _).
      unfold isPendingOf in Hp. apply andb_true_iff in Hp.
      destruct Hp as [_ Hp]. apply String.eqb_eq in Hp.
      destruct (String.eqb_spec (s_id st0) (s_id step)) as [E|E];
        [exact E|].
      destruct (Hothers st0 Hin He E) as [Hn _]. now elim Hn.
    - exfalso.
      assert (Hin : In step (ownSteps userId id db))
        by (apply in_ownSteps; tauto).
      pose proof (find_none _ _ Hf step Hin) as Hn.
      unfold isPendingOf in Hn.
      rewrite Hactor, Hpending, String.eqb_refl in Hn. discriminate. }
  destruct Hfirst as (st0 & Hf & Hsid).
  rewrite (approveExpense_passed env companyId userId id action comments db
             expense st0 Hfound Hcompany Hwaiting Hf), Hsid.
  set (D := decideStep env userId action comments (s_id step) db).
  assert (HD : Prisma.expense_findUnique id D = Some expense) by exact Hfound.
  split; [|now apply findUnique_after_status].
  unfold ApprovalEngine.processApproval. rewrite HD.
  change (ApprovalEngine.getApplicableRules (e_companyId expense)
            (mkContext (e_category expense)
               (ApprovalEngine.numberOfNullable (e_convertedAmount expense))
               (e_userId expense)) D)
    with (ApprovalEngine.getApplicableRules (e_companyId expense)
            (mkContext (e_category expense)
               (ApprovalEngine.numberOfNullable (e_convertedAmount expense))
               (e_userId expense)) db).
  rewrite Hrules.
  assert (Hst : forall s', In s' (Prisma.stepsOf id D) ->
                  s_status s' <> "PENDING" /\ s_status s' <> "REJECTED").
  { intros s' Hs'. apply stepsOf_decided in Hs'.
    destruct Hs' as (s & Hs & He & [[_ ->] | [Hne ->]]); [now split|].
    now apply Hothers. }
  unfold ApprovalEngine.evaluateApprovalStatus.
  rewrite (countStatus_zero "REJECTED"), Htype
    by (intros s Hs; now apply Hst).
  cbn [String.eqb Ascii.eqb Bool.eqb]. unfold ApprovalEngine.evaluateSequential.
  rewrite <- Hid in HD |- *.
  rewrite (sequentialScan_all_decided expense expense D HD).
  - reflexivity.
  - intros s Hs. apply in_js_sort in Hs. rewrite Hid in Hs. now apply Hst.
  - intros s Hs. apply in_js_sort in Hs. rewrite Hid in Hs. now apply Hst.
Qed.

(** The manager, the only approver, rejects the trip. *)
Lemma X13_sequential_reject_witness :
  let env := mkEnv Sample.noon Sample.offline in
  let db := Sample.store [Sample.waiting Sample.trip]
              [Sample.rule "r1" "SEQUENTIAL" None None 1 1]
              [Sample.step "s1" "manager" 0 "PENDING"] [] in
  let r := ExpenseController.approveExpense env "acme" "manager" "trip"
             "reject" None db in
  snd r = Return "APPROVED"
  /\ map e_status (expenses (fst r)) = ["APPROVED"]
  /\ map s_status (approvalSteps (fst r)) = ["REJECT"].
Proof.
  cbv zeta.
  rewrite (proj1
    (X13_sequential_last_decision_approves
       (mkEnv Sample.noon Sample.offline) "acme" "manager" "trip" "reject" None
       (Sample.store [Sample.waiting Sample.trip]
          [Sample.rule "r1" "SEQUENTIAL" None None 1 1]
          [Sample.step "s1" "manager" 0 "PENDING"] [])
       (Sample.waiting Sample.trip)
       (Sample.rule "r1" "SEQUENTIAL" None None 1 1) []
       (Sample.step "s1" "manager" 0 "PENDING")
       eq_refl eq_refl eq_refl eq_refl eq_refl (or_introl eq_refl)
       eq_refl eq_refl eq_refl
       (fun s Hin _ Hne =>
          match Hin with
          | or_introl E => match Hne (f_equal s_id (eq_sym E)) with end
          | or_intror F => match F with end
          end)
       (or_intror eq_refl))).
  repeat split.
Defined.

Section NeverSettled.

Lemma zero_percent_passes_nothing (steps : list ApprovalStep) (t : Z) :
  (forall s, In s steps -> s_status s <> "APPROVED") ->
  1 <= t <= 100 ->
  JsNumber.geb (ApprovalEngine.approvalPercentage steps) (ofZ t) = false.
Proof.
  intros Hnone Ht. unfold ApprovalEngine.approvalPercentage.
  assert (Hz : ApprovalEngine.countStatus "APPROVED" steps = 0%nat).
  { pose proof (countStatus_zero "APPROVED" steps Hnone) as H.
    apply Nat.ltb_ge in H. lia. }
  rewrite Hz.
  assert (Hq : forall y, JsNumber.div (ofNat 0) y = NaN
                         \/ JsNumber.div (ofNat 0) y = S754_zero false
                         \/ JsNumber.div (ofNat 0) y = S754_zero true).
  { intros y. destruct y as [s|s| |s m e]; try destruct s; cbn; auto. }
  assert (Hin : In t (map Z.of_nat (seq 1 100))).
  { apply in_map_iff. exists (Z.to_nat t). split; [lia|]. apply in_seq. lia. }
  assert (Hall : forall zero, zeroPassesNothing zero = true ->
            JsNumber.geb (JsNumber.mul zero (ofZ 100)) (ofZ t) = false).
  { intros zero H. unfold zeroPassesNothing in H.
    rewrite forallb_forall in H. specialize (H t Hin).
    now apply negb_true_iff in H. }
  destruct (Hq (ofNat (List.length steps))) as [-> | [-> | ->]];
    apply Hall; vm_compute; reflexivity.
Qed.

Variables (id : string) (expense : Expense) (rule : ApprovalRule)
          (rest : list ApprovalRule).
Hypothesis Htype :
  r_type rule = "PARALLEL" \/ r_type rule = "PERCENTAGE"
  \/ r_type rule = "SPECIFIC" \/ r_type rule = "HYBRID".
Hypothesis Hthreshold :
  forall t, r_thresholdPercent rule = Some t -> 0 <= t <= 100.

Lemma thresholdOr_range (d : Z) :
  1 <= d <= 100 -> 1 <= ApprovalEngine.thresholdOr rule d <= 100.
Proof.
  intros Hd. unfold ApprovalEngine.thresholdOr.
  destruct (r_thresholdPercent rule) as [t|] eqn:E; [|exact Hd].
  specialize (Hthreshold t eq_refl).
  destruct (Z.eqb_spec t 0); [exact Hd | lia].
Qed.

(** Without an APPROVED or REJECTED step the evaluation waits. *)
Lemma evaluate_undecided (e : Expense) (steps : list ApprovalStep) (d : DB) :
  (forall s, In s steps ->
     s_status s <> "APPROVED" /\ s_status s <> "REJECTED") ->
  ApprovalEngine.evaluateApprovalStatus e steps rule d
  = (d, Return "WAITING_APPROVAL").
Proof.
  intros Hst.
  assert (Hper : forall dflt, 1 <= dflt <= 100 ->
            ApprovalEngine.evaluatePercentage e steps
              (ApprovalEngine.thresholdOr rule dflt) d
            = (d, Return "WAITING_APPROVAL")).
  { intros dflt Hd. unfold ApprovalEngine.evaluatePercentage.
    rewrite zero_percent_passes_nothing;
      [reflexivity | intros s Hs; now apply Hst | now apply thresholdOr_range]. }
  unfold ApprovalEngine.evaluateApprovalStatus.
  rewrite (countStatus_zero "REJECTED") by (intros s Hs; now apply Hst).
  destruct Htype as [-> | [-> | [-> | ->]]];
    cbn [String.eqb Ascii.eqb Bool.eqb orb].
  - apply Hper. lia.
  - apply Hper. lia.
  - unfold ApprovalEngine.evaluateSpecific.
    now rewrite (countStatus_zero "APPROVED")
      by (intros s Hs; now apply Hst).
  - unfold ApprovalEngine.evaluateHybrid.
    destruct (find _ steps) as [s|] eqn:Hf; [|apply Hper; lia].
    apply find_some in Hf. destruct Hf as [Hin _].
    destruct (Hst s Hin) as [Ha _]. apply String.eqb_neq in Ha. rewrite Ha.
    apply Hper. lia.
Qed.

Lemma approveExpense_cases (env : Env) (companyId userId id' action : string)
      (comments : option string) (db : DB) :
  let r := ExpenseController.approveExpense env companyId userId id' action
                                            comments db in
  (exists e, r = (db, Throw e))
  \/ (exists step,
         In step (approvalSteps db) /\ s_expenseId step = id'
         /\ r = ApprovalEngine.processApproval id'
                  (decideStep env userId action comments (s_id step) db)).
Proof.
  cbv zeta. unfold ExpenseController.approveExpense, bind.
  destruct (ExpenseController.approveCheck companyId userId id' db)
    as [db1 [stepId | e | ]] eqn:Hc.
  - apply approveCheck_return in Hc.
    destruct Hc as (-> & _ & (step & Hin & Hsid & Hex & _)).
    right. exists step. split; [exact Hin|]. split; [exact Hex|].
    unfold ExpenseController.approveWrite.
    rewrite (approvalStep_update_found _ _ _ _ Hin Hsid).
    fold (decideStep env userId action comments stepId db). now rewrite Hsid.
  - left. exists e.
    pose proof (approveCheck_reads_only companyId userId id' db) as Hro.
    rewrite Hc in Hro. cbn in Hro. now subst db1.
  - exfalso. rewrite approveCheck_eq in Hc.
    destruct (Prisma.expense_findUnique id' db); [|discriminate].
    destruct (negb _); [discriminate|]. destruct (negb _); [discriminate|].
    destruct (find _ _); discriminate.
Qed.

Lemma decision_keeps_open (env : Env) (companyId userId id' action : string)
      (comments : option string) (db : DB) :
  action = "approve" \/ action = "reject" ->
  stillOpen id expense rule rest db ->
  stillOpen id expense rule rest
    (fst (ExpenseController.approveExpense env companyId userId id' action
            comments db)).
Proof.
  intros Haction (Hfound & Hrules & Hclean).
  destruct (action_upper action Haction) as (_ & HA & HR).
  destruct (approveExpense_cases env companyId userId id' action comments db)
    as [(e & ->) | (step & Hin & _ & ->)].
  { exact (conj Hfound (conj Hrules Hclean)). }
  set (D := decideStep env userId action comments (s_id step) db).
  assert (HcleanD : undecided id D).
  { intros s Hs He. cbn [approvalSteps decideStep set_approvalSteps D] in Hs.
    apply in_map_iff in Hs. destruct Hs as (s0 & <- & Hs0). unfold updS in *.
    destruct (String.eqb (s_id s0) (s_id step)); [now cbn | now apply Hclean]. }
  assert (HfD : Prisma.expense_findUnique id D = Some expense)
    by exact Hfound.
  assert (HopenD : stillOpen id expense rule rest D)
    by exact (conj HfD (conj Hrules HcleanD)).
  destruct (String.eqb_spec id' id) as [-> | Hne].
  - assert (Hr : ApprovalEngine.processApproval id D
                 = (D, Return "WAITING_APPROVAL")).
    { unfold ApprovalEngine.processApproval. rewrite HfD.
      change (ApprovalEngine.getApplicableRules (e_companyId expense)
                (mkContext (e_category expense)
                   (ApprovalEngine.numberOfNullable
                      (e_convertedAmount expense))
                   (e_userId expense)) D)
        with (ApprovalEngine.getApplicableRules (e_companyId expense)
                (mkContext (e_category expense)
                   (ApprovalEngine.numberOfNullable
                      (e_convertedAmount expense))
                   (e_userId expense)) db).
      rewrite Hrules.
      apply evaluate_undecided. intros s Hs.
      unfold Prisma.stepsOf in Hs. apply in_js_sort in Hs.
      apply filter_In in Hs. destruct Hs as [Hs He].
      apply String.eqb_eq in He. now apply HcleanD. }
    rewrite Hr. exact HopenD.
  - destruct (Prisma.expense_findUnique id' D) as [other|] eqn:Ho.
    2:{ unfold ApprovalEngine.processApproval. rewrite Ho. exact HopenD. }
    destruct (processApproval_settles id' D other Ho)
      as (st & [-> | (_ & ->)]); [exact HopenD|].
    cbn [fst]. split; [|split; [exact Hrules | exact HcleanD]].
    unfold closeWith, Prisma.expense_findUnique.
    cbn [expenses set_expenses].
    rewrite find_map_updE by reflexivity.
    apply String.eqb_neq in Hne. rewrite String.eqb_sym, Hne. exact HfD.
Qed.

Lemma decisions_keep_open (rqs : list (Env * request)) :
  forall db, decisionsOnly rqs -> stillOpen id expense rule rest db ->
             stillOpen id expense rule rest (serve rqs db).
Proof.
  induction rqs as [|[env rq] rqs IH]; intros db Hd Hopen; cbn [serve];
    [exact Hopen|].
  apply IH.
  - intros env' rq' Hin. apply (Hd env' rq'). now right.
  - destruct (Hd env rq (or_introl eq_refl))
      as (c & u & i & a & k & -> & Ha).
    cbn [handle]. now apply decision_keeps_open.
Qed.

End NeverSettled.

(** X14.  Under a PARALLEL, PERCENTAGE, SPECIFIC or HYBRID rule (threshold
    unset or from 0 to 100), an expense none of whose steps is APPROVED or
    REJECTED, as it is after its submission, is never closed by decisions:
    whatever decisions are served, by whomever and on whichever expense,
    with the two actions the route accepts, its row stays as it is.  The
    decisions are stored as APPROVE and REJECT, which the evaluation does
    not count. *)
Theorem X14_decisions_never_close_a_counting_workflow
        (id : string) (expense : Expense) (rule : ApprovalRule)
        (rest : list ApprovalRule) (db : DB)
        (Hfound : Prisma.expense_findUnique id db = Some expense)
        (Hrules : ApprovalEngine.sortByPriority
                    (ApprovalEngine.getApplicableRules (e_companyId expense)
                       (mkContext (e_category expense)
                          (ApprovalEngine.numberOfNullable
                             (e_convertedAmount expense))
                          (e_userId expense)) db) = rule :: rest)
        (Htype : r_type rule = "PARALLEL" \/ r_type rule = "PERCENTAGE"
                 \/ r_type rule = "SPECIFIC" \/ r_type rule = "HYBRID")
        (Hthreshold : forall t, r_thresholdPercent rule = Some t ->
                        0 <= t <= 100)
        (Hclean : undecided id db) :
  forall rqs, decisionsOnly rqs ->
    Prisma.expense_findUnique id (serve rqs db) = Some expense
    /\ undecided id (serve rqs db).
Proof.
  intros rqs Hd.
  destruct (decisions_keep_open id expense rule rest Htype Hthreshold rqs db
              Hd (conj Hfound (conj Hrules Hclean))) as (H1 & _ & H3).
  now split.
Qed.

(** Admin and manager both approve the trip, under a PERCENTAGE rule of
    threshold 50: it stays WAITING_APPROVAL. *)
Lemma X14_counting_workflow_witness :
  let env := mkEnv Sample.noon Sample.offline in
  let db := Sample.store [Sample.waiting Sample.trip]
              [Sample.rule "r1" "PERCENTAGE" (Some 50) None 1 1]
              [Sample.step "s1" "admin" 0 "PENDING";
               Sample.step "s2" "manager" 0 "PENDING"] [] in
  Prisma.expense_findUnique "trip"
    (serve [(env, Approve "acme" "admin" "trip" "approve" None);
            (env, Approve "acme" "manager" "trip" "approve" None)] db)
  = Some (Sample.waiting Sample.trip).
Proof.
  cbv zeta.
  refine (proj1
    (X14_decisions_never_close_a_counting_workflow "trip"
       (Sample.waiting Sample.trip)
       (Sample.rule "r1" "PERCENTAGE" (Some 50) None 1 1) []
       (Sample.store [Sample.waiting Sample.trip]
          [Sample.rule "r1" "PERCENTAGE" (Some 50) None 1 1]
          [Sample.step "s1" "admin" 0 "PENDING";
           Sample.step "s2" "manager" 0 "PENDING"] [])
       eq_refl eq_refl (or_intror (or_introl eq_refl)) _ _ _ _)).
  - intros t [= <-]. lia.
  - intros s [<- | [<- | []]] _; split; discriminate.
  - intros env rq [H | [H | []]]; injection H as <- <-;
      repeat eexists; now left.
Defined.

Section JsFlags.

Lemma filter_length_all {A} (p : A -> bool) (l : list A) :
  List.length (filter p l) = List.length l <-> forall x, In x l -> p x = true.
Proof.
  induction l as [|x l IH]; cbn [filter List.length].
  - split; [intros _ y [] | reflexivity].
  - pose proof (filter_length_le p l) as Hle.
    destruct (p x) eqn:E; cbn [List.length].
    + split.
      * intros H y [<- | Hy]; [exact E | apply IH; [lia | exact Hy]].
      * intros H. f_equal. apply IH. intros y Hy. apply H. now right.
    + split; [lia|]. intros H. specialize (H x (or_introl eq_refl)).
      congruence.
Qed.

Lemma filter_length_none {A} (p : A -> bool) (l : list A) :
  List.length (filter p l) = 0%nat <-> forall x, In x l -> p x = false.
Proof.
  induction l as [|x l IH]; cbn [filter].
  - split; [intros _ y [] | reflexivity].
  - destruct (p x) eqn:E; cbn [List.length].
    + split; [discriminate|]. intros H.
      specialize (H x (or_introl eq_refl)). congruence.
    + rewrite IH. split.
      * intros H y [<- | Hy]; [exact E | now apply H].
      * intros H y Hy. apply H. now right.
Qed.

Lemma in_stepsOfExpense (expenseId : string) (rows : list ApprovalStep)
      (s : ApprovalStep) :
  In s (JsBackend.stepsOfExpense expenseId rows)
  <-> In s rows /\ s_expenseId s = expenseId.
Proof.
  unfold JsBackend.stepsOfExpense. rewrite filter_In.
  now rewrite String.eqb_eq.
Qed.

End JsFlags.

(** X15.  The three flags of [checkExpenseApprovalComplete], read on the
    rows: the workflow is complete when no step of the expense is pending,
    approved when every step of the expense is approved, and rejected when
    some step is rejected.  So an approved workflow is complete and not
    rejected, an expense without step is complete and approved, and a
    workflow with a step that is neither pending, approved nor rejected (a
    skipped one) can be complete without being approved or rejected. *)
Theorem X15_flags_of_the_step_counts
        (expenseId : string) (rows : list ApprovalStep) :
  let st := JsBackend.checkExpenseApprovalComplete expenseId rows in
  (JsBackend.isComplete st = true <->
   forall s, In s rows -> s_expenseId s = expenseId ->
             s_status s <> "pending")
  /\ (JsBackend.isApproved st = true <->
      forall s, In s rows -> s_expenseId s = expenseId ->
                s_status s = "approved")
  /\ (JsBackend.isRejected st = true <->
      exists s, In s rows /\ s_expenseId s = expenseId
                /\ s_status s = "rejected")
  /\ (JsBackend.isApproved st = true ->
      JsBackend.isComplete st = true /\ JsBackend.isRejected st = false)
  /\ ((forall s, In s rows -> s_expenseId s <> expenseId) ->
      JsBackend.isComplete st = true /\ JsBackend.isApproved st = true).
Proof.
  cbv zeta.
  set (mine := JsBackend.stepsOfExpense expenseId rows).
  assert (Hcomplete :
    JsBackend.isComplete (JsBackend.checkExpenseApprovalComplete expenseId rows)
    = true <->
    forall s, In s rows -> s_expenseId s = expenseId ->
              s_status s <> "pending").
  { cbn [JsBackend.checkExpenseApprovalComplete JsBackend.isComplete
         JsBackend.pending]. fold mine.
    rewrite Nat.eqb_eq. unfold JsBackend.countOf. rewrite filter_length_none.
    split.
    - intros H s Hs He. apply String.eqb_neq. apply H.
      now apply in_stepsOfExpense.
    - intros H s Hs. apply in_stepsOfExpense in Hs. apply String.eqb_neq.
      now apply H. }
  assert (Hrejected :
    JsBackend.isRejected (JsBackend.checkExpenseApprovalComplete expenseId rows)
    = true <->
    exists s, In s rows /\ s_expenseId s = expenseId
              /\ s_status s = "rejected").
  { cbn [JsBackend.checkExpenseApprovalComplete JsBackend.isRejected
         JsBackend.rejected]. fold mine.
    rewrite Nat.ltb_lt. unfold JsBackend.countOf. split.
    - intros H.
      destruct (filter (fun s => String.eqb (s_status s) "rejected") mine)
        as [|s l] eqn:E; [cbn in H; lia|].
      assert (Hin : In s (filter (fun s => String.eqb (s_status s) "rejected")
                            mine)) by (rewrite E; now left).
      apply filter_In in Hin. destruct Hin as [Hin Hs].
      apply in_stepsOfExpense in Hin. apply String.eqb_eq in Hs.
      exists s. tauto.
    - intros (s & Hs & He & Hr).
      assert (Hin : In s (filter (fun s => String.eqb (s_status s) "rejected")
                            mine)).
      { apply filter_In. split; [now apply in_stepsOfExpense|].
        now apply String.eqb_eq. }
      destruct (filter _ mine); [destruct Hin | cbn; lia]. }
  assert (Happroved :
    JsBackend.isApproved (JsBackend.checkExpenseApprovalComplete expenseId rows)
    = true <->
    forall s, In s rows -> s_expenseId s = expenseId ->
              s_status s = "approved").
  { cbn [JsBackend.checkExpenseApprovalComplete JsBackend.isApproved
         JsBackend.rejected JsBackend.approved JsBackend.total]. fold mine.
    rewrite andb_true_iff, !Nat.eqb_eq. unfold JsBackend.countOf.
    rewrite filter_length_none, filter_length_all. split.
    - intros [_ H] s Hs He. apply String.eqb_eq. apply H.
      now apply in_stepsOfExpense.
    - intros H. split; intros s Hs; apply in_stepsOfExpense in Hs;
        destruct Hs as [Hs He]; specialize (H s Hs He).
      + apply String.eqb_neq. rewrite H. discriminate.
      + now apply String.eqb_eq. }
  split; [exact Hcomplete|]. split; [exact Happroved|].
  split; [exact Hrejected|]. split.
  - intros Ha. rewrite Happroved in Ha. split.
    + apply Hcomplete. intros s Hs He. rewrite (Ha s Hs He). discriminate.
    + apply Bool.not_true_is_false. intros R.
      apply Hrejected in R. destruct R as (s & Hs & He & Hr).
      rewrite (Ha s Hs He) in Hr. discriminate.
  - intros Hnone. split.
    + apply Hcomplete. intros s Hs He. now elim (Hnone s Hs).
    + apply Happroved. intros s Hs He. now elim (Hnone s Hs).
Qed.

(** One step approved, the other skipped: complete, neither approved nor
    rejected. *)
Lemma X15_skipped_step_witness :
  let rows := [Sample.step "s1" "manager" 1 "approved";
               Sample.step "s2" "admin" 2 "skipped"] in
  let st := JsBackend.checkExpenseApprovalComplete "trip" rows in
  JsBackend.isComplete st = true /\ JsBackend.isApproved st = false
  /\ JsBackend.isRejected st = false.
Proof.
  cbv zeta.
  pose proof (X15_flags_of_the_step_counts "trip"
                [Sample.step "s1" "manager" 1 "approved";
                 Sample.step "s2" "admin" 2 "skipped"]) as H.
  cbv zeta in H. destruct H as (Hc & Ha & Hr & _).
  split; [|split].
  - apply Hc. intros s [<- | [<- | []]] _; discriminate.
  - reflexivity.
  - reflexivity.
Defined.

Section SortedFind.

Context {A : Type} (key : A -> Z).

Lemma insert_descending (x : A) (l : list A) :
  descending key l -> descending key (insert_sorted (fun a b => key b - key a) x l).
Proof.
  induction l as [|y r IH]; cbn [insert_sorted descending].
  - intros _. split; [intros z [] | exact I].
  - intros [Hy Hr]. cbn beta.
    destruct (Z.leb_spec (key y - key x) 0) as [Hle | Hgt];
      cbn [descending].
    + split; [|split; assumption].
      intros z [<- | Hz]; [lia | specialize (Hy z Hz); lia].
    + split; [|now apply IH].
      intros z Hz. apply in_insert_sorted in Hz.
      destruct Hz as [-> | Hz]; [lia | now apply Hy].
Qed.

Lemma js_sort_descending (l : list A) : descending key (js_sort (fun a b => key b - key a) l).
Proof.
  induction l as [|x l IH]; cbn [js_sort]; [exact I|].
  now apply insert_descending.
Qed.

Lemma find_insert_sorted (p : A -> bool) (x : A) (l : list A) :
  descending key l ->
  find p (insert_sorted (fun a b => key b - key a) x l)
  = if p x
    then match find p l with
         | Some y => if key y <=? key x then Some x else Some y
         | None => Some x
         end
    else find p l.
Proof.
  induction l as [|y r IH]; cbn [insert_sorted descending].
  - intros _. cbn [find]. now destruct (p x).
  - intros [Hy Hr]. cbn beta.
    destruct (Z.leb_spec (key y - key x) 0) as [Hle | Hgt].
    + cbn [find]. destruct (p x); [|reflexivity].
      destruct (p y) eqn:Py.
      * assert (H : (key y <=? key x) = true) by (apply Z.leb_le; lia).
        now rewrite H.
      * destruct (find p r) as [z|] eqn:Hz; [|reflexivity].
        apply find_some in Hz. destruct Hz as [Hz _].
        specialize (Hy z Hz).
        assert (H : (key z <=? key x) = true) by (apply Z.leb_le; lia).
        now rewrite H.
    + cbn [find]. destruct (p y) eqn:Py.
      * assert (H : (key y <=? key x) = false) by (apply Z.leb_gt; lia).
        rewrite H. now destruct (p x).
      * now apply IH.
Qed.

(** In the sorted list, the first element with a property is the head of
    the sorted list of the elements with that property. *)
Lemma find_js_sort (p : A -> bool) (l : list A) :
  find p (js_sort (fun a b => key b - key a) l) = firstOfTop key (filter p l).
Proof.
  induction l as [|x l IH]; [reflexivity|]. cbn [js_sort filter].
  rewrite find_insert_sorted by apply js_sort_descending. rewrite IH.
  now destruct (p x).
Qed.

End SortedFind.

Section Latest.

Import LatestRates.

Lemma lookup_assign {V} (acc : list (string * V)) (k t : string) (v : V) :
  lookup (assign acc k v) t
  = if String.eqb k t then Some v else lookup acc t.
Proof.
  unfold lookup. induction acc as [|[k' v'] r IH]; cbn [assign find fst].
  - destruct (String.eqb k t); reflexivity.
  - destruct (String.eqb_spec k' k) as [-> | Hne]; cbn [find fst].
    + destruct (String.eqb k t); reflexivity.
    + destruct (String.eqb_spec k' t) as [-> | Hne'].
      * apply String.eqb_neq in Hne. rewrite String.eqb_sym in Hne.
        now rewrite Hne.
      * exact IH.
Qed.

Lemma find_distinctTarget (t : string) (l : list ExchangeRate) :
  forall seen,
    find (fun x => String.eqb (x_targetCurrency x) t) (distinctTarget seen l)
    = if existsb (String.eqb t) seen then None
      else find (fun x => String.eqb (x_targetCurrency x) t) l.
Proof.
  induction l as [|x r IH]; intros seen; cbn [distinctTarget find].
  - now destruct (existsb _ seen).
  - destruct (existsb (String.eqb (x_targetCurrency x)) seen) eqn:Hx.
    + rewrite IH. destruct (existsb (String.eqb t) seen) eqn:Ht;
        [reflexivity|].
      destruct (String.eqb_spec (x_targetCurrency x) t) as [E|E];
        [|reflexivity].
      rewrite E in Hx. congruence.
    + cbn [find]. rewrite IH. cbn [existsb].
      destruct (String.eqb_spec (x_targetCurrency x) t) as [E|E].
      * rewrite <- E, Hx. reflexivity.
      * apply String.eqb_neq in E. rewrite String.eqb_sym in E. rewrite E.
        reflexivity.
Qed.

Lemma distinctTarget_fresh (l : list ExchangeRate) :
  forall seen x, In x (distinctTarget seen l) ->
                 ~ In (x_targetCurrency x) seen.
Proof.
  induction l as [|y r IH]; intros seen x; cbn [distinctTarget]; [intros []|].
  destruct (existsb (String.eqb (x_targetCurrency y)) seen) eqn:Hy.
  - apply IH.
  - intros [<- | Hx].
    + intros Hin.
      assert (existsb (String.eqb (x_targetCurrency y)) seen = true) as Ht.
      { apply existsb_exists. exists (x_targetCurrency y).
        split; [exact Hin | apply String.eqb_refl]. }
      congruence.
    + intros Hin. apply (IH _ _ Hx). now right.
Qed.

Lemma distinctTarget_NoDup (l : list ExchangeRate) :
  forall seen, NoDup (map x_targetCurrency (distinctTarget seen l)).
Proof.
  induction l as [|y r IH]; intros seen; cbn [distinctTarget];
    [constructor|].
  destruct (existsb _ seen); [apply IH|]. cbn [map]. constructor; [|apply IH].
  intros Hin. apply in_map_iff in Hin. destruct Hin as (x & Hx & Hin).
  apply distinctTarget_fresh in Hin. apply Hin. rewrite Hx. now left.
Qed.

Lemma lookup_reduce (t : string) (l : list ExchangeRate) :
  NoDup (map x_targetCurrency l) ->
  forall acc,
    lookup (fold_left
              (fun acc rate =>
                 assign acc (x_targetCurrency rate)
                        (x_rate rate, x_timestamp rate)) l acc) t
    = match find (fun x => String.eqb (x_targetCurrency x) t) l with
      | Some x => Some (x_rate x, x_timestamp x)
      | None => lookup acc t
      end.
Proof.
  induction l as [|x r IH]; intros Hnd acc; cbn [fold_left find];
    [reflexivity|].
  cbn [map] in Hnd. apply NoDup_cons_iff in Hnd. destruct Hnd as [Hx Hr].
  rewrite (IH Hr), lookup_assign.
  destruct (String.eqb_spec (x_targetCurrency x) t) as [E|E]; [|reflexivity].
  rewrite find_all_false; [reflexivity|].
  intros y Hy. apply String.eqb_neq. intros Ey. apply Hx. rewrite E, <- Ey.
  now apply in_map.
Qed.

Lemma filter_target_of_base (env : Env) (base t : string)
      (l : list ExchangeRate) :
  filter (fun x => String.eqb (x_targetCurrency x) t)
         (filter (isFreshOfBase env base) l)
  = filter (CurrencyService.isFreshRate env base t) l.
Proof.
  induction l as [|x r IH]; [reflexivity|]. cbn [filter].
  unfold isFreshOfBase at 1, CurrencyService.isFreshRate at 1.
  destruct (String.eqb (x_baseCurrency x) base);
    destruct (now env - CurrencyService.oneHour <=? x_timestamp x);
    cbn [andb filter]; rewrite ?andb_false_r; cbn [andb];
    try rewrite IH; try reflexivity.
  rewrite andb_true_r. now destruct (String.eqb (x_targetCurrency x) t).
Qed.

End Latest.

(** X16.  The table of latest rates and the rate cache agree: for every
    base and target currency, the entry of the target in
    [getLatestRates base] is the rate and the time stamp of the row that
    [getCachedRate base target] answers with, and the table has no entry
    for the target exactly when the cache has no fresh row of the pair. *)
Theorem X16_latest_rates_agree_with_the_cache
        (env : Env) (baseCurrency targetCurrency : string) (db : DB) :
  LatestRates.lookup (LatestRates.getLatestRates env baseCurrency db)
                     targetCurrency
  = option_map (fun c => (x_rate c, x_timestamp c))
      (CurrencyService.getCachedRate env baseCurrency targetCurrency db).
Proof.
  unfold LatestRates.getLatestRates, CurrencyService.getCachedRate.
  rewrite lookup_reduce by apply distinctTarget_NoDup.
  rewrite find_distinctTarget. cbn [existsb].
  rewrite (find_js_sort x_timestamp), filter_target_of_base.
  rewrite (hd_js_sort_desc x_timestamp).
  now destruct (firstOfTop x_timestamp _).
Qed.

Section Stuck.

(** The steps a submission adds are steps of the expense submitted. *)
Lemma submit_steps (env : Env) (fuel : nat) (companyId userId i : string)
      (db : DB) :
  exists news,
    approvalSteps
      (fst (ExpenseController.submitExpense env fuel companyId userId i db))
    = (approvalSteps db ++ news)%list
    /\ forall s, In s news -> s_expenseId s = i.
Proof.
  assert (Hsame : forall d : DB, approvalSteps d = approvalSteps db ->
            exists news, approvalSteps d = (approvalSteps db ++ news)%list
                         /\ forall s, In s news -> s_expenseId s = i).
  { intros d Hd. exists []. rewrite app_nil_r. split; [exact Hd | intros s []]. }
  unfold ExpenseController.submitExpense, bind, get.
  destruct (Prisma.expense_findUnique i db) as [expense|]; [|now apply Hsame].
  destruct (negb _); [now apply Hsame|].
  destruct (negb _); [now apply Hsame|].
  destruct (negb _); [now apply Hsame|].
  destruct (Prisma.company_findUnique _ db) as [company|]; [|now apply Hsame].
  pose proof (conversionFor_tables env expense company db) as [Hst _].
  destruct (ExpenseController.conversionFor env expense company db)
    as [db1 [c|err|]]; cbn [fst] in Hst; try (now apply Hsame).
  unfold Prisma.expense_update.
  destruct (Prisma.expense_findUnique i db1); [|now apply Hsame].
  match goal with
  | |- context [ApprovalEngine.createApprovalSteps ?f ?x ?y ?z ?d] =>
      pose proof (growing_createApprovalSteps x f y z d) as Hg;
      destruct (ApprovalEngine.createApprovalSteps f x y z d)
        as [db2 [[]|err|]]
  end;
    cbn [fst] in Hg; unfold ret; cbn [fst];
    destruct Hg as (_ & _ & _ & _ & _ & (news & Hn & Hnews) & _);
    exists news; (split; [rewrite Hn; cbn; now rewrite Hst
                         | intros s Hs; now apply Hnews]).
Qed.

Lemma submit_refused_when_not_draft (env : Env) (fuel : nat)
      (companyId userId i : string) (db : DB) (e : Expense) :
  Prisma.expense_findUnique i db = Some e -> e_status e <> "DRAFT" ->
  fst (ExpenseController.submitExpense env fuel companyId userId i db) = db.
Proof.
  intros Hf Hs.
  destruct (submitExpense_guarded env fuel companyId userId i db e Hf)
    as (G1 & G2 & G3).
  destruct (String.eqb_spec (e_companyId e) companyId) as [Hc|Hc];
    [|now rewrite (G1 Hc)].
  destruct (String.eqb_spec (e_userId e) userId) as [Hu|Hu];
    [|now rewrite (G2 Hc Hu)].
  now rewrite (G3 Hc Hu Hs).
Qed.

Variables (id : string) (e : Expense).
Hypothesis Hstatus : e_status e = "WAITING_APPROVAL".

Lemma handle_stuck (env : Env) (rq : request) (db : DB) :
  Prisma.expense_findUnique id db = Some e -> noStepFor id db ->
  Prisma.expense_findUnique id (handle env rq db) = Some e
  /\ noStepFor id (handle env rq db).
Proof.
  intros Hfound Hnone.
  destruct rq as [c u cur amt cat | fuel c u i | c u i a k]; cbn [handle].
  - (* createExpense *)
    unfold ExpenseController.createExpense, Prisma.expense_create.
    destruct (Prisma.company_findUnique c db); [|now split].
    destruct (Prisma.user_findUnique u db); [|now split].
    cbn [fst]. split; [|exact Hnone].
    unfold Prisma.expense_findUnique. cbn [expenses bump_seq set_expenses].
    now apply find_app_found.
  - (* submitExpense *)
    destruct (String.eqb_spec i id) as [-> | Hne].
    + rewrite (submit_refused_when_not_draft env fuel c u id db e Hfound);
        [now split | rewrite Hstatus; discriminate].
    + split.
      * destruct (submitExpense_effect env fuel c u i db)
          as [Hsame | (x & conv & _ & _ & Hupd)].
        -- now rewrite (findUnique_expenses id _ db Hsame).
        -- unfold Prisma.expense_findUnique. rewrite Hupd.
           rewrite find_map_updE by reflexivity.
           apply String.eqb_neq in Hne. rewrite String.eqb_sym, Hne.
           exact Hfound.
      * destruct (submit_steps env fuel c u i db) as (news & Hn & Hnews).
        intros s Hs. rewrite Hn in Hs. apply in_app_or in Hs.
        destruct Hs as [Hs | Hs]; [now apply Hnone|].
        rewrite (Hnews s Hs). exact Hne.
  - (* approveExpense *)
    destruct (approveExpense_cases env c u i a k db)
      as [(err & ->) | (step & Hin & Hex & ->)]; [now split|].
    assert (Hne : i <> id).
    { intros ->. now apply (Hnone step Hin). }
    set (D := decideStep env u a k (s_id step) db).
    assert (HnoneD : noStepFor id D).
    { intros s Hs. cbn [approvalSteps decideStep set_approvalSteps D] in Hs.
      apply in_map_iff in Hs. destruct Hs as (s0 & <- & Hs0). unfold updS.
      destruct (String.eqb (s_id s0) (s_id step)); [cbn|]; now apply Hnone. }
    split.
    + destruct (Prisma.expense_findUnique i D) as [other|] eqn:Ho.
      2:{ unfold ApprovalEngine.processApproval. now rewrite Ho. }
      destruct (processApproval_settles i D other Ho)
        as (st & [-> | (_ & ->)]); [exact Hfound|].
      cbn [fst]. unfold closeWith, Prisma.expense_findUnique.
      cbn [expenses set_expenses]. rewrite find_map_updE by reflexivity.
      apply String.eqb_neq in Hne. rewrite String.eqb_sym, Hne. exact Hfound.
    + intros s Hs. rewrite processApproval_steps in Hs. now apply HnoneD.
Qed.

End Stuck.

(** X18.  An expense that is WAITING_APPROVAL and has no step, as a
    submission leaves it whenever the governing rule finds no approver,
    stays so for ever: whatever expenses are created, submitted or decided
    afterwards, by whomever, its row never changes and it never receives a
    step.  Every decision on it is refused for want of a step, and no other
    route evaluates it. *)
Theorem X18_waiting_without_step_stays_for_ever
        (id : string) (e : Expense) (db : DB)
        (Hfound : Prisma.expense_findUnique id db = Some e)
        (Hstatus : e_status e = "WAITING_APPROVAL")
        (Hnone : noStepFor id db) :
  forall rqs,
    Prisma.expense_findUnique id (serve rqs db) = Some e
    /\ noStepFor id (serve rqs db).
Proof.
  intros rqs. revert db Hfound Hnone.
  induction rqs as [|[env rq] rqs IH]; intros db Hfound Hnone; cbn [serve];
    [now split|].
  destruct (handle_stuck id e Hstatus env rq db Hfound Hnone) as [Hf Hn].
  now apply IH.
Qed.

(** The manager has no manager: under a SEQUENTIAL rule the submission of
    the manager's own expense creates no step; the admin's approval is then
    refused and the expense waits. *)
Lemma X18_no_approver_witness :
  let env := mkEnv Sample.noon Sample.offline in
  let own := mkExpense "own" "acme" "manager" "USD" (ofZ 40) None None None
                       "Meals" "DRAFT" None in
  let db := Sample.store [own] [Sample.rule "r1" "SEQUENTIAL" None None 1 1]
                         [] [] in
  let db' := fst (ExpenseController.submitExpense env 3 "acme" "manager" "own"
                    db) in
  approvalSteps db' = []
  /\ option_map e_status
       (Prisma.expense_findUnique "own"
          (serve [(env, Approve "acme" "admin" "own" "approve" None)] db'))
     = Some "WAITING_APPROVAL".
Proof.
  cbv zeta. split; [reflexivity|].
  rewrite (proj1
    (X18_waiting_without_step_stays_for_ever "own"
       (with_submission (ofZ 40) (ofZ 1) Sample.noon Sample.noon
          (mkExpense "own" "acme" "manager" "USD" (ofZ 40) None None None
                     "Meals" "DRAFT" None))
       (fst (ExpenseController.submitExpense
               (mkEnv Sample.noon Sample.offline) 3 "acme" "manager" "own"
               (Sample.store
                  [mkExpense "own" "acme" "manager" "USD" (ofZ 40) None None
                             None "Meals" "DRAFT" None]
                  [Sample.rule "r1" "SEQUENTIAL" None None 1 1] [] [])))
       eq_refl eq_refl (fun s (H : In s []) => match H with end)
       [(mkEnv Sample.noon Sample.offline,
         Approve "acme" "admin" "own" "approve" None)])).
  reflexivity.
Defined.

Section ManagerLinks.

Lemma user_findUnique_id (id : string) (db : DB) (u : User) :
  Prisma.user_findUnique id db = Some u -> u_id u = id.
Proof. intros H. apply find_some in H. now apply String.eqb_eq. Qed.

Lemma find_map_user (id : string) (f : User -> User) (l : list User) (u : User) :
  (forall x, u_id (f x) = u_id x) ->
  find (fun x => String.eqb (u_id x) id) l = Some u ->
  find (fun x => String.eqb (u_id x) id)
       (map (fun x => if String.eqb (u_id x) id then f x else x) l)
  = Some (f u).
Proof.
  intros Hf. induction l as [|y l IH]; cbn [find map]; [discriminate|].
  destruct (String.eqb (u_id y) id) eqn:E.
  - intros [= ->]. now rewrite Hf, E.
  - rewrite E. exact IH.
Qed.

Variables (companyId id : string) (role managerId : option string)
          (isActive : option bool) (db : DB) (currentUser : User).
Hypothesis Hfound : Prisma.user_findUnique id db = Some currentUser.
Hypothesis Hcompany : u_companyId currentUser = companyId.

(** Past its checks [updateUser] writes the row. *)
Lemma updateUser_writes (m : string) (manager : User) :
  managerId = Some m ->
  Prisma.user_findUnique m db = Some manager ->
  u_companyId manager = companyId ->
  let written :=
    set_users
      (map (fun x => if String.eqb (u_id x) id
                     then UserController.with_changes role managerId isActive x
                     else x) (users db)) db in
  UserController.updateUser companyId id role managerId isActive db
  = (written,
     Return (UserController.with_changes role managerId isActive currentUser))
  /\ Prisma.user_findUnique id written
     = Some (UserController.with_changes role managerId isActive currentUser).
Proof.
  intros -> Hm Hc. cbv zeta. split.
  - unfold UserController.updateUser, bind, get. rewrite Hfound.
    apply String.eqb_eq in Hcompany, Hc. rewrite Hcompany. cbn [negb].
    assert (Hcheck :
      (if truthy_string m && negb (eq_nullable m (u_managerId currentUser))
       then
         fun d : DB =>
           match Prisma.user_findUnique m d with
           | Some mg =>
               if negb (String.eqb (u_companyId mg) companyId)
               then throw (AppError "Invalid manager ID" 400) d
               else ret tt d
           | None => throw (AppError "Invalid manager ID" 400) d
           end
       else ret tt) db = (db, Return tt)).
    { destruct (truthy_string m && _); [|reflexivity].
      now rewrite Hm, Hc. }
    destruct (truthy_string m && negb (eq_nullable m (u_managerId currentUser)));
      [rewrite Hm, Hc; cbn [negb] | ];
      unfold ret, UserController.user_update; rewrite Hfound;
      cbn [UserController.with_changes u_managerId]; now rewrite Hm.
  - unfold Prisma.user_findUnique. cbn [users set_users].
    now apply find_map_user.
Qed.

End ManagerLinks.

(** X19.  [updateUser] refuses, writing nothing: a user that does not exist
    or belongs to another company with 404 "User not found"; a new manager
    (non-empty, other than the present one) that does not exist or belongs
    to another company with 400 "Invalid manager ID".  A manager who is a
    user of the company is accepted and stored, whoever it is: nothing in
    the checks looks at the manager links that exist. *)
Theorem X19_update_user_checks_company_only
        (companyId id : string) (role managerId : option string)
        (isActive : option bool) (db : DB) :
  let r := UserController.updateUser companyId id role managerId isActive db in
  ((Prisma.user_findUnique id db = None
    \/ exists u, Prisma.user_findUnique id db = Some u
                 /\ u_companyId u <> companyId) ->
   r = (db, Throw (AppError "User not found" 404)))
  /\ (forall u m,
        Prisma.user_findUnique id db = Some u -> u_companyId u = companyId ->
        managerId = Some m -> m <> "" -> u_managerId u <> Some m ->
        (Prisma.user_findUnique m db = None
         \/ exists mg, Prisma.user_findUnique m db = Some mg
                       /\ u_companyId mg <> companyId) ->
        r = (db, Throw (AppError "Invalid manager ID" 400)))
  /\ (forall u m mg,
        Prisma.user_findUnique id db = Some u -> u_companyId u = companyId ->
        managerId = Some m ->
        Prisma.user_findUnique m db = Some mg -> u_companyId mg = companyId ->
        exists stored,
          snd r = Return stored
          /\ Prisma.user_findUnique id (fst r) = Some stored
          /\ u_managerId stored = Some m
          /\ u_id stored = id /\ u_companyId stored = companyId
          /\ expenses (fst r) = expenses db
          /\ approvalSteps (fst r) = approvalSteps db
          /\ approvalRules (fst r) = approvalRules db).
Proof.
  cbv zeta. split; [|split].
  - unfold UserController.updateUser, bind, get.
    intros [-> | (u & -> & Hc)]; [reflexivity|].
    apply String.eqb_neq in Hc. now rewrite Hc.
  - intros u m Hu Hc -> Hm Hcur Hbad.
    unfold UserController.updateUser, bind, get. rewrite Hu.
    apply String.eqb_eq in Hc. rewrite Hc. cbn [negb].
    assert (Ht : truthy_string m = true) by (destruct m; [now elim Hm | reflexivity]).
    assert (Hn : negb (eq_nullable m (u_managerId u)) = true).
    { unfold eq_nullable. destruct (u_managerId u) as [t|]; [|reflexivity].
      apply negb_true_iff, String.eqb_neq. congruence. }
    rewrite Ht, Hn. cbn [andb].
    destruct Hbad as [-> | (mg & -> & Hmg)]; [reflexivity|].
    apply String.eqb_neq in Hmg. now rewrite Hmg.
  - intros u m mg Hu Hc -> Hm Hmg.
    destruct (updateUser_writes companyId id role (Some m) isActive db u Hu Hc
                m mg eq_refl Hm Hmg) as [Hr Hrow].
    cbv zeta in Hr, Hrow. rewrite Hr. cbn [fst snd].
    exists (UserController.with_changes role (Some m) isActive u).
    split; [reflexivity|]. split; [exact Hrow|].
    cbn. repeat split; try assumption.
    now apply (user_findUnique_id id db).
Qed.

(** X20.  A user can be made their own manager: [updateUser] with the
    user's own identifier as manager returns and stores the link.  From
    then on the walk up the manager links that a SEQUENTIAL rule starts
    from that user never ends, whatever number of steps it is given. *)
Theorem X20_own_manager_is_accepted_and_the_walk_never_ends
        (companyId id : string) (role : option string)
        (isActive : option bool) (db : DB) (u : User)
        (Hfound : Prisma.user_findUnique id db = Some u)
        (Hcompany : u_companyId u = companyId) :
  let r := UserController.updateUser companyId id role (Some id) isActive db in
  (exists stored, snd r = Return stored /\ u_managerId stored = Some id)
  /\ (forall fuel,
        ApprovalEngine.getManagerHierarchy fuel id (fst r)
        = (fst r, Diverge)).
Proof.
  cbv zeta.
  destruct (updateUser_writes companyId id role (Some id) isActive db u Hfound
              Hcompany id u eq_refl Hfound Hcompany) as [Hr Hrow].
  cbv zeta in Hr, Hrow. rewrite Hr. cbn [fst snd]. split.
  - eexists. split; [reflexivity|]. reflexivity.
  - set (db' := set_users _ db) in *.
    set (me := UserController.with_changes role (Some id) isActive u) in *.
    assert (Hid : u_id me = id) by (apply (user_findUnique_id id db'), Hrow).
    assert (Hmgr : u_managerId me = Some id) by reflexivity.
    clearbody me db'.
    assert (Hloop : forall fuel acc,
              ApprovalEngine.managerLoop fuel db' (Some me) acc = None).
    { induction fuel as [|fuel IH]; intros acc; [reflexivity|].
      cbn [ApprovalEngine.managerLoop ApprovalEngine.managerOf].
      rewrite Hmgr, Hrow, Hid, Hrow.
      apply IH. }
    intros fuel. unfold ApprovalEngine.getManagerHierarchy.
    now rewrite Hrow, Hloop.
Qed.

Lemma X20_own_manager_witness :
  let r := UserController.updateUser "acme" "employee" None (Some "employee")
             None (Sample.store [] [] [] []) in
  ApprovalEngine.getManagerHierarchy 1000 "employee" (fst r)
  = (fst r, Diverge).
Proof.
  cbv zeta.
  exact (proj2
    (X20_own_manager_is_accepted_and_the_walk_never_ends "acme" "employee"
       None None (Sample.store [] [] [] []) Sample.employee eq_refl eq_refl)
    1000%nat).
Defined.

Section PlainErrors.










Lemma find_app_none {A} (f : A -> bool) (l r : list A) :
  find f l = None -> find f (l ++ r) = find f r.
Proof.
  induction l as [|y l IH]; cbn [find app]; [reflexivity|].
  destruct (f y); [discriminate | exact IH].
Qed.

End PlainErrors.


Section JsDecision.

Variables (now : Z) (id status actionBy : string) (comments : option string).

Lemma map_decided_others (l : list ApprovalStep) :
  ~ In id (map s_id l) ->
  map (fun s => if String.eqb (s_id s) id
                then with_decision status actionBy now comments s else s) l
  = l.
Proof.
  intros Hn. rewrite <- (map_id l) at 2. apply map_ext_in. intros s Hs.
  destruct (String.eqb_spec (s_id s) id) as [E|E]; [|reflexivity].
  exfalso. apply Hn. rewrite <- E. now apply in_map.
Qed.

Lemma find_others (l : list ApprovalStep) :
  ~ In id (map s_id l) ->
  find (fun s => String.eqb (s_id s) id) l = None.
Proof.
  intros Hn. apply find_all_false. intros s Hs. apply String.eqb_neq.
  intros E. apply Hn. rewrite <- E. now apply in_map.
Qed.

Lemma countOf_split (expenseId st : string) (l1 l2 : list ApprovalStep)
      (x : ApprovalStep) :
  JsBackend.countOf st (JsBackend.stepsOfExpense expenseId (l1 ++ x :: l2))
  = (JsBackend.countOf st (JsBackend.stepsOfExpense expenseId l1)
     + (if String.eqb (s_expenseId x) expenseId && String.eqb (s_status x) st
        then 1 else 0)
     + JsBackend.countOf st (JsBackend.stepsOfExpense expenseId l2))%nat.
Proof.
  unfold JsBackend.countOf, JsBackend.stepsOfExpense.
  rewrite !filter_app, length_app. cbn [filter].
  destruct (String.eqb (s_expenseId x) expenseId); cbn [filter andb].
  - destruct (String.eqb (s_status x) st); cbn [List.length]; lia.
  - lia.
Qed.

Lemma total_split (expenseId : string) (l1 l2 : list ApprovalStep)
      (x : ApprovalStep) :
  List.length (JsBackend.stepsOfExpense expenseId (l1 ++ x :: l2))
  = (List.length (JsBackend.stepsOfExpense expenseId l1)
     + (if String.eqb (s_expenseId x) expenseId then 1 else 0)
     + List.length (JsBackend.stepsOfExpense expenseId l2))%nat.
Proof.
  unfold JsBackend.stepsOfExpense. rewrite !filter_app, length_app.
  cbn [filter]. destruct (String.eqb (s_expenseId x) expenseId);
    cbn [List.length]; lia.
Qed.

End JsDecision.

(** X21.  In the step table of the alternate backend (identifiers unique),
    [updateStatus] on a pending step with status approved or rejected
    returns the row as written and moves exactly one count of that step's
    expense: the pending count goes down by one, the count of the new
    status up by one, the total and the other count stay; the counts and
    flags of every other expense are untouched. *)
Theorem X21_decision_moves_one_count
        (now : Z) (id status actionBy : string) (comments : option string)
        (rows : list ApprovalStep) (step : ApprovalStep)
        (Hids : NoDup (map s_id rows))
        (Hin : In step rows) (Hid : s_id step = id)
        (Hpending : s_status step = "pending")
        (Hstatus : status = "approved" \/ status = "rejected") :
  exists rows',
    JsBackend.updateStatus now id status actionBy comments rows
    = Some (rows', Some (with_decision status actionBy now comments step))
    /\ (let before := JsBackend.stats
                        (JsBackend.checkExpenseApprovalComplete
                           (s_expenseId step) rows) in
        let after := JsBackend.stats
                       (JsBackend.checkExpenseApprovalComplete
                          (s_expenseId step) rows') in
        JsBackend.total after = JsBackend.total before
        /\ S (JsBackend.pending after) = JsBackend.pending before
        /\ (status = "approved" ->
            JsBackend.approved after = S (JsBackend.approved before)
            /\ JsBackend.rejected after = JsBackend.rejected before)
        /\ (status = "rejected" ->
            JsBackend.rejected after = S (JsBackend.rejected before)
            /\ JsBackend.approved after = JsBackend.approved before))
    /\ (forall other, other <> s_expenseId step ->
          JsBackend.checkExpenseApprovalComplete other rows'
          = JsBackend.checkExpenseApprovalComplete other rows).
Proof.
  destruct (in_split _ _ Hin) as (l1 & l2 & ->).
  rewrite map_app in Hids. cbn [map] in Hids.
  pose proof (NoDup_remove_2 _ _ _ Hids) as Hnot. rewrite Hid in Hnot.
  assert (H1 : ~ In id (map s_id l1))
    by (intros H; apply Hnot, in_or_app; now left).
  assert (H2 : ~ In id (map s_id l2))
    by (intros H; apply Hnot, in_or_app; now right).
  set (step' := with_decision status actionBy now comments step).
  exists (l1 ++ step' :: l2)%list.
  assert (Hrows :
    map (fun s => if String.eqb (s_id s) id
                  then with_decision status actionBy now comments s else s)
        (l1 ++ step :: l2)
    = (l1 ++ step' :: l2)%list).
  { rewrite map_app. cbn [map]. rewrite Hid, String.eqb_refl.
    now rewrite !map_decided_others. }
  split; [|split].
  - unfold JsBackend.updateStatus.
    assert (Hallowed : JsBackend.allowedStatus status = true)
      by (destruct Hstatus as [-> | ->]; reflexivity).
    rewrite Hallowed, Hrows. do 2 f_equal.
    rewrite (find_app_none _ _ _ (find_others id l1 H1)). cbn [find].
    cbn [step' with_decision s_id]. now rewrite Hid, String.eqb_refl.
  - cbv zeta.
    cbn [JsBackend.checkExpenseApprovalComplete JsBackend.stats
         JsBackend.total JsBackend.pending JsBackend.approved
         JsBackend.rejected].
    rewrite !total_split, !countOf_split.
    cbn [step' with_decision s_expenseId s_status].
    rewrite Hpending, !String.eqb_refl. cbn [andb].
    destruct Hstatus as [-> | ->];
      cbn [String.eqb Ascii.eqb Bool.eqb andb];
      (split; [reflexivity|]); (split; [lia|]);
      (split; intros Hs; try discriminate Hs; split; lia).
  - intros other Hother.
    unfold JsBackend.checkExpenseApprovalComplete.
    rewrite !total_split, !countOf_split.
    cbn [step' with_decision s_expenseId s_status].
    apply not_eq_sym in Hother. apply String.eqb_neq in Hother.
    now rewrite Hother.
Qed.

(** Two steps of the trip, the manager's pending: the manager approves. *)
Lemma X21_decision_witness :
  let rows := [Sample.step "s1" "admin" 1 "approved";
               Sample.step "s2" "manager" 2 "pending"] in
  exists rows',
    JsBackend.updateStatus Sample.noon "s2" "approved" "manager" None rows
    = Some (rows',
            Some (with_decision "approved" "manager" Sample.noon None
                    (Sample.step "s2" "manager" 2 "pending")))
    /\ JsBackend.isApproved
         (JsBackend.checkExpenseApprovalComplete "trip" rows') = true.
Proof.
  cbv zeta.
  destruct (X21_decision_moves_one_count Sample.noon "s2" "approved" "manager"
              None
              [Sample.step "s1" "admin" 1 "approved";
               Sample.step "s2" "manager" 2 "pending"]
              (Sample.step "s2" "manager" 2 "pending")
              ltac:(repeat constructor; cbn; intuition discriminate)
              (or_intror (or_introl eq_refl)) eq_refl eq_refl
              (or_introl eq_refl)) as (rows' & Hr & _).
  exists rows'. split; [exact Hr|].
  injection Hr as <-. reflexivity.
Defined.
